(** * goPhat: the Viewstamped Replication core, the server facade and the
      broadcast-and-gather transport, embedded and checked against the
      specification.

    Sources embedded here:
    - package [vr] (replica core, normal case): [doCommit], [Prepare],
      [Commit], [IsMaster], [SortTimes], [Heartbeat], [ExtendLease],
      [ExtendNeedsRenewal], [ReplicaTimeout], [BecomeMaster], [RunVR],
      [handlePrepareOK], [sendCommitMsgs], [sendAndRecvTo];
    - vr/vrviewchange.go: [resetVcstate], [PrepareViewChange],
      [StartViewChange], [DoViewChange], [StartView], [calcMasterView];
    - package [phatlog]: [Max], [EmptyLog], [Add], [GetCommand];
    - phatRPC/phatRPC.go: [getMasterId], [GetMaster], [RPCDB];
    - package [vr], the choice of peers in [sendAndRecv];
    - phatclient/phatclient.go: [connectToServer], [connectToMaster];
    - phatdb/phatdb.go: the tree and its operations.

    Conventions.  Go's [uint] and [uint64] are 64-bit words, kept as [N] with
    the wrap-around written out ([wrap]); [int] is a signed 64-bit word kept
    as [Z] ([wrap_int]).  [time.Time] is an instant and [time.Duration] a
    span, both counted in nanoseconds ([Z]); [time.Now()] is an explicit
    argument [now].  A [*time.Timer] is kept as the instant at which it is
    armed to fire; the replica's lease timer runs [ReplicaTimeout] when that
    instant has come ([run_Timer]).  A nil map is [None].  [log.Fatalf] (a
    failed [assert]) and a run-time panic end the process: they are the
    [Fatal] and [Panic] outcomes. *)

From stdpp Require Import gmap strings list sorting pretty relations.

Open Scope N_scope.

(** ** Machine integers, instants *)

Definition uint := N.
Definition Time := Z.
Definition Duration := Z.
Bind Scope Z_scope with Time Duration.

Definition wrap (n : N) : uint := n mod 2 ^ 64.

Definition wrap_int (z : Z) : Z := ((z + 2 ^ 63) mod 2 ^ 64 - 2 ^ 63)%Z.

(** [1 << n] at type [uint64]: a shift count of 64 or more yields 0. *)
Definition bit (n : uint) : uint := wrap (N.shiftl 1 n).

Definition millisecond : Duration := 1000000%Z.

(** ** Constants of package vr *)

Definition F : N := 1.
Definition NREPLICAS : N := 2 * F.
Definition LEASE : Duration := (2000 * millisecond)%Z.
Definition RENEW_FACTOR : Z := 2.
Definition MAX_CLOCK_DRIFT : Duration := (LEASE / 10)%Z.
Definition MAX_TRIES : N := 2.
Definition BACKOFF_TIME : Duration := (10 * millisecond)%Z.

Inductive Status := Normal | Recovery | ViewChange.

#[global] Instance Status_eq_dec : EqDecision Status.
Proof. solve_decision. Defined.

Definition Command := string.

(** ** Outcomes: a call returns, or the process dies *)

Inductive outcome (A : Type) : Type :=
| Ok (a : A)
| Fatal
| Panic.
Arguments Ok {A} a.
Arguments Fatal {A}.
Arguments Panic {A}.

Definition obind {A B} (m : outcome A) (k : A -> outcome B) : outcome B :=
  match m with
  | Ok a => k a
  | Fatal => Fatal
  | Panic => Panic
  end.

Notation "x <<- m ;; k" := (obind m (fun x => k))
  (at level 100, m at next level, right associativity).

Definition assert (b : bool) : outcome unit := if b then Ok tt else Fatal.

(** ** package phatlog *)

Module phatlog.

Record Log := mkLog {
  Commits : gmap N Command;
  MaxIndex : uint
}.

Definition Max (a b : uint) : uint := if a <? b then b else a.

Definition EmptyLog : Log := {| Commits := ∅; MaxIndex := 0 |}.

Definition Add (l : Log) (index : uint) (command : Command) : Log :=
  {| Commits := <[index := command]> (Commits l);
     MaxIndex := Max (MaxIndex l) index |}.

(** A missing key reads as the nil interface value, [None]. *)
Definition GetCommand (l : Log) (index : uint) : option Command :=
  Commits l !! index.

End phatlog.

(** ** Wire messages *)

Record DoViewChangeArgs := mkDoViewChangeArgs {
  dvc_View : uint;
  dvc_ReplicaNumber : uint;
  dvc_Log : option phatlog.Log;      (* *phatlog.Log, nil = None *)
  dvc_NormalView : uint;
  dvc_OpNumber : uint;
  dvc_CommitNumber : uint
}.

Definition zeroDoViewChangeArgs : DoViewChangeArgs :=
  mkDoViewChangeArgs 0 0 None 0 0 0.

Record PrepareArgs := mkPrepareArgs {
  pa_View : uint;
  pa_Command : Command;
  pa_OpNumber : uint;
  pa_CommitNumber : uint
}.

Record PrepareReply := mkPrepareReply {
  pr_View : uint;
  pr_OpNumber : uint;
  pr_ReplicaNumber : uint;
  pr_Lease : Time
}.

Record CommitArgs := mkCommitArgs {
  ca_View : uint;
  ca_CommitNumber : uint
}.

Record HeartbeatReply := mkHeartbeatReply {
  hr_ReplicaNumber : uint;
  hr_Lease : Time
}.

Record StartViewChangeArgs := mkStartViewChangeArgs {
  svc_View : uint;
  svc_ReplicaNumber : uint
}.

Record StartViewArgs := mkStartViewArgs {
  sv_View : uint;
  sv_Log : option phatlog.Log;
  sv_OpNumber : uint;
  sv_CommitNumber : uint
}.

(** What a replica hands to [sendAndRecv] ([r.sendAndRecv(NREPLICAS, msg,
    args, ...)]): the RPC name with its argument; and the one unicast,
    [r.SendSync(to, "RPCReplica.DoViewChange", args, nil)]. *)
Inductive Broadcast :=
| BcastPrepare (args : PrepareArgs)
| BcastCommit (args : CommitArgs)
| BcastStartViewChange (args : StartViewChangeArgs)
| BcastStartView (args : StartViewArgs)
| SyncDoViewChange (to : uint) (args : DoViewChangeArgs).

#[global] Instance DoViewChangeArgs_inhabited : Inhabited DoViewChangeArgs :=
  populate zeroDoViewChangeArgs.

(** ** Replica state *)

Record ReplicaState := mkReplicaState {
  View : uint;
  OpNumber : uint;
  CommitNumber : uint;
  ReplicaNumber : uint;
  Status_ : Status;
  NormalView : uint;
  ViewChangeMsgs : uint;
  Timer : option Time                (* follower lease timer *)
}.

Record MasterState := mkMasterState {
  A : Z;                             (* int *)
  Replies : uint;                    (* uint64 bit vector *)
  mTimer : option Time;              (* master renewal timer *)
  Heartbeats : option (gmap N Time); (* map[uint]time.Time, nil = None *)
  HeartbeatReplies : uint
}.

Record ViewChangeState := mkViewChangeState {
  DoViewChangeMsgs : list DoViewChangeArgs;   (* [NREPLICAS + 1]DoViewChangeArgs *)
  DoViewReplies : uint;
  StartViewReplies : uint;
  StartViews : uint;
  DoViews : uint;
  vcNormalView : uint
}.

(** The fields of [Replica] the replica core reads and writes, followed by
    two traces of its effects: the commands handed to [CommitFunc] and the
    broadcasts started. *)
Record Replica := mkReplica {
  Rstate : ReplicaState;
  Mstate : MasterState;
  Vcstate : ViewChangeState;
  Phatlog : option phatlog.Log;      (* *phatlog.Log *)
  CommitFunc : bool;                 (* CommitFunc != nil *)
  IsShutdown : bool;
  Applied : list (option Command);
  Outbox : list Broadcast
}.

Definition with_Rstate (f : ReplicaState -> ReplicaState) (r : Replica) : Replica :=
  mkReplica (f (Rstate r)) (Mstate r) (Vcstate r) (Phatlog r) (CommitFunc r)
            (IsShutdown r) (Applied r) (Outbox r).

Definition with_Mstate (f : MasterState -> MasterState) (r : Replica) : Replica :=
  mkReplica (Rstate r) (f (Mstate r)) (Vcstate r) (Phatlog r) (CommitFunc r)
            (IsShutdown r) (Applied r) (Outbox r).

Definition with_Vcstate (f : ViewChangeState -> ViewChangeState) (r : Replica) : Replica :=
  mkReplica (Rstate r) (Mstate r) (f (Vcstate r)) (Phatlog r) (CommitFunc r)
            (IsShutdown r) (Applied r) (Outbox r).

Definition set_Phatlog (l : option phatlog.Log) (r : Replica) : Replica :=
  mkReplica (Rstate r) (Mstate r) (Vcstate r) l (CommitFunc r)
            (IsShutdown r) (Applied r) (Outbox r).

Definition call_CommitFunc (c : option Command) (r : Replica) : Replica :=
  mkReplica (Rstate r) (Mstate r) (Vcstate r) (Phatlog r) (CommitFunc r)
            (IsShutdown r) (Applied r ++ [c]) (Outbox r).

Definition send (b : Broadcast) (r : Replica) : Replica :=
  mkReplica (Rstate r) (Mstate r) (Vcstate r) (Phatlog r) (CommitFunc r)
            (IsShutdown r) (Applied r) (Outbox r ++ [b]).

Definition set_View (v : uint) (s : ReplicaState) : ReplicaState :=
  mkReplicaState v (OpNumber s) (CommitNumber s) (ReplicaNumber s) (Status_ s)
                 (NormalView s) (ViewChangeMsgs s) (Timer s).

Definition set_OpNumber (n : uint) (s : ReplicaState) : ReplicaState :=
  mkReplicaState (View s) n (CommitNumber s) (ReplicaNumber s) (Status_ s)
                 (NormalView s) (ViewChangeMsgs s) (Timer s).

Definition set_CommitNumber (n : uint) (s : ReplicaState) : ReplicaState :=
  mkReplicaState (View s) (OpNumber s) n (ReplicaNumber s) (Status_ s)
                 (NormalView s) (ViewChangeMsgs s) (Timer s).

Definition set_Status (st : Status) (s : ReplicaState) : ReplicaState :=
  mkReplicaState (View s) (OpNumber s) (CommitNumber s) (ReplicaNumber s) st
                 (NormalView s) (ViewChangeMsgs s) (Timer s).

Definition set_Timer (t : option Time) (s : ReplicaState) : ReplicaState :=
  mkReplicaState (View s) (OpNumber s) (CommitNumber s) (ReplicaNumber s)
                 (Status_ s) (NormalView s) (ViewChangeMsgs s) t.

(** [t.Reset(d)]: the timer will fire [d] after the present instant. *)
Definition Timer_Reset (now : Time) (d : Duration) : option Time := Some (now + d)%Z.

(** The result of an RPC handler: the [error] it returns, or the reply it
    has filled in. *)
Inductive rpc (R : Type) : Type :=
| Refused (err : string)
| Replied (reply : R).
Arguments Refused {R} err.
Arguments Replied {R} reply.

Definition wrongView : string := "view numbers don't match".

(** ** The replica core (package vr) *)

Section Core.

(** [PrepareRecovery] belongs to the recovery half of package vr, which is
    not among the sources: the core is embedded over whatever it does to
    the replica. *)
Variable PrepareRecovery : Replica -> Replica.

(** [handlePrepareOK] calls [r.Heartbeat(reply.ReplicaNumber)], leaving out
    the second argument of [Heartbeat]; the instant handed over at that
    call is kept open. *)
Variable okGrant : PrepareReply -> Time.

Definition addLog (command : Command) (r : Replica) : outcome Replica :=
  match Phatlog r with
  | None => Panic
  | Some l => Ok (set_Phatlog (Some (phatlog.Add l (OpNumber (Rstate r)) command)) r)
  end.

(** [for i := from; i < cn; i++ { body(i) }], [count] being [cn - from];
    [i] stays below [cn], so [i++] does not wrap. *)
Fixpoint for_upto (body : uint -> Replica -> option (outcome Replica))
         (count : nat) (i : uint) (r : Replica) : option (outcome Replica) :=
  match count with
  | O => Some (Ok r)
  | S count' =>
      match body i r with
      | Some (Ok r') => for_upto body count' (i + 1) r'
      | other => other
      end
  end.

(** [doCommit] calls itself from inside its catch-up loop; [fuel] bounds
    the depth of those calls and [None] means it ran out. *)
Fixpoint doCommit_fuel (fuel : nat) (cn : uint) (r : Replica)
  : option (outcome Replica) :=
  match fuel with
  | O => None
  | S fuel' =>
      if cn <=? CommitNumber (Rstate r) then Some (Ok r)
      else if OpNumber (Rstate r) <? cn then Some (Ok (PrepareRecovery r))
      else
        let caught_up :=
          if wrap (CommitNumber (Rstate r) + 1) <? cn then
            let from := wrap (CommitNumber (Rstate r) + 1) in
            for_upto (doCommit_fuel fuel') (N.to_nat (cn - from)) from r
          else Some (Ok r) in
        match caught_up with
        | Some (Ok r1) =>
            let next := wrap (CommitNumber (Rstate r1) + 1) in
            let applied :=
              if CommitFunc r1 then
                match Phatlog r1 with
                | None => Panic
                | Some l => Ok (call_CommitFunc (phatlog.GetCommand l next) r1)
                end
              else Ok r1 in
            Some (r2 <<- applied ;;
                  Ok (with_Rstate (set_CommitNumber next) r2))
        | other => other
        end
  end.

(** Two levels of calls are all [doCommit] ever needs: any fuel of two or
    more gives this result (see [doCommit_fuel_total]). *)
Definition doCommit (cn : uint) (r : Replica) : outcome Replica :=
  match doCommit_fuel (S (N.to_nat cn)) cn r with
  | Some o => o
  | None => Panic
  end.

Definition ExtendLease (now newTime : Time) (r : Replica) : Replica :=
  with_Rstate (set_Timer (Timer_Reset now (newTime - now)%Z)) r.

(** As written, what [Reset] is handed is
    [(newTime - time.Now()) / RENEW_FACTOR + time.Now()]; Go's division
    truncates. *)
Definition ExtendNeedsRenewal (now newTime : Time) (r : Replica) : Replica :=
  with_Mstate (fun m =>
    mkMasterState (A m) (Replies m)
      (Timer_Reset now ((newTime - now) ÷ RENEW_FACTOR + now)%Z)
      (Heartbeats m) (HeartbeatReplies m)) r.

Definition Prepare (now : Time) (args : PrepareArgs) (r : Replica)
  : outcome (rpc PrepareReply * Replica) :=
  if View (Rstate r) <? pa_View args then
    Ok (Refused "recovering", PrepareRecovery r)
  else if pa_View args <? View (Rstate r) then
    Ok (Refused wrongView, r)
  else if negb (bool_decide (Status_ (Rstate r) = Normal)) then
    Ok (Refused "not in normal mode", r)
  else if pa_OpNumber args <=? OpNumber (Rstate r) then
    Ok (Refused "old op number", r)
  else if wrap (OpNumber (Rstate r) + 1) <? pa_OpNumber args then
    let r' := PrepareRecovery r in
    Ok (Refused ("op numbers out of sync: got " +:+ pretty (pa_OpNumber args)
                 +:+ " expected " +:+ pretty (wrap (OpNumber (Rstate r') + 1))),
        r')
  else
    let lease := (now + LEASE)%Z in
    let r1 := ExtendLease now lease r in
    let r2 := with_Rstate (fun s => set_OpNumber (wrap (OpNumber s + 1)) s) r1 in
    r3 <<- addLog (pa_Command args) r2 ;;
    r4 <<- doCommit (pa_CommitNumber args) r3 ;;
    Ok (Replied (mkPrepareReply (View (Rstate r4)) (OpNumber (Rstate r4))
                                (ReplicaNumber (Rstate r)) lease), r4).

Definition Commit (now : Time) (args : CommitArgs) (r : Replica)
  : outcome (rpc HeartbeatReply * Replica) :=
  if View (Rstate r) <? ca_View args then
    Ok (Refused "doing a recovery", PrepareRecovery r)
  else if ca_View args <? View (Rstate r) then
    Ok (Refused wrongView, r)
  else
    let lease := (now + LEASE)%Z in
    let r1 := ExtendLease now lease r in
    r2 <<- doCommit (ca_CommitNumber args) r1 ;;
    Ok (Replied (mkHeartbeatReply (ReplicaNumber (Rstate r)) lease), r2).

Definition IsMaster (r : Replica) : bool :=
  View (Rstate r) mod (NREPLICAS + 1) =? ReplicaNumber (Rstate r).

Definition Mstate_Reset (r : Replica) : Replica :=
  with_Mstate (fun m =>
    mkMasterState 0 0 (mTimer m) (Heartbeats m) (HeartbeatReplies m)) r.

(** [SortTimes] as written stores [k] into [vals[i]] while ranging over the
    map, that is the key of each entry and not its value [v]; a key is read
    as the instant that many nanoseconds after the epoch.  The slice is
    then sorted with [Less = Before], i.e. ascending. *)
Definition SortTimes (times : gmap N Time) : list Time :=
  merge_sort Z.le ((fun kv : N * Time => Z.of_N kv.1) <$> map_to_list times).

(** [r.Mstate.Heartbeats[replica] = newTime] is a store into a nil map, a
    run-time panic, unless the map has been made. *)
Definition Heartbeat (now : Time) (replica : uint) (newTime : Time) (r : Replica)
  : outcome Replica :=
  _ <<- assert (IsMaster r) ;;
  match Heartbeats (Mstate r) with
  | None => Panic
  | Some heartbeats =>
      let r1 := with_Mstate (fun m =>
        mkMasterState (A m) (Replies m) (mTimer m)
          (Some (<[replica := newTime]> heartbeats)) (HeartbeatReplies m)) r in
      let sortedTimes := SortTimes (<[replica := newTime]> heartbeats) in
      _ <<- assert (N.of_nat (length sortedTimes) =? NREPLICAS) ;;
      match sortedTimes !! N.to_nat F with
      | None => Panic
      | Some t =>
          let leaseExpiry := (t + - MAX_CLOCK_DRIFT)%Z in
          Ok (ExtendLease now leaseExpiry (ExtendNeedsRenewal now leaseExpiry r1))
      end
  end.

Definition sendCommitMsgs (r : Replica) : Replica :=
  send (BcastCommit (mkCommitArgs (View (Rstate r)) (CommitNumber (Rstate r)))) r.

Definition BecomeMaster (now : Time) (r : Replica) : outcome Replica :=
  _ <<- assert (IsMaster r) ;;
  let r1 := Mstate_Reset r in
  let r2 := ExtendNeedsRenewal now (now + (LEASE - MAX_CLOCK_DRIFT))%Z r1 in
  Ok (ExtendLease now (now + (LEASE - MAX_CLOCK_DRIFT))%Z r2).

(** [RunVR] up to the point where it hands the [Prepare] to [sendAndRecv];
    the replies come back through [handlePrepareOK]. *)
Definition RunVR (command : Command) (r : Replica) : outcome Replica :=
  _ <<- assert (IsMaster r) ;;
  _ <<- assert (OpNumber (Rstate r) =? CommitNumber (Rstate r)) ;;
  let r1 := Mstate_Reset r in
  let r2 := with_Rstate (fun s => set_OpNumber (wrap (OpNumber s + 1)) s) r1 in
  r3 <<- addLog command r2 ;;
  Ok (send (BcastPrepare (mkPrepareArgs (View (Rstate r3)) command
                            (OpNumber (Rstate r3)) (CommitNumber (Rstate r3)))) r3).

Definition handlePrepareOK (now : Time) (reply : PrepareReply) (r : Replica)
  : outcome (bool * Replica) :=
  if negb (pr_View reply =? View (Rstate r)) then Ok (false, r)
  else
    r1 <<- Heartbeat now (pr_ReplicaNumber reply) (okGrant reply) r ;;
    if negb (pr_OpNumber reply =? OpNumber (Rstate r1)) then Ok (false, r1)
    else if negb (N.land (bit (pr_ReplicaNumber reply)) (Replies (Mstate r1)) =? 0)
    then Ok (false, r1)
    else
      let r2 := with_Mstate (fun m =>
        mkMasterState (wrap_int (A m + 1))
          (N.lor (Replies m) (bit (pr_ReplicaNumber reply)))
          (mTimer m) (Heartbeats m) (HeartbeatReplies m)) r1 in
      if negb (A (Mstate r2) =? Z.of_N F)%Z then
        Ok ((Z.of_N F <=? A (Mstate r2))%Z, r2)
      else
        r3 <<- doCommit (wrap (CommitNumber (Rstate r2) + 1)) r2 ;;
        Ok (true, sendCommitMsgs r3).

(** *** View change (vr/vrviewchange.go) *)

Definition zeroVcstate : ViewChangeState :=
  mkViewChangeState (replicate (N.to_nat (NREPLICAS + 1)) zeroDoViewChangeArgs)
                    0 0 0 0 0.

Definition resetVcstate (r : Replica) : Replica :=
  with_Vcstate (fun _ => zeroVcstate) r.

Definition PrepareViewChange (r : Replica) : Replica :=
  let r1 := with_Rstate (set_Status ViewChange) r in
  let r2 := with_Rstate (fun s => set_View (wrap (View s + 1)) s) r1 in
  send (BcastStartViewChange
          (mkStartViewChangeArgs (View (Rstate r2)) (ReplicaNumber (Rstate r2)))) r2.

Definition StartViewChange (args : StartViewChangeArgs) (r : Replica) : Replica :=
  if svc_View args <? View (Rstate r) then r
  else if negb (N.land (bit (svc_ReplicaNumber args)) (StartViewReplies (Vcstate r)) =? 0)
  then r
  else
    let r1 := with_Vcstate (fun vc =>
      mkViewChangeState (DoViewChangeMsgs vc) (DoViewReplies vc)
        (N.lor (StartViewReplies vc) (bit (svc_ReplicaNumber args)))
        (wrap (StartViews vc + 1)) (DoViews vc) (vcNormalView vc)) r in
    let r2 :=
      if View (Rstate r1) <? svc_View args then
        let r1a := with_Vcstate (fun vc =>
          mkViewChangeState (DoViewChangeMsgs vc) (DoViewReplies vc)
            (StartViewReplies vc) (StartViews vc) (DoViews vc)
            (View (Rstate r1))) r1 in
        let r1b := with_Rstate (set_View (svc_View args)) r1a in
        let r1c := with_Rstate (set_Status ViewChange) r1b in
        send (BcastStartViewChange
                (mkStartViewChangeArgs (View (Rstate r1c)) (ReplicaNumber (Rstate r1c))))
             r1c
      else r1 in
    if StartViews (Vcstate r2) =? F then
      let DVCargs :=
        mkDoViewChangeArgs (View (Rstate r2)) (ReplicaNumber (Rstate r2)) (Phatlog r2)
          (vcNormalView (Vcstate r2)) (OpNumber (Rstate r2)) (CommitNumber (Rstate r2)) in
      if negb (IsMaster r2)
      then send (SyncDoViewChange (View (Rstate r2) mod (NREPLICAS + 1)) DVCargs) r2
      else r2
    else r2.

(** The follower lease timer has fired. *)
Definition ReplicaTimeout (now : Time) (r : Replica) : Replica :=
  ExtendLease now (now + LEASE)%Z (PrepareViewChange r).

(** [r.Rstate.Timer] is made by [time.AfterFunc(LEASE, r.ReplicaTimeout)]:
    when the instant it is armed at has come the runtime runs
    [ReplicaTimeout], which arms it again.  [fuel] bounds the number of
    times it fires. *)
Fixpoint run_Timer_fuel (fuel : nat) (now : Time) (r : Replica) : Replica :=
  match fuel with
  | O => r
  | S fuel' =>
      match Timer (Rstate r) with
      | Some deadline =>
          if (deadline <=? now)%Z
          then run_Timer_fuel fuel' now (ReplicaTimeout deadline r)
          else r
      | None => r
      end
  end.

(** The replica as a call arriving at [now] finds it: the lease timer has
    fired as often as it was due, the delay between the instant a timer is
    armed at and the run of its callback being taken as nil.  Each firing
    moves the deadline on by LEASE, so the fuel given is enough
    ([run_Timer_not_due]). *)
Definition run_Timer (now : Time) (r : Replica) : Replica :=
  match Timer (Rstate r) with
  | Some deadline => run_Timer_fuel (S (Z.to_nat ((now - deadline) / LEASE))) now r
  | None => r
  end.

(** The five local variables of the loop in [calcMasterView]. *)
Record calcVars := mkCalcVars {
  maxOp : uint;
  maxCommit : uint;
  maxIdx : uint;
  maxNormalView : uint;
  maxView : uint
}.

(** One pass through the body of [for i := 0; i < NREPLICAS+1; i++]. *)
Definition calcMasterView_body (r : Replica) (v : calcVars) (i : nat) : calcVars :=
  let m := DoViewChangeMsgs (Vcstate r) !!! i in
  let v1 :=
    if maxView v <? dvc_View m
    then mkCalcVars (maxOp v) (maxCommit v) (maxIdx v) (maxNormalView v) (dvc_View m)
    else v in
  if negb (N.of_nat i =? ReplicaNumber (Rstate r)) then
    let v2 :=
      if (maxNormalView v1 <? dvc_NormalView m)
         || ((dvc_NormalView m =? maxNormalView v1) && (maxOp v1 <? dvc_OpNumber m))
      then mkCalcVars (dvc_OpNumber m) (maxCommit v1) (N.of_nat i)
                      (maxNormalView v1) (maxView v1)
      else v1 in
    if maxCommit v2 <? dvc_CommitNumber m
    then mkCalcVars (maxOp v2) (dvc_CommitNumber m) (maxIdx v2)
                    (maxNormalView v2) (maxView v2)
    else v2
  else v1.

Definition calcMasterView_loop (r : Replica) : calcVars :=
  foldl (calcMasterView_body r) (mkCalcVars 0 0 0 0 0)
        (seq 0 (N.to_nat (NREPLICAS + 1))).

Definition calcMasterView (r : Replica) : Replica :=
  let r0 := with_Rstate (set_View (dvc_View (DoViewChangeMsgs (Vcstate r) !!! 0%nat))) r in
  let v := calcMasterView_loop r0 in
  let r1 := with_Rstate (set_View (maxView v)) r0 in
  let r2 := set_Phatlog (dvc_Log (DoViewChangeMsgs (Vcstate r1) !!! N.to_nat (maxIdx v))) r1 in
  let r3 := with_Rstate (set_OpNumber (maxOp v)) r2 in
  with_Rstate (set_CommitNumber (maxCommit v)) r3.

(** The store into [DoViewChangeMsgs[args.ReplicaNumber]] panics on an index
    outside the array; nothing of the two stores before it outlives the
    panic, so the bound is tested first. *)
Definition DoViewChange (now : Time) (args : DoViewChangeArgs) (r : Replica)
  : outcome Replica :=
  if negb (N.land (bit (dvc_ReplicaNumber args)) (DoViewReplies (Vcstate r)) =? 0)
  then Ok r
  else if negb (dvc_ReplicaNumber args <? NREPLICAS + 1) then Panic
  else
    let r1 := with_Vcstate (fun vc =>
      mkViewChangeState
        (<[N.to_nat (dvc_ReplicaNumber args) := args]> (DoViewChangeMsgs vc))
        (N.lor (DoViewReplies vc) (bit (dvc_ReplicaNumber args)))
        (StartViewReplies vc) (StartViews vc) (wrap (DoViews vc + 1))
        (vcNormalView vc)) r in
    if DoViews (Vcstate r1) =? F then
      let r2 := calcMasterView r1 in
      let r3 := with_Rstate (set_Status Normal) r2 in
      r4 <<- BecomeMaster now r3 ;;
      Ok (send (BcastStartView (mkStartViewArgs (View (Rstate r4)) (Phatlog r4)
                  (OpNumber (Rstate r4)) (CommitNumber (Rstate r4)))) r4)
    else Ok r1.

(** Modelled from the spec: the argument of [ExtendLease] at its call in
    [StartView], which the source leaves out ([r.Rstate.ExtendLease()]);
    section 4.5: reset the follower lease timer to a fresh LEASE. *)
Definition StartView_lease (now : Time) : Time := (now + LEASE)%Z.

(** The handler takes its argument as a [*DoViewChangeArgs]. *)
Definition StartView (now : Time) (args : DoViewChangeArgs) (r : Replica) : Replica :=
  let r1 := set_Phatlog (dvc_Log args) r in
  let r2 := with_Rstate (set_OpNumber (dvc_OpNumber args)) r1 in
  let r3 := with_Rstate (set_CommitNumber (dvc_CommitNumber args)) r2 in
  let r4 := with_Rstate (set_Status Normal) r3 in
  let r5 := ExtendLease now (StartView_lease now) r4 in
  resetVcstate r5.

End Core.

(** [RunAsReplica] / [ReplicaInit]: the state a replica starts from, before
    [BecomeMaster] is run on replica 0.  [new(Replica)] leaves [Heartbeats]
    nil, and [ReplicaInit] does not make it. *)
Definition initReplica (now : Time) (i : uint) : Replica :=
  mkReplica
    (mkReplicaState 0 0 0 i Normal 0 0 (Timer_Reset now LEASE))
    (mkMasterState 0 0 None None 0)
    zeroVcstate
    (Some phatlog.EmptyLog)
    true false [] [].

(** Modelled from the spec: [PrepareRecovery], whose source (the recovery
    half of package vr) is missing.  Section 4.4 and 4.6: the replica enters
    Recovery; the nonce and the [Recovery] broadcast touch none of the fields
    kept in [Replica]. *)
Definition enterRecovery (r : Replica) : Replica :=
  with_Rstate (set_Status Recovery) r.

(** ** The server facade (phatRPC/phatRPC.go) *)

Module phatRPC.

Record DBCommand := mkDBCommand {
  Command : string;
  Path : string;
  Value : string
}.

(** [Reply] is an [interface{}]; the facade itself only ever stores a
    master id in it. *)
Record DBResponse := mkDBResponse {
  Reply : option uint;
  Error : string
}.

Record Server := mkServer {
  ReplicaServer : Replica
}.

Definition getMasterId (s : Server) : uint :=
  View (Rstate (ReplicaServer s)) mod NREPLICAS.

Definition GetMaster (s : Server) : rpc uint :=
  if negb (bool_decide (Status_ (Rstate (ReplicaServer s)) = Normal))
  then Refused "Master Failover"
  else Replied (getMasterId s).

(** Where [RPCDB] sends a command: it returns at once with an error, it
    runs the command through [RunVR] and waits for the database's answer,
    or it puts the command on [InputChan] (straight to the database). *)
Inductive route :=
| Return (err : string) (reply : DBResponse)
| ThroughRunVR (args : DBCommand)
| ThroughInputChan (args : DBCommand).

(** [case "CREATE", "DELETE", "SET", "GET":] *)
Definition goes_through_paxos (command : string) : bool :=
  bool_decide (command = "CREATE") || bool_decide (command = "DELETE")
  || bool_decide (command = "SET") || bool_decide (command = "GET").

Definition RPCDB (s : Server) (args : DBCommand) (reply : DBResponse) : route :=
  if negb (bool_decide (Status_ (Rstate (ReplicaServer s)) = Normal))
  then Return "Master Failover" reply
  else
    let MasterId := getMasterId s in
    let Id := ReplicaNumber (Rstate (ReplicaServer s)) in
    if negb (Id =? MasterId)
    then Return "Not master node" (mkDBResponse (Some MasterId) "Not master node")
    else if goes_through_paxos (Command args)
         then ThroughRunVR args
         else ThroughInputChan args.

End phatRPC.

(** ** Broadcast and gather ([sendAndRecvTo]) *)

Module Transport.

Inductive callError := ErrShutdown | ErrOther.

Section Gather.

Variable Reply : Type.

(** The network: whether [ClientConnect] to a peer succeeds, and what
    [client.Call] yields, at a given attempt. *)
Variable dial : uint -> uint -> bool.
Variable call : uint -> uint -> callError + Reply.

Variable handler : Reply -> bool.

Record ReplicaCall := mkReplicaCall {
  cReply : option Reply;
  cError : option callError;
  RepNum : uint;
  Tries : uint
}.

(** [Clients]: the peers with an open connection ([r.Clients[n] != nil]).
    [running]: the [sendOne(repNum, tries)] goroutines that have not yet
    handed their call to [callChan].  [i], [callHandler]: the gather
    loop's variables.  [done]: [doneChan] has been signalled, so
    [sendAndRecvTo] has returned.  [exited]: the loop is over. *)
Record gather := mkGather {
  Clients : gset N;
  running : list (uint * uint);
  gN : N;
  i : N;
  callHandler : bool;
  done : bool;
  exited : bool
}.

Definition sendOne (repNum tries : uint) (clients : gset N)
  : ReplicaCall * gset N :=
  let tries' := wrap (tries + 1) in
  if bool_decide (repNum ∈ clients) || dial repNum tries' then
    match call repNum tries' with
    | inl e => (mkReplicaCall None (Some e) repNum tries', clients ∪ {[repNum]})
    | inr rep => (mkReplicaCall (Some rep) None repNum tries', clients ∪ {[repNum]})
    end
  else (mkReplicaCall None (Some ErrOther) repNum tries', clients).

(** The loop test [i < N] and, once it fails, the code after the loop. *)
Definition loop_test (g : gather) : gather :=
  if i g <? gN g then g
  else mkGather (Clients g) (running g) (gN g) (i g) (callHandler g)
                (done g || callHandler g) true.

(** [sendAndRecvTo] up to the point where it waits on [doneChan]. *)
Definition start (self : uint) (clients : gset N) (replicas : list uint) : gather :=
  loop_test
    (mkGather clients
       ((fun repNum => (repNum, 0)) <$> filter (fun repNum => repNum ≠ self) replicas)
       (N.of_nat (length replicas)) 0 true false false).

(** One pass through the loop body: [call := <-callChan] receives from
    the [k]-th running [sendOne]. *)
Definition receive (k : nat) (g : gather) : option gather :=
  if exited g then None
  else
    match running g !! k with
    | None => None
    | Some (repNum, tries) =>
        let rest := delete k (running g) in
        let '(c, clients) := sendOne repNum tries (Clients g) in
        match cError c with
        | Some e =>
            let clients' :=
              match e with
              | ErrShutdown => clients ∖ {[RepNum c]}
              | ErrOther => clients
              end in
            if MAX_TRIES <=? Tries c then
              Some (mkGather clients' rest (gN g) (i g) (callHandler g) (done g) false)
            else
              Some (mkGather clients' (rest ++ [(RepNum c, Tries c)]) (gN g) (i g)
                             (callHandler g) (done g) false)
        | None =>
            let satisfied :=
              callHandler g && match cReply c with
                               | Some rep => handler rep
                               | None => false
                               end in
            Some (loop_test
                    (mkGather clients rest (gN g) (i g + 1)
                              (callHandler g && negb satisfied)
                              (done g || satisfied) false))
        end
    end.

Definition step (g g' : gather) : Prop := ∃ k, receive k g = Some g'.

(** The gather loop waits on [callChan] and no [sendOne] is left to
    send on it. *)
Definition blocked (g : gather) : Prop :=
  exited g = false ∧ running g = [].

End Gather.

Arguments cReply {Reply} _.
Arguments cError {Reply} _.
Arguments RepNum {Reply} _.
Arguments Tries {Reply} _.

End Transport.

(** ** [sendAndRecv]: whom a broadcast goes to *)

(** [sendAndRecv]: the loop that fills [reps], [fuel] being the number of
    replica numbers still to visit ([repNum] goes up on every pass, also on
    [continue], and stays below NREPLICAS + 1, so [repNum++] does not
    wrap). *)
Fixpoint pick_replicas (fuel : nat) (self : uint) (n : Z) (repNum : uint) (i : Z)
         (reps : list uint) : list uint :=
  match fuel with
  | O => reps
  | S fuel' =>
      if (i <? n)%Z && (repNum <? NREPLICAS + 1) then
        if repNum =? self then pick_replicas fuel' self n (repNum + 1) i reps
        else pick_replicas fuel' self n (repNum + 1) (i + 1)%Z
                           (<[Z.to_nat i := repNum]> reps)
      else reps
  end.

(** [sendAndRecv], as far as [sendAndRecvTo] goes before it waits on
    [doneChan].  [make([]uint, N)] panics on a negative [N]. *)
Definition sendAndRecv (n : Z) (self : uint) (clients : gset N)
  : outcome Transport.gather :=
  _ <<- assert (n <=? Z.of_N NREPLICAS)%Z ;;
  if (n <? 0)%Z then Panic
  else Ok (Transport.start self clients
             (pick_replicas (N.to_nat (NREPLICAS + 1)) self n 0 0
                (replicate (Z.to_nat n) 0))).

(** ** The client library (phatclient/phatclient.go) *)

Module phatclient.

(** The fields [connectToServer] and [connectToMaster] read and write.
    [ServerLocations] has [NumServers] entries ([NewClient] sets both);
    [RpcClient] is kept as the index of the server the connection leads to,
    [None] for the nil pointer. *)
Record PhatClient := mkPhatClient {
  NumServers : uint;
  MasterId : uint;
  Id : uint;
  RpcClient : option uint
}.

Section Network.

(** The network during one [connectToMaster]: whether [rpc.Dial] to a server
    succeeds, and what [Call("Server.GetMaster")] on a connection to it
    yields ([None]: an error), at a given pass of the loop.  The dial after
    the loop counts as pass [NumServers]. *)
Variable dial : uint -> uint -> bool.
Variable getMaster : uint -> uint -> option uint.

(** [true]: the error returned is nil.  [c.ServerLocations[index]] panics
    outside the slice. *)
Definition connectToServer (pass index : uint) (c : PhatClient)
  : outcome (bool * PhatClient) :=
  if NumServers c <=? index then Panic
  else if dial pass index
       then Ok (true, mkPhatClient (NumServers c) (MasterId c) index (Some index))
       else Ok (false, c).

(** [for i := uint(0); i < c.NumServers; i = i + 1], [fuel] passes left. *)
Fixpoint probe (fuel : nat) (i : uint) (c : PhatClient) : outcome PhatClient :=
  match fuel with
  | O => Ok c
  | S fuel' =>
      if i <? NumServers c then
        match RpcClient c with
        | None => Panic
        | Some srv =>
            match getMaster i srv with
            | Some m => Ok (mkPhatClient (NumServers c) m (Id c) (RpcClient c))
            | None =>
                x <<- connectToServer i (wrap (Id c + wrap (i + 1)) mod NumServers c) c ;;
                probe fuel' (wrap (i + 1)) x.2
            end
        end
      else Ok c
  end.

Definition connectToMaster (c : PhatClient) : outcome (bool * PhatClient) :=
  c1 <<- probe (N.to_nat (NumServers c)) 0 c ;;
  if negb (MasterId c1 =? Id c1) then
    if NumServers c1 <=? MasterId c1 then Panic
    else if dial (NumServers c1) (MasterId c1)
         then Ok (true, mkPhatClient (NumServers c1) (MasterId c1) (MasterId c1)
                          (Some (MasterId c1)))
         else Ok (false, c1)
  else Ok (true, c1).

End Network.
End phatclient.

(** ** The tree database (phatdb/phatdb.go) *)

(** The functions take the root by pointer and write through it: here they
    take the tree and return the tree they leave. *)
Module phatdb.

Import Stdlib.Strings.Ascii.

Record StatNode := mkStatNode {
  Version : uint;                    (* uint64 *)
  CVersion : uint;
  NumChildren : uint
}.

Record DataNode := mkDataNode {
  Value : string;
  Stats : StatNode                   (* *StatNode, allocated *)
}.

(** [Children] and [Data] are allocated in every node [traverseToNode]
    makes; the root, made elsewhere, is taken to be like them.  No node is
    reachable along two paths, so a [*FileNode] is kept as the path that
    leads to it from the root. *)
#[warnings="-register-all"]
Inductive FileNode := mkFileNode {
  Children : gmap string FileNode;
  Data : DataNode                    (* *DataNode, allocated *)
}.

Inductive error := ErrNotExist | ErrExist.

(** [strings.FieldsFunc(path, SplitOnSlash)]: the maximal runs of bytes
    other than '/'; [field] is the run read so far.  A byte of a multi-byte
    rune is never '/', so splitting by bytes and by runes agree. *)
Definition SplitOnSlash (r : ascii) : bool := Ascii.eqb r "/"%char.

Fixpoint FieldsFunc (f : ascii -> bool) (field : string) (s : string) : list string :=
  match s with
  | EmptyString => if String.eqb field "" then [] else [field]
  | String c s' =>
      if f c then
        if String.eqb field "" then FieldsFunc f "" s'
        else field :: FieldsFunc f "" s'
      else FieldsFunc f (field +:+ String c "") s'
  end.

Definition GetNodePath (path : string) : list string :=
  FieldsFunc SplitOnSlash "" path.

(** [&FileNode{}] with [Children], [Data] and [Data.Stats] then allocated. *)
Definition newNode : FileNode :=
  mkFileNode ∅ (mkDataNode "" (mkStatNode 0 0 0)).

(** The tree below [temp] after the walk, and the node reached or the
    error. *)
Fixpoint traverseToNode (temp : FileNode) (parts : list string) (createMissing : bool)
  : FileNode * (error + FileNode) :=
  match parts with
  | [] => (temp, inr temp)
  | part :: rest =>
      match Children temp !! part with
      | None =>
          if negb createMissing then (temp, inl ErrNotExist)
          else
            let '(child, res) := traverseToNode newNode rest createMissing in
            (mkFileNode (<[part := child]> (Children temp)) (Data temp), res)
      | Some child0 =>
          let '(child, res) := traverseToNode child0 rest createMissing in
          (mkFileNode (<[part := child]> (Children temp)) (Data temp), res)
      end
  end.

Definition _setNode (n : FileNode) (val : string) : FileNode :=
  mkFileNode (Children n)
    (mkDataNode val
       (mkStatNode (wrap (Version (Stats (Data n)) + 1)) (CVersion (Stats (Data n)))
                   (NumChildren (Stats (Data n))))).

(** A write through the pointer to the node at [parts]. *)
Fixpoint store (parts : list string) (n : FileNode) (root : FileNode) : FileNode :=
  match parts with
  | [] => n
  | part :: rest =>
      match Children root !! part with
      | Some child => mkFileNode (<[part := store rest n child]> (Children root)) (Data root)
      | None => root
      end
  end.

(** The [*DataNode] returned is kept as the value it points to on return. *)
Definition createNode (root : FileNode) (path val : string)
  : outcome (FileNode * (error + DataNode)) :=
  let parts := GetNodePath path in
  match traverseToNode root parts true with
  | (_, inl _) => Panic
  | (root1, inr n) =>
      if negb (Version (Stats (Data n)) =? 0) then Ok (root1, inl ErrExist)
      else
        let n' := _setNode n val in
        Ok (store parts n' root1, inr (Data n'))
  end.

(** [parts[:len(parts)-1]] panics on an empty [parts]. *)
Definition deleteNode (root : FileNode) (path : string)
  : outcome (FileNode * (error + StatNode)) :=
  let parts := GetNodePath path in
  match traverseToNode root parts false with
  | (root1, inl err) => Ok (root1, inl err)
  | (root1, inr n) =>
      match parts with
      | [] => Panic
      | _ =>
          match traverseToNode root1 (removelast parts) false with
          | (root2, inl err) => Ok (root2, inl err)
          | (root2, inr p) =>
              let p' := mkFileNode (delete (List.last parts "") (Children p)) (Data p) in
              Ok (store (removelast parts) p' root2, inr (Stats (Data n)))
          end
      end
  end.

(** [os.IsNotExist(err)] holds of [os.ErrNotExist]; the error returned is
    nil either way. *)
Definition existsNode (root : FileNode) (path : string) : FileNode * bool :=
  match traverseToNode root (GetNodePath path) false with
  | (root1, inl _) => (root1, false)
  | (root1, inr _) => (root1, true)
  end.

(** The keys come in the order of Go's map iteration, which is not fixed:
    they are kept as a set. *)
Definition getChildren (root : FileNode) (path : string)
  : FileNode * (error + gset string) :=
  match traverseToNode root (GetNodePath path) false with
  | (root1, inl err) => (root1, inl err)
  | (root1, inr n) => (root1, inr (dom (Children n)))
  end.

Definition getNode (root : FileNode) (path : string) : FileNode * (error + DataNode) :=
  match traverseToNode root (GetNodePath path) false with
  | (root1, inl err) => (root1, inl err)
  | (root1, inr n) => (root1, inr (Data n))
  end.

Definition setNode (root : FileNode) (path val : string)
  : FileNode * (error + DataNode) :=
  let parts := GetNodePath path in
  match traverseToNode root parts false with
  | (root1, inl err) => (root1, inl err)
  | (root1, inr n) =>
      let n' := _setNode n val in
      (store parts n' root1, inr (Data n'))
  end.

End phatdb.

(** ** Vocabulary of the statements *)

(** A value that fits Go's [uint]. *)
Definition is_uint (n : N) : Prop := n < 2 ^ 64.

(** The indices [from], [from + 1], ... ([count] of them). *)
Fixpoint N_range (from : N) (count : nat) : list N :=
  match count with
  | O => []
  | S count' => from :: N_range (from + 1) count'
  end.

(** The replica after the log entries above its commit number, up to [cn],
    have been committed one by one. *)
Definition committed_upto (cn : uint) (r : Replica) : outcome Replica :=
  let todo := N_range (CommitNumber (Rstate r) + 1)
                      (N.to_nat (cn - CommitNumber (Rstate r))) in
  if CommitFunc r then
    match Phatlog r with
    | None => Panic
    | Some l =>
        Ok (with_Rstate (set_CommitNumber cn)
              (mkReplica (Rstate r) (Mstate r) (Vcstate r) (Phatlog r) (CommitFunc r)
                 (IsShutdown r) (Applied r ++ (phatlog.GetCommand l <$> todo)) (Outbox r)))
    end
  else Ok (with_Rstate (set_CommitNumber cn) r).

(** The operations of the normal case. *)
Inductive normal_op :=
| OpDoCommit (cn : uint)
| OpPrepare (now : Time) (args : PrepareArgs)
| OpCommit (now : Time) (args : CommitArgs)
| OpRunVR (command : Command)
| OpPrepareOK (now : Time) (reply : PrepareReply).

Definition commit_argument (op : normal_op) : uint :=
  match op with
  | OpDoCommit cn => cn
  | OpPrepare _ args => pa_CommitNumber args
  | OpCommit _ args => ca_CommitNumber args
  | OpRunVR _ | OpPrepareOK _ _ => 0
  end.

Definition run_normal_op (PrepareRecovery : Replica -> Replica)
           (okGrant : PrepareReply -> Time) (op : normal_op) (r : Replica)
  : outcome Replica :=
  match op with
  | OpDoCommit cn => doCommit PrepareRecovery cn r
  | OpPrepare now args =>
      x <<- Prepare PrepareRecovery now args r ;; Ok x.2
  | OpCommit now args =>
      x <<- Commit PrepareRecovery now args r ;; Ok x.2
  | OpRunVR command => RunVR command r
  | OpPrepareOK now reply =>
      x <<- handlePrepareOK PrepareRecovery okGrant now reply r ;; Ok x.2
  end.

(** From the spec's words (4.5, step 3): of a set of candidates, the one with
    the largest [normal_view], ties broken by the largest [op_number]. *)
Definition better (a b : DoViewChangeArgs) : bool :=
  (dvc_NormalView b <? dvc_NormalView a)
  || ((dvc_NormalView a =? dvc_NormalView b) && (dvc_OpNumber b <? dvc_OpNumber a)).

Definition spec_choice (first : DoViewChangeArgs) (others : list DoViewChangeArgs)
  : DoViewChangeArgs :=
  foldl (fun best m => if better m best then m else best) first others.

(** From the spec's words (4.7, 4.8): a read is a command that changes
    nothing, any but CREATE, SET and DELETE. *)
Definition spec_read (command : string) : bool :=
  negb (bool_decide (command = "CREATE") || bool_decide (command = "SET")
        || bool_decide (command = "DELETE")).

(** The new master's own state, as the [DoViewChange] message it would have
    sent ([DVCargs] in [StartViewChange]). *)
Definition own_DoViewChange (r : Replica) : DoViewChangeArgs :=
  mkDoViewChangeArgs (View (Rstate r)) (ReplicaNumber (Rstate r)) (Phatlog r)
                     (vcNormalView (Vcstate r)) (OpNumber (Rstate r))
                     (CommitNumber (Rstate r)).

(** The last three statements of [doCommit]. *)
Definition commit_tail (r1 : Replica) : outcome Replica :=
  let next := wrap (CommitNumber (Rstate r1) + 1) in
  r2 <<- (if CommitFunc r1 then
            match Phatlog r1 with
            | None => Panic
            | Some l => Ok (call_CommitFunc (phatlog.GetCommand l next) r1)
            end
          else Ok r1) ;;
  Ok (with_Rstate (set_CommitNumber next) r2).

(** The three stores at the head of [DoViewChange]. *)
Definition store_DoViewChange (args : DoViewChangeArgs) (r : Replica) : Replica :=
  with_Vcstate (fun vc =>
        mkViewChangeState
          (<[N.to_nat (dvc_ReplicaNumber args) := args]> (DoViewChangeMsgs vc))
          (N.lor (DoViewReplies vc) (bit (dvc_ReplicaNumber args)))
          (StartViewReplies vc) (StartViews vc) (wrap (DoViews vc + 1))
          (vcNormalView vc)) r.

(** The failing network of the hang: no peer can be dialled. *)
Definition refused : uint -> uint -> bool := fun _ _ => false.

(** The gather loop of replica 0 sending to [[1]], still waiting for its one
    reply, with the given [sendOne] goroutines running. *)
Definition waiting (tries : list (uint * uint)) : Transport.gather :=
  Transport.mkGather ∅ tries 1 0 true false false.

(** [doneChan] is signalled once the handler was satisfied, and at the latest
    when the loop is left. *)
Definition done_when_due (g : Transport.gather) : Prop :=
  (Transport.callHandler g = false -> Transport.done g = true)
  /\ (Transport.exited g = true -> Transport.done g = true).

(** ** The scenarios the statements are tried on

    A group of three (F = 1): replica 0 is the master of view 0, replicas 1
    and 2 follow.  The client creates /a, then /b. *)

Definition state_after {A} (o : outcome (A * Replica)) : option Replica :=
  match o with Ok (_, r) => Some r | _ => None end.

Definition log1 : phatlog.Log := phatlog.Add phatlog.EmptyLog 1 "CREATE /a".
Definition log2 : phatlog.Log := phatlog.Add log1 2 "CREATE /b".

Definition prepare1 : PrepareArgs := mkPrepareArgs 0 "CREATE /a" 1 0.
Definition prepare2 : PrepareArgs := mkPrepareArgs 0 "CREATE /b" 2 1.

(** Replica 1 after it accepted [prepare1] at instant 100. *)
Definition follower_op1 : Replica :=
  mkReplica (mkReplicaState 0 1 0 1 Normal 0 0 (Some 2000000100%Z))
            (mkMasterState 0 0 None None 0) zeroVcstate (Some log1) true false [] [].

(** ... and [prepare2] at instant 200. *)
Definition follower_op2 : Replica :=
  mkReplica (mkReplicaState 0 2 1 1 Normal 0 0 (Some 2000000200%Z))
            (mkMasterState 0 0 None None 0) zeroVcstate (Some log2) true false
            [Some "CREATE /a"] [].

(** Replica 1 once its lease timer fired at instant 2000000200: view 1, of
    which it is the master, status ViewChange. *)
Definition candidate1 : Replica := ReplicaTimeout 2000000200 follower_op2.

(** Replica 2 saw [prepare1] only; its [DoViewChange] for view 1. *)
Definition dvc_from_2 : DoViewChangeArgs :=
  mkDoViewChangeArgs 1 2 (Some log1) 0 1 0.

(** Replica 0 as [RunAsReplica] leaves it at instant 0: [ReplicaInit], then
    [BecomeMaster] ([master_idle_reached]). *)
Definition master_idle : Replica :=
  mkReplica (mkReplicaState 0 0 0 0 Normal 0 0 (Some 1800000000%Z))
            (mkMasterState 0 0 (Some 900000000%Z) None 0)
            zeroVcstate (Some phatlog.EmptyLog) true false [] [].

(** ... and after [RunVR] for the first command ([master_op1_reached]):
    [prepare1] is in flight. *)
Definition master_op1 : Replica :=
  mkReplica (mkReplicaState 0 1 0 0 Normal 0 0 (Some 1800000000%Z))
            (mkMasterState 0 0 (Some 900000000%Z) None 0)
            zeroVcstate (Some log1) true false [] [BcastPrepare prepare1].

(** Replica 1's answer to [prepare1], accepted at instant 100. *)
Definition ok_from_1 : PrepareReply := mkPrepareReply 0 1 1 2000000100.

Definition read_children : phatRPC.DBCommand := phatRPC.mkDBCommand "CHILDREN" "/a" "".
Definition get_a : phatRPC.DBCommand := phatRPC.mkDBCommand "GET" "/a" "".
Definition no_reply : phatRPC.DBResponse := phatRPC.mkDBResponse None "".

(** Replica 1 brought to view 2 by replica 2's [StartViewChange] and then,
    at instant 500, its [StartView]: a follower of view 2 in status
    Normal. *)
Definition svc_view2 : StartViewChangeArgs := mkStartViewChangeArgs 2 2.
Definition sv_view2 : DoViewChangeArgs :=
  mkDoViewChangeArgs 2 2 (Some phatlog.EmptyLog) 0 0 0.
Definition follower_view2 : Replica :=
  StartView 500 sv_view2 (StartViewChange svc_view2 (initReplica 0 1)).

(** Replica 2's [StartViewChange] for view 1. *)
Definition svc1_from_2 : StartViewChangeArgs := mkStartViewChangeArgs 1 2.

(** What a run of the normal case keeps true of a replica: its log holds
    exactly the indices 1 .. op_number, commit_number does not exceed
    op_number, and [CommitFunc] has been handed the log entries
    1 .. commit_number, in that order, each once. *)
Definition in_step (r : Replica) : Prop :=
  exists l, Phatlog r = Some l
    /\ CommitFunc r = true
    /\ is_uint (OpNumber (Rstate r))
    /\ CommitNumber (Rstate r) <= OpNumber (Rstate r)
    /\ (forall i, is_Some (phatlog.GetCommand l i) <-> 1 <= i <= OpNumber (Rstate r))
    /\ phatlog.MaxIndex l = OpNumber (Rstate r)
    /\ Applied r = phatlog.GetCommand l <$> N_range 1 (N.to_nat (CommitNumber (Rstate r))).

(** The operations of the replica core: those of the normal case, the
    heartbeat, the start as master, the lease timer's callback and the
    view-change handlers; and a run of them, each one returning. *)
Inductive core_op :=
| OpNormal (op : normal_op)
| OpHeartbeat (now : Time) (replica : uint) (newTime : Time)
| OpBecomeMaster (now : Time)
| OpReplicaTimeout (now : Time)
| OpStartViewChange (args : StartViewChangeArgs)
| OpDoViewChange (now : Time) (args : DoViewChangeArgs)
| OpStartView (now : Time) (args : DoViewChangeArgs).

Definition core_commit_argument (op : core_op) : uint :=
  match op with
  | OpNormal op => commit_argument op
  | _ => 0
  end.

Definition run_core_op (PrepareRecovery : Replica -> Replica)
           (okGrant : PrepareReply -> Time) (op : core_op) (r : Replica)
  : outcome Replica :=
  match op with
  | OpNormal op => run_normal_op PrepareRecovery okGrant op r
  | OpHeartbeat now replica newTime => Heartbeat now replica newTime r
  | OpBecomeMaster now => BecomeMaster now r
  | OpReplicaTimeout now => Ok (ReplicaTimeout now r)
  | OpStartViewChange args => Ok (StartViewChange args r)
  | OpDoViewChange now args => DoViewChange now args r
  | OpStartView now args => Ok (StartView now args r)
  end.

Fixpoint run_core_ops (PrepareRecovery : Replica -> Replica)
         (okGrant : PrepareReply -> Time) (ops : list core_op) (r : Replica)
  : outcome Replica :=
  match ops with
  | [] => Ok r
  | op :: ops' =>
      r1 <<- run_core_op PrepareRecovery okGrant op r ;;
      run_core_ops PrepareRecovery okGrant ops' r1
  end.

(** The largest value of a field over a list of messages (0 for none). *)
Definition max_of (f : DoViewChangeArgs -> uint) (ms : list DoViewChangeArgs) : uint :=
  foldr N.max 0 (f <$> ms).

(** The slots of [DoViewChangeMsgs] other than the replica's own, in index
    order: what the guarded half of [calcMasterView]'s loop looks at. *)
Definition peer_slots (r : Replica) : list DoViewChangeArgs :=
  (fun i => DoViewChangeMsgs (Vcstate r) !!! i)
    <$> filter (fun i => N.of_nat i <> ReplicaNumber (Rstate r))
               (seq 0 (N.to_nat (NREPLICAS + 1))).

(** What the gather loop keeps, whatever the network does. *)
Definition gather_inv (expected : nat) (g : Transport.gather) : Prop :=
  Transport.i g + N.of_nat (length (Transport.running g)) <= N.of_nat expected
  /\ Forall (fun p : uint * uint => p.2 < MAX_TRIES) (Transport.running g)
  /\ (Transport.exited g = true -> Transport.gN g <= Transport.i g)
  /\ (Transport.exited g = false -> Transport.i g < Transport.gN g).

(** The client is connected to the server it believes it is connected to. *)
Definition connected (c : phatclient.PhatClient) : Prop :=
  phatclient.RpcClient c = Some (phatclient.Id c).

(** 0 + 1 + ... + k. *)
Fixpoint triangular (k : nat) : N :=
  match k with
  | O => 0
  | S k' => triangular k' + N.of_nat k
  end.

(** The node a path leads to. *)
Fixpoint lookup_node (parts : list string) (n : phatdb.FileNode) : option phatdb.FileNode :=
  match parts with
  | [] => Some n
  | part :: rest =>
      match phatdb.Children n !! part with
      | Some child => lookup_node rest child
      | None => None
      end
  end.

(** A well-formed path component: not empty, no '/' in it. *)
Fixpoint no_slash (s : string) : bool :=
  match s with
  | EmptyString => true
  | String c s' => negb (phatdb.SplitOnSlash c) && no_slash s'
  end.

Definition component (s : string) : Prop := s <> "" /\ no_slash s = true.

(** The tree after a walk along [parts] that makes what is missing. *)
Fixpoint ensure (parts : list string) (root : phatdb.FileNode) : phatdb.FileNode :=
  match parts with
  | [] => root
  | part :: rest =>
      phatdb.mkFileNode
        (<[part := ensure rest (default phatdb.newNode (phatdb.Children root !! part))]>
           (phatdb.Children root))
        (phatdb.Data root)
  end.

(** ** Further scenarios *)

(** Replica 1's [StartViewChange] for view 1, and the [DoViewChange] that
    an idle replica 2 answers it with. *)
Definition svc_from_1 : StartViewChangeArgs := mkStartViewChangeArgs 1 1.
Definition dvc_idle_2 : DoViewChangeArgs :=
  mkDoViewChangeArgs 1 2 (Some phatlog.EmptyLog) 0 0 0.

(** A [DoViewChange] carrying a replica number outside the group. *)
Definition dvc_from_3 : DoViewChangeArgs := mkDoViewChangeArgs 1 3 None 0 0 0.

(** Replica 0's [DoViewChange] for view 1. *)
Definition dvc_from_0 : DoViewChangeArgs := mkDoViewChangeArgs 1 0 (Some log1) 0 1 0.

(** Replica 0 holding two peer messages of view 3. *)
Definition two_messages : Replica :=
  with_Vcstate (fun _ => mkViewChangeState
                  [zeroDoViewChangeArgs;
                   mkDoViewChangeArgs 3 1 None 2 5 4;
                   mkDoViewChangeArgs 3 2 None 1 3 2] 6 0 0 2 0)
               (initReplica 0 0).

(** A network on which every dial succeeds and every call is answered, and a
    handler that is never satisfied (as the one [SendSync] passes). *)
Definition reachable : uint -> uint -> bool := fun _ _ => true.
Definition answered : uint -> uint -> Transport.callError + unit := fun _ _ => inr tt.
Definition unsatisfied : unit -> bool := fun _ => false.

(** The gather loop of replica 0 sending to [[1]] once replica 1 has
    answered. *)
Definition gathered : Transport.gather :=
  Transport.mkGather (∅ ∪ {[1]}) [] 1 1 true true true.

(** The facade on replica 0 in view 2: master by [getMasterId], not by
    [IsMaster]. *)
Definition facade_view2 : phatRPC.Server :=
  phatRPC.mkServer (with_Rstate (set_View 2) (initReplica 0 0)).

Definition create_a : phatRPC.DBCommand := phatRPC.mkDBCommand "CREATE" "/a" "x".

(** A client of three servers, connected to server 0, that last knew
    server 1 as the master; servers that answer no [GetMaster], and servers
    that all name server 1. *)
Definition client0 : phatclient.PhatClient := phatclient.mkPhatClient 3 1 0 (Some 0).
Definition silent : uint -> uint -> option uint := fun _ _ => None.
Definition names_1 : uint -> uint -> option uint := fun _ _ => Some 1.

(** The new master's first [Prepare] in view 1, after its [StartView]
    carrying [log1]. *)
Definition next_prepare : PrepareArgs := mkPrepareArgs 1 "CREATE /c" 2 1.

(** * Properties *)

(** ** Machine arithmetic and ranges *)

Lemma wrap_small n : n < 2 ^ 64 -> wrap n = n.
Proof. intros H. unfold wrap. by apply N.mod_small. Qed.

Lemma wrap_is_uint n : is_uint (wrap n).
Proof. unfold is_uint, wrap. apply N.mod_lt. done. Qed.

Lemma N_range_app from n m :
  N_range from (n + m) = N_range from n ++ N_range (from + N.of_nat n) m.
Proof.
  revert from. induction n as [|n IH]; intros from; simpl.
  - by rewrite N.add_0_r.
  - rewrite IH. do 3 f_equal. lia.
Qed.

Section CoreFacts.
Variable PrepareRecovery : Replica -> Replica.

Lemma commit_tail_upto r :
  CommitNumber (Rstate r) + 1 < 2 ^ 64 ->
  commit_tail r = committed_upto (CommitNumber (Rstate r) + 1) r.
Proof.
  intros Hb. unfold commit_tail, committed_upto.
  rewrite (wrap_small _ Hb).
  replace (CommitNumber (Rstate r) + 1 - CommitNumber (Rstate r)) with 1 by lia.
  change (N.to_nat 1) with 1%nat. cbn [N_range fmap list_fmap].
  unfold call_CommitFunc.
  destruct (CommitFunc r) eqn:Hcf; [|done].
  destruct (Phatlog r) eqn:Hl; [|done]. reflexivity.
Qed.

Lemma committed_upto_trans a b r r' :
  CommitNumber (Rstate r) <= a -> a <= b ->
  committed_upto a r = Ok r' ->
  committed_upto b r' = committed_upto b r.
Proof.
  intros Ha Hb. destruct r as [rs ms vc pl cf sh ap ob].
  unfold committed_upto. simpl in *.
  destruct cf.
  - destruct pl as [l|]; [|done].
    intros [= <-]. simpl.
    replace (N.to_nat (b - CommitNumber rs))
      with (N.to_nat (a - CommitNumber rs) + N.to_nat (b - a))%nat by lia.
    rewrite N_range_app, fmap_app, <- app_assoc.
    replace (CommitNumber rs + 1 + N.of_nat (N.to_nat (a - CommitNumber rs)))
      with (a + 1) by lia.
    by destruct rs.
  - intros [= <-]. by destruct rs.
Qed.

Lemma committed_upto_commit cn r r' :
  committed_upto cn r = Ok r' ->
  CommitNumber (Rstate r') = cn /\ OpNumber (Rstate r') = OpNumber (Rstate r)
  /\ Phatlog r' = Phatlog r /\ CommitFunc r' = CommitFunc r.
Proof.
  destruct r as [rs ms vc pl cf sh ap ob].
  unfold committed_upto. simpl. destruct cf.
  - destruct pl; [|done]. by intros [= <-].
  - by intros [= <-].
Qed.

Lemma doCommit_fuel_unfold fuel cn r :
  CommitNumber (Rstate r) < cn -> cn <= OpNumber (Rstate r) ->
  doCommit_fuel PrepareRecovery (S fuel) cn r =
    match (if wrap (CommitNumber (Rstate r) + 1) <? cn then
             for_upto (doCommit_fuel PrepareRecovery fuel)
                      (N.to_nat (cn - wrap (CommitNumber (Rstate r) + 1)))
                      (wrap (CommitNumber (Rstate r) + 1)) r
           else Some (Ok r)) with
    | Some (Ok r1) => Some (commit_tail r1)
    | other => other
    end.
Proof.
  intros H1 H2. cbn [doCommit_fuel].
  destruct (N.leb_spec cn (CommitNumber (Rstate r))); [lia|].
  destruct (N.ltb_spec (OpNumber (Rstate r)) cn); [lia|].
  by destruct (if wrap (CommitNumber (Rstate r) + 1) <? cn then _ else _) as [[| |]|].
Qed.

Lemma doCommit_fuel_next fuel cn r :
  cn = CommitNumber (Rstate r) + 1 -> cn <= OpNumber (Rstate r) -> is_uint cn ->
  doCommit_fuel PrepareRecovery (S fuel) cn r = Some (committed_upto cn r).
Proof.
  intros -> H2 H3. rewrite doCommit_fuel_unfold by lia.
  rewrite (wrap_small _ H3), N.ltb_irrefl.
  by rewrite commit_tail_upto.
Qed.

Lemma for_upto_doCommit fuel count i r :
  i = CommitNumber (Rstate r) + 1 ->
  i + N.of_nat count <= OpNumber (Rstate r) -> is_uint (i + N.of_nat count) ->
  for_upto (doCommit_fuel PrepareRecovery (S fuel)) (S count) i r
  = Some (committed_upto (i + N.of_nat count) r).
Proof.
  revert i r. induction count as [|count IH]; intros i r Hi Hop Hu.
  - cbn [for_upto]. rewrite doCommit_fuel_next; [|done|lia|unfold is_uint in *; lia].
    rewrite N.add_0_r. by destruct (committed_upto i r).
  - cbn [for_upto]. cbn [for_upto] in IH.
    rewrite doCommit_fuel_next; [|done|lia|unfold is_uint in *; lia].
    destruct (committed_upto i r) as [r'| |] eqn:Hr'.
    + destruct (committed_upto_commit _ _ _ Hr') as (Hc & Ho & _).
      rewrite IH; [|lia|lia|unfold is_uint in *; lia].
      f_equal. replace (i + 1 + N.of_nat count) with (i + N.of_nat (S count)) by lia.
      eapply committed_upto_trans; [| |exact Hr']; lia.
    + unfold committed_upto in *. destruct (CommitFunc r); [|done].
      destruct (Phatlog r); done.
    + unfold committed_upto in *. destruct (CommitFunc r); [|done].
      destruct (Phatlog r); done.
Qed.

Lemma doCommit_fuel_catch_up fuel cn r :
  CommitNumber (Rstate r) < cn -> cn <= OpNumber (Rstate r) -> is_uint cn ->
  doCommit_fuel PrepareRecovery (S (S fuel)) cn r = Some (committed_upto cn r).
Proof.
  intros H1 H2 H3. rewrite doCommit_fuel_unfold by lia.
  assert (Hw : wrap (CommitNumber (Rstate r) + 1) = CommitNumber (Rstate r) + 1)
    by (apply wrap_small; unfold is_uint in *; lia).
  rewrite Hw. destruct (N.ltb_spec (CommitNumber (Rstate r) + 1) cn) as [Hlt|Hge].
  - destruct (N.to_nat (cn - (CommitNumber (Rstate r) + 1))) as [|count] eqn:Hc; [lia|].
    rewrite for_upto_doCommit; [|done|lia|unfold is_uint in *; lia].
    replace (CommitNumber (Rstate r) + 1 + N.of_nat count) with (cn - 1) by lia.
    destruct (committed_upto (cn - 1) r) as [r1| |] eqn:Hr1.
    + destruct (committed_upto_commit _ _ _ Hr1) as (Hc1 & _).
      rewrite commit_tail_upto by (rewrite Hc1; unfold is_uint in *; lia).
      rewrite Hc1. replace (cn - 1 + 1) with cn by lia.
      f_equal. eapply committed_upto_trans; [| |exact Hr1]; lia.
    + unfold committed_upto in *. destruct (CommitFunc r); [|done].
      destruct (Phatlog r); done.
    + unfold committed_upto in *. destruct (CommitFunc r); [|done].
      destruct (Phatlog r); done.
  - assert (cn = CommitNumber (Rstate r) + 1) as -> by lia.
    by rewrite commit_tail_upto by (unfold is_uint in *; lia).
Qed.

Lemma doCommit_old cn r :
  cn <= CommitNumber (Rstate r) -> doCommit PrepareRecovery cn r = Ok r.
Proof.
  intros H. unfold doCommit. simpl.
  destruct (N.leb_spec cn (CommitNumber (Rstate r))); [done|lia].
Qed.

Lemma doCommit_beyond_log cn r :
  CommitNumber (Rstate r) < cn -> OpNumber (Rstate r) < cn ->
  doCommit PrepareRecovery cn r = Ok (PrepareRecovery r).
Proof.
  intros H1 H2. unfold doCommit. simpl.
  destruct (N.leb_spec cn (CommitNumber (Rstate r))); [lia|].
  destruct (N.ltb_spec (OpNumber (Rstate r)) cn); [done|lia].
Qed.

Lemma doCommit_catch_up cn r :
  CommitNumber (Rstate r) < cn -> cn <= OpNumber (Rstate r) -> is_uint cn ->
  doCommit PrepareRecovery cn r = committed_upto cn r.
Proof.
  intros H1 H2 H3. unfold doCommit.
  destruct (N.to_nat cn) as [|n] eqn:Hn; [lia|].
  by rewrite doCommit_fuel_catch_up.
Qed.

Lemma doCommit_fuel_total fuel cn r :
  is_uint cn ->
  doCommit_fuel PrepareRecovery (S (S fuel)) cn r = Some (doCommit PrepareRecovery cn r).
Proof.
  intros Hu.
  destruct (N.le_gt_cases cn (CommitNumber (Rstate r))) as [Hold|Hnew].
  - rewrite doCommit_old by done. cbn [doCommit_fuel].
    by destruct (N.leb_spec cn (CommitNumber (Rstate r))); [|lia].
  - destruct (N.le_gt_cases cn (OpNumber (Rstate r))) as [Hin|Hout].
    + by rewrite doCommit_catch_up, doCommit_fuel_catch_up.
    + rewrite doCommit_beyond_log by done. cbn [doCommit_fuel].
      destruct (N.leb_spec cn (CommitNumber (Rstate r))); [lia|].
      by destruct (N.ltb_spec (OpNumber (Rstate r)) cn); [|lia].
Qed.

(** doCommit never lowers the commit number, as long as entering recovery
    does not. *)
Lemma doCommit_monotone cn r r' :
  (forall r0, CommitNumber (Rstate r0) <= CommitNumber (Rstate (PrepareRecovery r0))) ->
  is_uint cn ->
  doCommit PrepareRecovery cn r = Ok r' ->
  CommitNumber (Rstate r) <= CommitNumber (Rstate r').
Proof.
  intros HPR Hu.
  destruct (N.le_gt_cases cn (CommitNumber (Rstate r))) as [Hold|Hnew].
  - rewrite doCommit_old by done. by intros [= <-].
  - destruct (N.le_gt_cases cn (OpNumber (Rstate r))) as [Hin|Hout].
    + rewrite doCommit_catch_up by done. intros H.
      apply committed_upto_commit in H as [-> _]. lia.
    + rewrite doCommit_beyond_log by done. intros [= <-]. apply HPR.
Qed.

Variable okGrant : PrepareReply -> Time.

Lemma Heartbeat_Rstate now replica t r r' :
  Heartbeat now replica t r = Ok r' ->
  CommitNumber (Rstate r') = CommitNumber (Rstate r)
  /\ OpNumber (Rstate r') = OpNumber (Rstate r)
  /\ View (Rstate r') = View (Rstate r)
  /\ A (Mstate r') = A (Mstate r) /\ Replies (Mstate r') = Replies (Mstate r)
  /\ (exists heartbeats,
        Heartbeats (Mstate r) = Some heartbeats
        /\ Heartbeats (Mstate r') = Some (<[replica := t]> heartbeats))
  /\ Phatlog r' = Phatlog r /\ CommitFunc r' = CommitFunc r
  /\ Applied r' = Applied r /\ Outbox r' = Outbox r.
Proof.
  unfold Heartbeat. destruct (IsMaster r); [|done]. simpl.
  destruct (Heartbeats (Mstate r)) as [heartbeats|]; [|done].
  destruct (_ =? NREPLICAS); [|done]. simpl.
  destruct (_ !! _); [|done]. intros [= <-]. split_and!; try done.
  by exists heartbeats.
Qed.

(** C3 (amended).  Across the operations of the normal case ([doCommit],
    [Prepare], [Commit], [RunVR], [handlePrepareOK]) a replica's
    commit_number never decreases, as long as entering recovery does not
    lower it.  The view-change handlers are not covered: see
    [view_change_lowers_commit_number]. *)
Theorem commit_number_monotone_normal_case op r r' :
  (forall r0, CommitNumber (Rstate r0) <= CommitNumber (Rstate (PrepareRecovery r0))) ->
  is_uint (commit_argument op) ->
  run_normal_op PrepareRecovery okGrant op r = Ok r' ->
  CommitNumber (Rstate r) <= CommitNumber (Rstate r').
Proof.
  intros HPR Hu. destruct op as [cn|now args|now args|command|now reply]; simpl in *.
  - by apply doCommit_monotone.
  - unfold Prepare.
    repeat case_match; simpl; try (intros [= <-]; first [apply HPR | done]); try done.
    unfold addLog. simpl. destruct (Phatlog r) as [l|]; [|done]. simpl.
    destruct (doCommit _ _ _) as [r4| |] eqn:Hd; [|done..]. simpl. intros [= <-].
    by apply doCommit_monotone in Hd.
  - unfold Commit.
    repeat case_match; simpl; try (intros [= <-]; first [apply HPR | done]); try done.
    destruct (doCommit _ _ _) as [r4| |] eqn:Hd; [|done..]. simpl. intros [= <-].
    by apply doCommit_monotone in Hd.
  - unfold RunVR. destruct (IsMaster r); [|done]. simpl.
    destruct (_ =? _); [|done]. simpl. unfold addLog. simpl.
    destruct (Phatlog r); [|done]. by intros [= <-].
  - unfold handlePrepareOK. destruct (negb _).
    { by intros [= <-]. }
    destruct (Heartbeat _ _ _ _) as [r1| |] eqn:Hhb; [|done..]. simpl.
    apply Heartbeat_Rstate in Hhb as (Hc & _). rewrite <- Hc.
    destruct (negb _); [by intros [= <-]|].
    destruct (negb _); [by intros [= <-]|].
    destruct (negb _); [by intros [= <-]|].
    destruct (doCommit _ _ _) as [r3| |] eqn:Hd; [|done..]. simpl. intros [= <-].
    apply doCommit_monotone in Hd; [done|done|apply wrap_is_uint].
Qed.

(** C6.  A [Prepare] whose view is strictly less than the receiver's is
    refused with the [wrongView] error and leaves the replica exactly as it
    was: log, op_number, commit_number, view, status and lease timer are
    untouched and no reply (hence no lease grant) is filled in. *)
Theorem Prepare_stale_view now args r :
  pa_View args < View (Rstate r) ->
  Prepare PrepareRecovery now args r = Ok (Refused wrongView, r).
Proof.
  intros H. unfold Prepare.
  destruct (N.ltb_spec (View (Rstate r)) (pa_View args)); [lia|].
  by destruct (N.ltb_spec (pa_View args) (View (Rstate r))); [|lia].
Qed.


Lemma Prepare_accept_unfold now args r l :
  pa_View args = View (Rstate r) ->
  Status_ (Rstate r) = Normal ->
  pa_OpNumber args = OpNumber (Rstate r) + 1 ->
  is_uint (pa_OpNumber args) ->
  Phatlog r = Some l ->
  Prepare PrepareRecovery now args r =
    (r4 <<- doCommit PrepareRecovery (pa_CommitNumber args)
              (set_Phatlog (Some (phatlog.Add l (OpNumber (Rstate r) + 1) (pa_Command args)))
                 (with_Rstate (set_OpNumber (OpNumber (Rstate r) + 1))
                    (ExtendLease now (now + LEASE) r))) ;;
     Ok (Replied (mkPrepareReply (View (Rstate r4)) (OpNumber (Rstate r4))
                    (ReplicaNumber (Rstate r)) (now + LEASE)%Z), r4)).
Proof.
  intros Hv Hs Hop Hu Hl. unfold Prepare.
  rewrite Hv, N.ltb_irrefl, Hs. simpl.
  assert (Hw : wrap (OpNumber (Rstate r) + 1) = OpNumber (Rstate r) + 1)
    by (apply wrap_small; unfold is_uint in Hu; lia).
  rewrite Hw, Hop.
  destruct (N.leb_spec (OpNumber (Rstate r) + 1) (OpNumber (Rstate r))); [lia|].
  rewrite N.ltb_irrefl. unfold addLog. simpl. rewrite Hl. simpl.
  unfold with_Rstate, ExtendLease. simpl. by rewrite Hw.
Qed.


Lemma Prepare_commit_beyond_log now args r l :
  pa_View args = View (Rstate r) ->
  Status_ (Rstate r) = Normal ->
  pa_OpNumber args = OpNumber (Rstate r) + 1 ->
  is_uint (pa_OpNumber args) ->
  Phatlog r = Some l ->
  CommitNumber (Rstate r) <= OpNumber (Rstate r) ->
  pa_OpNumber args < pa_CommitNumber args ->
  exists r3,
    CommitNumber (Rstate r3) = CommitNumber (Rstate r)
    /\ Applied r3 = Applied r
    /\ Prepare PrepareRecovery now args r
       = Ok (Replied (mkPrepareReply (View (Rstate (PrepareRecovery r3)))
                        (OpNumber (Rstate (PrepareRecovery r3)))
                        (ReplicaNumber (Rstate r)) (now + LEASE)%Z),
             PrepareRecovery r3).
Proof.
  intros Hv Hs Hop Hu Hl Hinv Hc.
  rewrite (Prepare_accept_unfold now args r l) by done.
  eexists. split; [|split]; [| |rewrite doCommit_beyond_log; [reflexivity|simpl; lia..]];
    done.
Qed.

End CoreFacts.

(** ** The master: heartbeats and PrepareOk *)

Lemma land_bit_testbit n x :
  n < 64 -> (N.land (bit n) x =? 0) = negb (N.testbit x n).
Proof.
  intros Hn. unfold bit. rewrite N.shiftl_1_l.
  rewrite wrap_small by (apply N.pow_lt_mono_r; lia).
  destruct (N.testbit x n) eqn:Hb; simpl.
  - apply N.eqb_neq. intros H0.
    assert (N.testbit (N.land (2 ^ n) x) n = false) as Hc by (rewrite H0; apply N.bits_0).
    rewrite N.land_spec, N.pow2_bits_true, Hb in Hc. done.
  - apply N.eqb_eq. apply N.bits_inj. intros m.
    rewrite N.land_spec, N.bits_0, N.pow2_bits_eqb.
    destruct (N.eqb_spec n m) as [->|]; [by rewrite Hb|done].
Qed.

Lemma lor_bit_testbit n x :
  n < 64 -> N.testbit (N.lor x (bit n)) n = true.
Proof.
  intros Hn. unfold bit. rewrite N.shiftl_1_l.
  rewrite wrap_small by (apply N.pow_lt_mono_r; lia).
  by rewrite N.lor_spec, N.pow2_bits_true, orb_true_r.
Qed.

Lemma wrap_int_small z : (- 2 ^ 63 <= z < 2 ^ 63)%Z -> wrap_int z = z.
Proof. intros H. unfold wrap_int. rewrite Z.mod_small; lia. Qed.

(** [SortTimes] does not look at the instants stored in the map. *)
Lemma SortTimes_insert k (t1 t2 : Time) (m : gmap N Time) :
  SortTimes (<[k := t1]> m) = SortTimes (<[k := t2]> m).
Proof.
  unfold SortTimes. apply (Sorted_unique Z.le).
  - apply (Sorted_merge_sort Z.le).
  - apply (Sorted_merge_sort Z.le).
  - rewrite !merge_sort_Permutation.
    rewrite <- (insert_delete_eq m k t1), <- (insert_delete_eq m k t2).
    rewrite !map_to_list_insert by apply lookup_delete_eq. done.
Qed.

Section MasterFacts.
Variable PrepareRecovery : Replica -> Replica.
Variable okGrant : PrepareReply -> Time.

(** No code makes [Heartbeats]: on the nil map [Heartbeat] does not get past
    its store, and [handlePrepareOK], which calls it for every reply of the
    master's view, dies with it. *)
Lemma Heartbeat_nil now replica t r :
  Heartbeats (Mstate r) = None ->
  Heartbeat now replica t r = if IsMaster r then Panic else Fatal.
Proof. intros Hnil. unfold Heartbeat. rewrite Hnil. by destruct (IsMaster r). Qed.

Lemma handlePrepareOK_nil now reply r :
  Heartbeats (Mstate r) = None ->
  pr_View reply = View (Rstate r) ->
  handlePrepareOK PrepareRecovery okGrant now reply r
  = if IsMaster r then Panic else Fatal.
Proof.
  intros Hnil Hv. unfold handlePrepareOK.
  rewrite Hv, N.eqb_refl, (Heartbeat_nil _ _ _ _ Hnil). cbn [negb].
  by destruct (IsMaster r).
Qed.

Lemma handlePrepareOK_other_view now reply r :
  pr_View reply <> View (Rstate r) ->
  handlePrepareOK PrepareRecovery okGrant now reply r = Ok (false, r).
Proof.
  intros Hv. unfold handlePrepareOK.
  by destruct (N.eqb_spec (pr_View reply) (View (Rstate r))).
Qed.

End MasterFacts.

(** ** View change *)

Lemma ltb_0_r x : (x <? 0) = false.
Proof. apply N.ltb_ge. lia. Qed.

(** A slot that holds no message leaves the loop's variables as they are. *)
Lemma calcMasterView_body_zero r v i :
  DoViewChangeMsgs (Vcstate r) !!! i = zeroDoViewChangeArgs ->
  calcMasterView_body r v i = v.
Proof.
  intros Hz. unfold calcMasterView_body. rewrite Hz.
  cbn [dvc_View dvc_NormalView dvc_OpNumber dvc_CommitNumber zeroDoViewChangeArgs].
  rewrite !ltb_0_r, andb_false_r. cbn [orb].
  destruct (negb _); rewrite ?ltb_0_r; reflexivity.
Qed.

(** The scratch right after the first [DoViewChange] message was stored:
    only that message's slot moves the loop's variables. *)
Lemma calcMasterView_loop_single r args :
  dvc_ReplicaNumber args < NREPLICAS + 1 ->
  DoViewChangeMsgs (Vcstate r)
  = <[N.to_nat (dvc_ReplicaNumber args) := args]>
      (replicate (N.to_nat (NREPLICAS + 1)) zeroDoViewChangeArgs) ->
  calcMasterView_loop r
  = calcMasterView_body r (mkCalcVars 0 0 0 0 0) (N.to_nat (dvc_ReplicaNumber args)).
Proof.
  intros Hrn Hmsgs. unfold calcMasterView_loop.
  change (N.to_nat (NREPLICAS + 1)) with 3%nat in *.
  assert (Hcases : dvc_ReplicaNumber args = 0 \/ dvc_ReplicaNumber args = 1
                   \/ dvc_ReplicaNumber args = 2)
    by (unfold NREPLICAS, F in Hrn; lia).
  cbn [seq foldl].
  destruct Hcases as [H|[H|H]]; rewrite H in *.
  - rewrite (calcMasterView_body_zero r _ 2), (calcMasterView_body_zero r _ 1);
      [done|by rewrite Hmsgs..].
  - rewrite (calcMasterView_body_zero r _ 2), (calcMasterView_body_zero r _ 0);
      [done|by rewrite Hmsgs..].
  - rewrite (calcMasterView_body_zero r _ 1), (calcMasterView_body_zero r _ 0);
      [done|by rewrite Hmsgs..].
Qed.

Lemma calcMasterView_single r args :
  dvc_ReplicaNumber args < NREPLICAS + 1 ->
  dvc_ReplicaNumber args <> ReplicaNumber (Rstate r) ->
  DoViewChangeMsgs (Vcstate r)
  = <[N.to_nat (dvc_ReplicaNumber args) := args]>
      (replicate (N.to_nat (NREPLICAS + 1)) zeroDoViewChangeArgs) ->
  let r' := calcMasterView r in
  OpNumber (Rstate r') = dvc_OpNumber args
  /\ CommitNumber (Rstate r') = dvc_CommitNumber args
  /\ View (Rstate r') = dvc_View args
  /\ Phatlog r' =
     (if (0 <? dvc_NormalView args) || (0 <? dvc_OpNumber args)
         || (dvc_ReplicaNumber args =? 0)
      then dvc_Log args else None)
  /\ ReplicaNumber (Rstate r') = ReplicaNumber (Rstate r)
  /\ Mstate r' = Mstate r /\ Vcstate r' = Vcstate r /\ CommitFunc r' = CommitFunc r
  /\ IsShutdown r' = IsShutdown r /\ Applied r' = Applied r /\ Outbox r' = Outbox r.
Proof.
  intros Hrn Hne Hmsgs. cbv zeta. unfold calcMasterView.
  set (r0 := with_Rstate _ r).
  assert (Hloop := calcMasterView_loop_single r0 args Hrn Hmsgs).
  assert (Hbody : calcMasterView_body r0 (mkCalcVars 0 0 0 0 0)
                    (N.to_nat (dvc_ReplicaNumber args))
          = mkCalcVars (dvc_OpNumber args) (dvc_CommitNumber args)
              (if (0 <? dvc_NormalView args) || (0 <? dvc_OpNumber args)
               then dvc_ReplicaNumber args else 0)
              0 (dvc_View args)).
  { unfold calcMasterView_body.
    change (DoViewChangeMsgs (Vcstate r0)) with (DoViewChangeMsgs (Vcstate r)).
    change (ReplicaNumber (Rstate r0)) with (ReplicaNumber (Rstate r)).
    rewrite Hmsgs, N2Nat.id.
    rewrite list_lookup_total_insert_eq
      by (rewrite length_replicate; unfold NREPLICAS, F in *; lia).
    destruct (N.eqb_spec (dvc_ReplicaNumber args) (ReplicaNumber (Rstate r))); [done|].
    cbn [negb maxView maxOp maxCommit maxIdx maxNormalView].
    destruct (N.ltb_spec 0 (dvc_View args));
      cbn [orb andb maxView maxOp maxCommit maxIdx maxNormalView];
      destruct (N.ltb_spec 0 (dvc_NormalView args));
      destruct (N.ltb_spec 0 (dvc_OpNumber args));
      rewrite ?andb_false_r, ?andb_true_r;
      repeat match goal with
             | |- context [N.eqb ?a ?b] => destruct (N.eqb_spec a b)
             end;
      cbn [orb andb maxView maxOp maxCommit maxIdx maxNormalView];
      destruct (N.ltb_spec 0 (dvc_CommitNumber args));
      cbn [orb andb maxView maxOp maxCommit maxIdx maxNormalView];
      f_equal; lia. }
  rewrite Hloop, Hbody.
  cbn [maxView maxOp maxCommit maxIdx maxNormalView].
  split_and!; try reflexivity.
  cbn [Phatlog set_Phatlog with_Rstate Vcstate].
  change (Vcstate r0) with (Vcstate r). rewrite Hmsgs.
  assert (Hcases : dvc_ReplicaNumber args = 0 \/ dvc_ReplicaNumber args = 1
                   \/ dvc_ReplicaNumber args = 2)
    by (unfold NREPLICAS, F in Hrn; lia).
  change (N.to_nat (NREPLICAS + 1)) with 3%nat.
  destruct ((0 <? dvc_NormalView args) || (0 <? dvc_OpNumber args)) eqn:Hc.
  - cbn [orb]. rewrite list_lookup_total_insert_eq; [done|].
    rewrite length_replicate. lia.
  - cbn [orb]. destruct Hcases as [H|[H|H]]; rewrite H; reflexivity.
Qed.


Lemma DoViewChange_fresh now args r :
  DoViewReplies (Vcstate r) = 0 ->
  DoViews (Vcstate r) = 0 ->
  dvc_ReplicaNumber args < NREPLICAS + 1 ->
  DoViewChange now args r =
    (r4 <<- BecomeMaster now (with_Rstate (set_Status Normal)
                                (calcMasterView (store_DoViewChange args r))) ;;
     Ok (send (BcastStartView (mkStartViewArgs (View (Rstate r4)) (Phatlog r4)
                    (OpNumber (Rstate r4)) (CommitNumber (Rstate r4)))) r4)).
Proof.
  intros Hrep Hdv0 Hrn. unfold DoViewChange. fold (store_DoViewChange args r).
  rewrite Hrep, N.land_0_r, N.eqb_refl. cbn [negb].
  destruct (N.ltb_spec (dvc_ReplicaNumber args) (NREPLICAS + 1)); [|lia].
  cbn [negb].
  assert (Hdv : DoViews (Vcstate (store_DoViewChange args r)) = 1).
  { unfold store_DoViewChange. cbn [Vcstate with_Vcstate DoViews]. rewrite Hdv0.
    rewrite N.add_0_l. apply wrap_small. lia. }
  rewrite Hdv. rewrite N.eqb_refl. reflexivity.
Qed.

Lemma IsMaster_set_Status st r : IsMaster (with_Rstate (set_Status st) r) = IsMaster r.
Proof. reflexivity. Qed.

Lemma IsMaster_intro r :
  View (Rstate r) mod (NREPLICAS + 1) = ReplicaNumber (Rstate r) -> IsMaster r = true.
Proof. intros H. unfold IsMaster. by apply N.eqb_eq. Qed.

Lemma BecomeMaster_master now r :
  IsMaster r = true ->
  exists r', BecomeMaster now r = Ok r'
    /\ Rstate r' = set_Timer (Some (now + (LEASE - MAX_CLOCK_DRIFT))%Z) (Rstate r)
    /\ Phatlog r' = Phatlog r /\ Outbox r' = Outbox r /\ Applied r' = Applied r
    /\ Vcstate r' = Vcstate r /\ A (Mstate r') = 0%Z /\ Replies (Mstate r') = 0.
Proof.
  intros Hm. unfold BecomeMaster. rewrite Hm. cbn [assert obind].
  eexists. split; [reflexivity|].
  split; [|by split_and!].
  cbn [Rstate ExtendLease ExtendNeedsRenewal Mstate_Reset with_Rstate with_Mstate].
  unfold Timer_Reset. do 2 f_equal. lia.
Qed.

(** C2 (amended).  A new master that has handled no [DoViewChange] since
    its view-change scratch was cleared (whatever [StartViewChange]
    messages it has counted) completes the view change on the first (F = 1)
    [DoViewChange] message from another replica: when that message carries
    a normal_view or an op_number above 0, the master adopts the message's
    log and op_number, and with them its view and commit_number; the
    master's own log and op_number are no candidates. *)
Theorem DoViewChange_first_message now args r :
  DoViewReplies (Vcstate r) = 0 ->
  DoViews (Vcstate r) = 0 ->
  DoViewChangeMsgs (Vcstate r)
  = replicate (N.to_nat (NREPLICAS + 1)) zeroDoViewChangeArgs ->
  dvc_ReplicaNumber args < NREPLICAS + 1 ->
  dvc_ReplicaNumber args <> ReplicaNumber (Rstate r) ->
  dvc_View args mod (NREPLICAS + 1) = ReplicaNumber (Rstate r) ->
  0 < dvc_NormalView args \/ 0 < dvc_OpNumber args ->
  exists r',
    DoViewChange now args r = Ok r'
    /\ OpNumber (Rstate r') = dvc_OpNumber args
    /\ Phatlog r' = dvc_Log args
    /\ View (Rstate r') = dvc_View args
    /\ CommitNumber (Rstate r') = dvc_CommitNumber args
    /\ Status_ (Rstate r') = Normal
    /\ Outbox r' = Outbox r ++
         [BcastStartView (mkStartViewArgs (View (Rstate r')) (Phatlog r')
                            (OpNumber (Rstate r')) (CommitNumber (Rstate r')))].
Proof.
  intros Hrep Hdv Hfresh Hrn Hne Hm Hpos. rewrite DoViewChange_fresh by done.
  assert (Hmsgs : DoViewChangeMsgs (Vcstate (store_DoViewChange args r))
                  = <[N.to_nat (dvc_ReplicaNumber args) := args]>
                      (replicate (N.to_nat (NREPLICAS + 1)) zeroDoViewChangeArgs)).
  { unfold store_DoViewChange. cbn [Vcstate with_Vcstate DoViewChangeMsgs].
    by rewrite Hfresh. }
  destruct (calcMasterView_single (store_DoViewChange args r) args Hrn Hne Hmsgs)
    as (Hop & Hcn & Hview & Hlog & Hme & _ & _ & _ & _ & _ & Hob).
  assert (Hsel : (0 <? dvc_NormalView args) || (0 <? dvc_OpNumber args) = true).
  { apply orb_true_iff. destruct Hpos as [H|H]; [left|right]; by apply N.ltb_lt. }
  rewrite Hsel in Hlog. cbn [orb] in Hlog.
  set (r2 := calcMasterView _) in *. clearbody r2.
  change (ReplicaNumber (Rstate (store_DoViewChange args r)))
    with (ReplicaNumber (Rstate r)) in Hme.
  change (Outbox (store_DoViewChange args r)) with (Outbox r) in Hob.
  destruct r2 as [[v2 op2 cn2 me2 st2 nv2 vm2 t2] ms2 vc2 pl2 cf2 sh2 ap2 ob2].
  cbn [Rstate Phatlog Outbox OpNumber View CommitNumber ReplicaNumber] in *.
  subst v2 op2 cn2 me2 pl2 ob2.
  unfold BecomeMaster, IsMaster.
  cbn [Rstate with_Rstate set_Status View ReplicaNumber].
  rewrite Hm, N.eqb_refl. cbn [assert obind].
  eexists. split; [reflexivity|]. repeat split.
Qed.

(** [StartViewChange] leaves [DoViewChangeMsgs] alone: the new master, which
    sends no [DoViewChange] to itself, never stores its own state there. *)
Lemma StartViewChange_keeps_DoViewChangeMsgs args r :
  DoViewChangeMsgs (Vcstate (StartViewChange args r)) = DoViewChangeMsgs (Vcstate r).
Proof.
  unfold StartViewChange.
  destruct (_ <? View (Rstate r)); [done|].
  destruct (negb _); [done|].
  repeat match goal with
         | |- context [if ?b then _ else _] => destruct b
         end; reflexivity.
Qed.

(** The loop of [calcMasterView] compares against [maxNormalView] and never
    assigns it. *)
Lemma calcMasterView_body_maxNormalView r v i :
  maxNormalView (calcMasterView_body r v i) = maxNormalView v.
Proof.
  unfold calcMasterView_body.
  repeat match goal with
         | |- context [if ?b then _ else _] => destruct b
         end; reflexivity.
Qed.

Lemma calcMasterView_loop_maxNormalView r :
  maxNormalView (calcMasterView_loop r) = 0.
Proof.
  unfold calcMasterView_loop.
  generalize (seq 0 (N.to_nat (NREPLICAS + 1))).
  assert (H : maxNormalView (mkCalcVars 0 0 0 0 0) = 0) by reflexivity.
  revert H. generalize (mkCalcVars 0 0 0 0 0).
  intros v Hv l. revert v Hv.
  induction l as [|i l IH]; intros v Hv; [done|].
  apply IH. by rewrite calcMasterView_body_maxNormalView.
Qed.

(** So with two peer messages on record the later slot can win with the
    smaller normal_view: master 0, slot 1 at normal_view 2 with op 5, slot 2
    at normal_view 1 with op 3. *)
Example calcMasterView_later_slot_wins :
  let msgs := [zeroDoViewChangeArgs;
               mkDoViewChangeArgs 3 1 None 2 5 0;
               mkDoViewChangeArgs 3 2 None 1 3 0] in
  let r := with_Vcstate (fun _ => mkViewChangeState msgs 6 0 0 2 0) (initReplica 0 0) in
  OpNumber (Rstate (calcMasterView r)) = 3
  /\ maxIdx (calcMasterView_loop r) = 2.
Proof. split; vm_compute; reflexivity. Qed.

(** ** The server facade *)

Import phatRPC.

(** [GetMaster] returns an error exactly when the replica's status is not
    Normal. *)
Lemma GetMaster_error_iff (s : Server) :
  (exists err, GetMaster s = Refused err) <-> Status_ (Rstate (ReplicaServer s)) <> Normal.
Proof.
  unfold GetMaster. case_bool_decide as Hs; simpl; split.
  - by intros [err ?].
  - done.
  - done.
  - intros _. by eexists.
Qed.

Lemma getMasterId_mod_2F (s : Server) :
  getMasterId s = View (Rstate (ReplicaServer s)) mod (2 * F).
Proof. reflexivity. Qed.

(** The lease timer at work. *)
Lemma ReplicaTimeout_fields t r :
  Status_ (Rstate (ReplicaTimeout t r)) = ViewChange
  /\ Timer (Rstate (ReplicaTimeout t r)) = Some (t + LEASE)%Z.
Proof.
  split; [reflexivity|].
  cbn [ReplicaTimeout ExtendLease with_Rstate Rstate set_Timer Timer].
  unfold Timer_Reset. f_equal. lia.
Qed.

Lemma run_Timer_fuel_fired fuel now r :
  Status_ (Rstate r) = ViewChange ->
  Status_ (Rstate (run_Timer_fuel fuel now r)) = ViewChange.
Proof.
  revert r. induction fuel as [|fuel IH]; intros r Hs; [done|].
  cbn [run_Timer_fuel]. destruct (Timer (Rstate r)) as [d|]; [|done].
  destruct (d <=? now)%Z; [|done]. apply IH, ReplicaTimeout_fields.
Qed.

Lemma run_Timer_early now r d :
  Timer (Rstate r) = Some d -> (now < d)%Z -> run_Timer now r = r.
Proof.
  intros Ht Hd. unfold run_Timer. rewrite Ht. cbn [run_Timer_fuel]. rewrite Ht.
  by destruct (Z.leb_spec d now); [lia|].
Qed.

Lemma run_Timer_due now r d :
  Timer (Rstate r) = Some d -> (d <= now)%Z ->
  Status_ (Rstate (run_Timer now r)) = ViewChange.
Proof.
  intros Ht Hd. unfold run_Timer. rewrite Ht. cbn [run_Timer_fuel]. rewrite Ht.
  destruct (Z.leb_spec d now); [|lia]. apply run_Timer_fuel_fired, ReplicaTimeout_fields.
Qed.

Lemma run_Timer_fuel_not_due fuel now r d :
  Timer (Rstate r) = Some d -> (now < d + Z.of_nat fuel * LEASE)%Z ->
  exists d', Timer (Rstate (run_Timer_fuel fuel now r)) = Some d' /\ (now < d')%Z.
Proof.
  revert r d. induction fuel as [|fuel IH]; intros r d Ht Hd.
  { exists d. split; [done|]. lia. }
  cbn [run_Timer_fuel]. rewrite Ht. destruct (Z.leb_spec d now).
  - apply (IH _ (d + LEASE)%Z); [apply ReplicaTimeout_fields|]. lia.
  - by exists d.
Qed.

(** After [run_Timer] the lease timer is not due: it has fired as often
    as it had to. *)
Lemma run_Timer_not_due now r d :
  Timer (Rstate r) = Some d ->
  exists d', Timer (Rstate (run_Timer now r)) = Some d' /\ (now < d')%Z.
Proof.
  intros Ht. unfold run_Timer. rewrite Ht.
  apply (run_Timer_fuel_not_due _ _ _ d Ht).
  assert (HL : (0 < LEASE)%Z) by done.
  destruct (Z.le_gt_cases d now) as [Hle|Hgt].
  - pose proof (Z.mul_succ_div_gt (now - d) LEASE HL).
    rewrite Nat2Z.inj_succ, Z2Nat.id by (apply Z.div_pos; lia). lia.
  - rewrite Nat2Z.inj_succ. nia.
Qed.

(** C1 (amended).  Where the facade's master id agrees with the replica
    core's (view mod (NREPLICAS + 1)), a command other than CREATE, DELETE,
    SET and GET that arrives at [now] goes straight to the database exactly
    when the replica is the master of its view, its status is Normal and
    the instant its lease timer is armed at lies after [now].  The lease is
    enforced through the status: at the deadline the timer runs
    [ReplicaTimeout], after which [RPCDB] answers "Master Failover". *)
Theorem RPCDB_read_iff (s : Server) (args : DBCommand) (reply : DBResponse)
        (now deadline : Time) :
  goes_through_paxos (Command args) = false ->
  getMasterId s = View (Rstate (ReplicaServer s)) mod (NREPLICAS + 1) ->
  Timer (Rstate (ReplicaServer s)) = Some deadline ->
  RPCDB (mkServer (run_Timer now (ReplicaServer s))) args reply = ThroughInputChan args
  <-> IsMaster (ReplicaServer s) = true
      /\ Status_ (Rstate (ReplicaServer s)) = Normal
      /\ (now < deadline)%Z.
Proof.
  intros Hread Hid Ht.
  destruct (Z.lt_ge_cases now deadline) as [Hd|Hd].
  - rewrite (run_Timer_early _ _ _ Ht Hd). destruct s as [r]. cbn [ReplicaServer] in *.
    unfold RPCDB, IsMaster. cbn [ReplicaServer]. rewrite Hread, Hid.
    case_bool_decide as Hs; cbn [negb].
    + rewrite (N.eqb_sym (ReplicaNumber _)).
      destruct (View _ mod _ =? _) eqn:He; cbn [negb]; split; try done.
      * by intros (? & _).
    + split; [done|]. by intros (_ & ? & _).
  - pose proof (run_Timer_due _ _ _ Ht Hd) as Hfired.
    unfold RPCDB. cbn [ReplicaServer]. rewrite Hfired.
    rewrite bool_decide_eq_false_2 by done. cbn [negb].
    split; [done|]. intros (_ & _ & ?). lia.
Qed.

(** ** Broadcast and gather *)

Import Transport.

Section UnreachablePeer.
Variable Reply : Type.
Variable call : uint -> uint -> callError + Reply.
Variable handler : Reply -> bool.

Lemma start_unreachable : start 0 ∅ [1] = waiting [(1, 0)].
Proof. reflexivity. Qed.

Lemma receive_first_try k :
  receive Reply refused call handler k (waiting [(1, 0)])
  = match k with O => Some (waiting [(1, 1)]) | S _ => None end.
Proof. destruct k as [|[|k]]; reflexivity. Qed.

Lemma receive_last_try k :
  receive Reply refused call handler k (waiting [(1, 1)])
  = match k with O => Some (waiting []) | S _ => None end.
Proof. destruct k as [|[|k]]; reflexivity. Qed.

Lemma receive_nothing_left k :
  receive Reply refused call handler k (waiting []) = None.
Proof. destruct k; reflexivity. Qed.

Lemma unreachable_states g :
  rtc (step Reply refused call handler) (start 0 ∅ [1]) g ->
  g = waiting [(1, 0)] \/ g = waiting [(1, 1)] \/ g = waiting [].
Proof.
  intros H. apply rtc_nsteps in H as [n H]. revert g H.
  induction n as [|n IH]; intros g H.
  - inversion H; subst. left. apply start_unreachable.
  - apply nsteps_inv_r in H as (g1 & H1 & [k Hk]).
    destruct (IH _ H1) as [->|[->| ->]].
    + rewrite receive_first_try in Hk. destruct k; naive_solver.
    + rewrite receive_last_try in Hk. destruct k; naive_solver.
    + by rewrite receive_nothing_left in Hk.
Qed.

(** C9 (the code at the failing input).  Replica 0 gathers from replica 1,
    which cannot be dialled: after MAX_TRIES failed attempts no [sendOne] is
    left, the loop still waits on [callChan], and [doneChan] is never
    signalled in any run. *)
Theorem sendAndRecvTo_unreachable_peer_hangs :
  (~ exists g, rtc (step Reply refused call handler) (start 0 ∅ [1]) g /\ done g = true)
  /\ exists g, rtc (step Reply refused call handler) (start 0 ∅ [1]) g
               /\ blocked g /\ done g = false
               /\ forall g', ~ step Reply refused call handler g g'.
Proof.
  split.
  - intros (g & Hg & Hd). by destruct (unreachable_states g Hg) as [->|[->| ->]].
  - exists (waiting []). split_and!; try done.
    + rewrite start_unreachable.
      eapply rtc_l; [exists 0%nat; exact (receive_first_try 0)|].
      eapply rtc_l; [exists 0%nat; exact (receive_last_try 0)|]. done.
    + intros g' [k Hk]. by rewrite receive_nothing_left in Hk.
Qed.
End UnreachablePeer.

Section GatherFacts.
Variable Reply : Type.
Variable dial : uint -> uint -> bool.
Variable call : uint -> uint -> callError + Reply.
Variable handler : Reply -> bool.

Lemma loop_test_due g :
  exited g = false -> (callHandler g = false -> done g = true) ->
  done_when_due (loop_test g).
Proof.
  intros He Hc. unfold loop_test, done_when_due.
  destruct (i g <? gN g); simpl.
  - split; [done|]. by rewrite He.
  - split; [|intros _]; destruct (callHandler g), (done g); naive_solver.
Qed.

Lemma start_due self clients replicas : done_when_due (start self clients replicas).
Proof. unfold start. by apply loop_test_due. Qed.

Lemma receive_due k g g' :
  done_when_due g -> receive Reply dial call handler k g = Some g' -> done_when_due g'.
Proof.
  intros [Hc He]. unfold receive.
  destruct (exited g) eqn:Hex; [done|].
  destruct (running g !! k) as [[repNum tries]|]; [|done].
  destruct (sendOne _ _ _ _ _ _) as [c clients].
  destruct (cError c) as [e|].
  - destruct (MAX_TRIES <=? Tries c); intros [= <-]; by split.
  - intros [= <-]. apply loop_test_due; [done|]. simpl.
    destruct (callHandler g); simpl.
    + destruct (match cReply c with Some rep => handler rep | None => false end);
        simpl; [by rewrite orb_true_r|done].
    + intros _. by rewrite Hc.
Qed.

Lemma sendAndRecvTo_done_when_exited self clients replicas g :
  rtc (step Reply dial call handler) (start self clients replicas) g ->
  exited g = true -> done g = true.
Proof.
  intros H. assert (done_when_due g) as [_ He]; [|exact He].
  apply rtc_nsteps in H as [n H]. revert g H.
  induction n as [|n IH]; intros g H.
  - inversion H; subst. apply start_due.
  - apply nsteps_inv_r in H as (g1 & H1 & [k Hk]).
    eapply receive_due; [|exact Hk]. by apply IH.
Qed.
End GatherFacts.

(** ** The scenarios, run *)

Example follower_op1_reached :
  state_after (Prepare enterRecovery 100 prepare1 (initReplica 0 1)) = Some follower_op1.
Proof. vm_compute. reflexivity. Qed.

Example follower_op2_reached :
  state_after (Prepare enterRecovery 200 prepare2 follower_op1) = Some follower_op2.
Proof. vm_compute. reflexivity. Qed.

Example master_idle_reached : BecomeMaster 0 (initReplica 0 0) = Ok master_idle.
Proof. vm_compute. reflexivity. Qed.

Example master_op1_reached : RunVR "CREATE /a" master_idle = Ok master_op1.
Proof. vm_compute. reflexivity. Qed.

(** The spec's scenario: replica 1 has moved to view 1 and receives a
    [Prepare] of view 0 for op 5. *)
Lemma Prepare_stale_view_witness :
  Prepare enterRecovery 100 (mkPrepareArgs 0 "CREATE /x" 5 0) candidate1
  = Ok (Refused wrongView, candidate1).
Proof. apply (Prepare_stale_view enterRecovery). reflexivity. Defined.



Lemma commit_number_monotone_witness :
  CommitNumber (Rstate follower_op1) <= CommitNumber (Rstate follower_op2).
Proof.
  apply (commit_number_monotone_normal_case enterRecovery pr_Lease
           (OpPrepare 200 prepare2) follower_op1 follower_op2).
  - intros r0. reflexivity.
  - reflexivity.
  - vm_compute. reflexivity.
Defined.

(** C3 as stated fails.  Replica 1 accepts both prepares and reaches
    commit_number 1; its lease timer fires; as the new master of view 1 it
    receives [DoViewChange] from replica 2, which saw the first prepare only,
    and its commit_number drops to 0.  [StartView] carrying commit_number 0
    does the same to a follower. *)
Lemma view_change_lowers_commit_number :
  state_after (Prepare enterRecovery 100 prepare1 (initReplica 0 1)) = Some follower_op1
  /\ state_after (Prepare enterRecovery 200 prepare2 follower_op1) = Some follower_op2
  /\ CommitNumber (Rstate candidate1) = 1
  /\ (exists r', DoViewChange 2000000300 dvc_from_2 candidate1 = Ok r'
                 /\ CommitNumber (Rstate r') = 0)
  /\ CommitNumber (Rstate (StartView 2000000400 dvc_from_2 follower_op2)) = 0.
Proof.
  split_and!; try (vm_compute; reflexivity).
  eexists. split; vm_compute; reflexivity.
Qed.

(** Replica 1, whose lease timer fired, has counted replica 2's
    [StartViewChange] for view 1 when replica 2's [DoViewChange] arrives. *)
Lemma DoViewChange_first_message_witness :
  exists r',
    DoViewChange 2000000300 dvc_from_2 (StartViewChange svc1_from_2 candidate1) = Ok r'
    /\ OpNumber (Rstate r') = 1
    /\ Phatlog r' = Some log1.
Proof.
  destruct (DoViewChange_first_message 2000000300 dvc_from_2
              (StartViewChange svc1_from_2 candidate1))
    as (r' & H & Ho & Hl & _).
  - reflexivity.
  - reflexivity.
  - reflexivity.
  - reflexivity.
  - vm_compute. discriminate.
  - reflexivity.
  - right. reflexivity.
  - exists r'. split_and!; [exact H|exact Ho|exact Hl].
Defined.

(** C2 as stated fails.  The new master (replica 1) holds ops 1 and 2 at
    normal_view 0; the one [DoViewChange] it receives, from replica 2, carries
    op 1 only, at normal_view 0.  Of the two the spec's choice is the
    master's own state; the code adopts the message: op_number 1 and a log
    without op 2. *)
Lemma DoViewChange_discards_own_log :
  exists r',
    DoViewChange 2000000300 dvc_from_2 candidate1 = Ok r'
    /\ spec_choice (own_DoViewChange candidate1) [dvc_from_2] = own_DoViewChange candidate1
    /\ dvc_OpNumber (own_DoViewChange candidate1) = 2
    /\ dvc_Log (own_DoViewChange candidate1) = Some log2
    /\ OpNumber (Rstate r') = 1
    /\ Phatlog r' = Some log1
    /\ phatlog.GetCommand log2 2 = Some "CREATE /b"
    /\ phatlog.GetCommand log1 2 = None.
Proof.
  eexists. split; [vm_compute; reflexivity|].
  split_and!; vm_compute; reflexivity.
Qed.

(** The master started at instant 0 holds its lease until 1800000000: a
    CHILDREN read arriving at 100 goes straight to the database. *)
Lemma RPCDB_read_iff_witness :
  RPCDB (mkServer (run_Timer 100 master_idle)) read_children no_reply
  = ThroughInputChan read_children.
Proof.
  apply (RPCDB_read_iff (mkServer master_idle) read_children no_reply 100 1800000000).
  - reflexivity.
  - reflexivity.
  - reflexivity.
  - split_and!; reflexivity.
Defined.

(** C1 as stated fails.  On the same master, inside its lease, a GET is not
    answered locally: it is handed to [RunVR] like a write (the spec's
    "read under lease" scenario expects no [Prepare] on the wire). *)
Lemma RPCDB_GET_through_RunVR :
  BecomeMaster 0 (initReplica 0 0) = Ok master_idle
  /\ spec_read (Command get_a) = true
  /\ IsMaster master_idle = true
  /\ Status_ (Rstate master_idle) = Normal
  /\ Timer (Rstate master_idle) = Some 1800000000%Z
  /\ RPCDB (mkServer (run_Timer 100 master_idle)) get_a no_reply = ThroughRunVR get_a
  /\ ~ (forall (now deadline : Time) (s : Server) (args : DBCommand) (reply : DBResponse),
          spec_read (Command args) = true ->
          Timer (Rstate (ReplicaServer s)) = Some deadline ->
          (RPCDB (mkServer (run_Timer now (ReplicaServer s))) args reply
           = ThroughInputChan args
           <-> IsMaster (ReplicaServer s) = true
               /\ Status_ (Rstate (ReplicaServer s)) = Normal
               /\ (now < deadline)%Z)).
Proof.
  do 6 (split; [vm_compute; reflexivity|]).
  intros H.
  destruct (H 100%Z 1800000000%Z (mkServer master_idle) get_a no_reply eq_refl eq_refl)
    as [_ H2].
  assert (Hc : RPCDB (mkServer (run_Timer 100 master_idle)) get_a no_reply
               = ThroughInputChan get_a).
  { apply H2. split_and!; reflexivity. }
  vm_compute in Hc. discriminate Hc.
Qed.

(** C4 (the code at the failing input).  Replica 0, started as the master
    of view 0, runs [RunVR] for "CREATE /a"; replica 1 accepts the
    [Prepare] and answers with [ok_from_1].  Handling that first
    [PrepareOk], [handlePrepareOK] calls [Heartbeat], whose store into the
    nil [Heartbeats] map panics: no ack is recorded, nothing is committed
    or broadcast. *)
Theorem handlePrepareOK_first_reply_panics :
  BecomeMaster 0 (initReplica 0 0) = Ok master_idle
  /\ RunVR "CREATE /a" master_idle = Ok master_op1
  /\ Outbox master_op1 = [BcastPrepare prepare1]
  /\ Prepare enterRecovery 100 prepare1 (initReplica 0 1)
     = Ok (Replied ok_from_1, follower_op1)
  /\ pr_View ok_from_1 = View (Rstate master_op1)
  /\ pr_OpNumber ok_from_1 = OpNumber (Rstate master_op1)
  /\ N.testbit (Replies (Mstate master_op1)) (pr_ReplicaNumber ok_from_1) = false
  /\ forall (okGrant : PrepareReply -> Time) (now : Time),
       handlePrepareOK enterRecovery okGrant now ok_from_1 master_op1 = Panic.
Proof.
  do 7 (split; [vm_compute; reflexivity|]).
  intros okGrant now.
  rewrite (handlePrepareOK_nil enterRecovery okGrant now ok_from_1 master_op1);
    reflexivity.
Qed.

(** C7 (the code at the failing input).  On replica 0, started as the
    master of view 0, the first heartbeat, whichever follower and grant it
    carries, panics at the store into the nil [Heartbeats] map: no lease
    deadline is computed and neither timer is extended. *)
Theorem Heartbeat_first_receipt_panics :
  BecomeMaster 0 (initReplica 0 0) = Ok master_idle
  /\ Heartbeats (Mstate master_idle) = None
  /\ forall (now : Time) (replica : uint) (grant : Time),
       Heartbeat now replica grant master_idle = Panic.
Proof.
  do 2 (split; [vm_compute; reflexivity|]).
  intros now replica grant.
  rewrite (Heartbeat_nil now replica grant master_idle); reflexivity.
Qed.

(** C8 (the code at the failing input).  Replica 2 in view 2 is the master
    ([IsMaster], view mod (2F + 1) = 2), yet the facade computes the master
    id 0 = view mod 2F: [GetMaster] replies 0 and [RPCDB] turns the client
    away with "Not master node" and reply 0. *)
Theorem getMasterId_is_view_mod_2F :
  let s := mkServer (with_Rstate (set_View 2) (initReplica 0 2)) in
  IsMaster (ReplicaServer s) = true
  /\ View (Rstate (ReplicaServer s)) mod (2 * F + 1) = 2
  /\ getMasterId s = 0
  /\ GetMaster s = Replied 0
  /\ RPCDB s read_children no_reply
     = Return "Not master node" (mkDBResponse (Some 0) "Not master node").
Proof. cbv zeta. split_and!; vm_compute; reflexivity. Qed.

(** C10 (the code at the failing input).  Replica 1 follows replica 2 into
    view 2 and is in status Normal.  [GetMaster] returns no error and
    replies 0 = view mod 2F, a replica that is not the master of view 2:
    the master is replica 2 = view mod (2F + 1). *)
Theorem GetMaster_names_a_follower :
  View (Rstate follower_view2) = 2
  /\ Status_ (Rstate follower_view2) = Normal
  /\ GetMaster (mkServer follower_view2) = Replied 0
  /\ View (Rstate follower_view2) mod (2 * F + 1) = 2
  /\ forall r : Replica,
       View (Rstate r) = 2 -> ReplicaNumber (Rstate r) = 0 -> IsMaster r = false.
Proof.
  do 4 (split; [vm_compute; reflexivity|]).
  intros r Hv Hn. unfold IsMaster. rewrite Hv, Hn. reflexivity.
Qed.

(** * Further properties of the code *)

(** ** The normal case *)

Lemma Ok_inj {A} (a b : A) : Ok a = Ok b -> a = b.
Proof. by intros [=]. Qed.

Lemma N_range_bounds from count i :
  i ∈ N_range from count -> from <= i < from + N.of_nat count.
Proof.
  revert from. induction count as [|count IH]; intros from; simpl.
  - by intros ?%elem_of_nil.
  - intros [->|H]%elem_of_cons; [lia|]. apply IH in H. lia.
Qed.

Lemma GetCommand_Add l i c j :
  phatlog.GetCommand (phatlog.Add l i c) j
  = if decide (i = j) then Some c else phatlog.GetCommand l j.
Proof. unfold phatlog.GetCommand, phatlog.Add. simpl. apply lookup_insert. Qed.

Lemma GetCommand_Add_range l i c from count :
  from + N.of_nat count <= i ->
  phatlog.GetCommand (phatlog.Add l i c) <$> N_range from count
  = phatlog.GetCommand l <$> N_range from count.
Proof.
  intros Hi. apply list_fmap_ext. intros k j Hj.
  apply list_elem_of_lookup_2, N_range_bounds in Hj.
  rewrite GetCommand_Add. case_decide; [exfalso; lia|done].
Qed.

Section InStep.
Variable PrepareRecovery : Replica -> Replica.
Variable okGrant : PrepareReply -> Time.
Hypothesis recovery_in_step : forall r, in_step r -> in_step (PrepareRecovery r).

Lemma doCommit_in_step cn r r' :
  in_step r -> doCommit PrepareRecovery cn r = Ok r' -> in_step r'.
Proof.
  intros Hin.
  destruct (N.le_gt_cases cn (CommitNumber (Rstate r))) as [Hold|Hnew].
  - rewrite doCommit_old by done. by intros [= <-].
  - destruct (N.le_gt_cases cn (OpNumber (Rstate r))) as [Hle|Hgt].
    + destruct Hin as (l & Hl & Hcf & Hu & Hco & Hpop & Hmax & Hap).
      rewrite doCommit_catch_up by (first [done | unfold is_uint in *; lia]).
      unfold committed_upto. rewrite Hcf, Hl. intros [= <-].
      exists l. destruct r as [[v op c me st nv vm t] ms vc pl cf sh ap ob].
      simpl in *. subst. split_and!; try done.
      replace (N.to_nat cn) with (N.to_nat c + N.to_nat (cn - c))%nat by lia.
      rewrite N_range_app, fmap_app. do 3 f_equal. lia.
    + rewrite doCommit_beyond_log by done. intros [= <-]. by apply recovery_in_step.
Qed.


Lemma in_step_append r r' l c :
  in_step r -> Phatlog r = Some l ->
  OpNumber (Rstate r) + 1 < 2 ^ 64 ->
  Phatlog r' = Some (phatlog.Add l (OpNumber (Rstate r) + 1) c) ->
  OpNumber (Rstate r') = OpNumber (Rstate r) + 1 ->
  CommitNumber (Rstate r') = CommitNumber (Rstate r) ->
  CommitFunc r' = CommitFunc r -> Applied r' = Applied r ->
  in_step r'.
Proof.
  intros (l0 & Hl0 & Hcf & Hu & Hco & Hpop & Hmax & Hap) Hl Hb Hl' Hop' Hc' Hcf' Hap'.
  assert (l0 = l) as -> by congruence.
  exists (phatlog.Add l (OpNumber (Rstate r) + 1) c).
  rewrite Hop', Hc', Hcf', Hap'. split_and!; try done.
  - lia.
  - intros i. rewrite GetCommand_Add. case_decide as Hi.
    + subst i. split; [lia|by eexists].
    + rewrite Hpop. lia.
  - cbn. unfold phatlog.Max. rewrite Hmax.
    by destruct (N.ltb_spec (OpNumber (Rstate r)) (OpNumber (Rstate r) + 1)); [|lia].
  - rewrite Hap. symmetry. apply GetCommand_Add_range. lia.
Qed.

Lemma in_step_same r r' :
  in_step r -> Phatlog r' = Phatlog r -> OpNumber (Rstate r') = OpNumber (Rstate r) ->
  CommitNumber (Rstate r') = CommitNumber (Rstate r) ->
  CommitFunc r' = CommitFunc r -> Applied r' = Applied r ->
  in_step r'.
Proof.
  intros (l & Hl & Hcf & Hu & Hco & Hpop & Hmax & Hap) Hl' Hop' Hc' Hcf' Hap'.
  exists l. rewrite Hl', Hop', Hc', Hcf', Hap'. done.
Qed.

(** X1.  The operations of the normal case ([doCommit], [Prepare], [Commit],
    [RunVR], [handlePrepareOK]) keep a replica in step: afterwards its log
    still holds exactly the indices 1 .. op_number with [MaxIndex] at
    op_number, commit_number is at most op_number, and [CommitFunc] has been
    handed the log entries 1 .. commit_number in order, each once; as long
    as op_number + 1 fits a [uint] and entering recovery keeps that too. *)
Theorem normal_case_keeps_in_step op r r' :
  in_step r ->
  OpNumber (Rstate r) + 1 < 2 ^ 64 ->
  run_normal_op PrepareRecovery okGrant op r = Ok r' ->
  in_step r'.
Proof.
  intros Hin Hroom.
  destruct op as [cn|now args|now args|command|now reply]; cbn [run_normal_op].
  - by apply doCommit_in_step.
  - unfold Prepare.
    destruct (_ <? pa_View args); [intros [= <-]; by apply recovery_in_step|].
    destruct (pa_View args <? _); [by intros [= <-]|].
    destruct (negb _); [by intros [= <-]|].
    destruct (N.leb_spec (pa_OpNumber args) (OpNumber (Rstate r))) as [|Hlt];
      [by intros [= <-]|].
    rewrite (wrap_small (OpNumber (Rstate r) + 1)) by done.
    destruct (N.ltb_spec (OpNumber (Rstate r) + 1) (pa_OpNumber args));
      [intros [= <-]; by apply recovery_in_step|].
    pose proof Hin as (l & Hl & _).
    unfold addLog. cbn [Phatlog with_Rstate ExtendLease]. rewrite Hl. cbn [obind].
    destruct (doCommit _ _ _) as [r4| |] eqn:Hd; [|done..].
    cbn [obind snd]. intros [= <-].
    eapply doCommit_in_step; [|exact Hd].
    eapply (in_step_append r); try done; cbn.
    all: rewrite ?(wrap_small (OpNumber (Rstate r) + 1)) by done; done.
  - unfold Commit.
    destruct (_ <? ca_View args); [intros [= <-]; by apply recovery_in_step|].
    destruct (ca_View args <? _); [by intros [= <-]|].
    destruct (doCommit _ _ _) as [r2| |] eqn:Hd; [|done..].
    cbn [obind snd]. intros [= <-].
    eapply doCommit_in_step; [|exact Hd]. by eapply in_step_same.
  - unfold RunVR. destruct (IsMaster r); [|done]. cbn [assert obind].
    destruct (_ =? _); [|done]. cbn [assert obind].
    pose proof Hin as (l & Hl & _).
    unfold addLog. cbn [Phatlog with_Rstate Mstate_Reset with_Mstate]. rewrite Hl.
    cbn [obind]. intros [= <-].
    eapply (in_step_append r); try done; cbn.
    all: rewrite ?(wrap_small (OpNumber (Rstate r) + 1)) by done; done.
  - unfold handlePrepareOK. destruct (negb _); [by intros [= <-]|].
    destruct (Heartbeat _ _ _ _) as [r1| |] eqn:Hhb; [|done..]. cbn [obind].
    apply Heartbeat_Rstate in Hhb as (Hc & Hop & _ & _ & _ & _ & Hl1 & Hcf1 & Hap1 & _).
    assert (Hin1 : in_step r1) by (by eapply in_step_same).
    destruct (negb _); [by intros [= <-]|].
    destruct (negb _); [by intros [= <-]|].
    destruct (negb _); [intros [= <-]; by eapply (in_step_same r1)|].
    destruct (doCommit _ _ _) as [r3| |] eqn:Hd; [|done..].
    cbn [obind snd]. intros [= <-].
    eapply (in_step_same r3); try done.
    eapply doCommit_in_step; [|exact Hd]. by eapply (in_step_same r1).
Qed.

End InStep.

Lemma initReplica_in_step now i : in_step (initReplica now i).
Proof.
  exists phatlog.EmptyLog. split_and!; try done.
  intros j. unfold phatlog.GetCommand. simpl. rewrite lookup_empty.
  split; [by intros []|lia].
Qed.

Section NormalCase.
Variable PrepareRecovery : Replica -> Replica.
Variable okGrant : PrepareReply -> Time.

Lemma committed_upto_fields cn r l :
  Phatlog r = Some l -> CommitFunc r = true ->
  exists r', committed_upto cn r = Ok r'
    /\ Rstate r' = set_CommitNumber cn (Rstate r)
    /\ Applied r' = Applied r ++
         (phatlog.GetCommand l <$> N_range (CommitNumber (Rstate r) + 1)
                                          (N.to_nat (cn - CommitNumber (Rstate r))))
    /\ Phatlog r' = Some l /\ CommitFunc r' = true
    /\ Mstate r' = Mstate r /\ Vcstate r' = Vcstate r
    /\ IsShutdown r' = IsShutdown r /\ Outbox r' = Outbox r.
Proof.
  intros Hl Hcf. unfold committed_upto. rewrite Hcf, Hl.
  eexists. split; [reflexivity|]. by destruct r.
Qed.

(** [doCommit] returns whenever the log is allocated. *)
Lemma doCommit_returns cn r l :
  Phatlog r = Some l -> is_uint (OpNumber (Rstate r)) ->
  exists r', doCommit PrepareRecovery cn r = Ok r'.
Proof.
  intros Hl Hu.
  destruct (N.le_gt_cases cn (CommitNumber (Rstate r))) as [Hold|Hnew].
  - rewrite doCommit_old by done. by eexists.
  - destruct (N.le_gt_cases cn (OpNumber (Rstate r))) as [Hle|Hgt].
    + rewrite doCommit_catch_up by (first [done | unfold is_uint in *; lia]).
      unfold committed_upto. rewrite Hl. destruct (CommitFunc r); by eexists.
    + rewrite doCommit_beyond_log by done. by eexists.
Qed.

Lemma doCommit_catch_up_fields cn r l :
  Phatlog r = Some l -> CommitFunc r = true ->
  CommitNumber (Rstate r) < cn -> cn <= OpNumber (Rstate r) -> is_uint cn ->
  exists r',
    doCommit PrepareRecovery cn r = Ok r'
    /\ Rstate r' = set_CommitNumber cn (Rstate r)
    /\ Applied r' = Applied r ++
         (phatlog.GetCommand l <$> N_range (CommitNumber (Rstate r) + 1)
                                          (N.to_nat (cn - CommitNumber (Rstate r))))
    /\ Phatlog r' = Some l /\ CommitFunc r' = true
    /\ Mstate r' = Mstate r /\ Vcstate r' = Vcstate r
    /\ IsShutdown r' = IsShutdown r /\ Outbox r' = Outbox r.
Proof.
  intros Hl Hcf H1 H2 Hu. rewrite doCommit_catch_up by done.
  by apply committed_upto_fields.
Qed.

(** X2.  [doCommit] with a target above the commit number and within the
    log hands the entries commit_number + 1 .. target to [CommitFunc] in
    index order, sets commit_number to the target and touches nothing else;
    the same call once more changes nothing. *)
Theorem doCommit_applies_log_in_order cn r l :
  Phatlog r = Some l -> CommitFunc r = true ->
  CommitNumber (Rstate r) < cn -> cn <= OpNumber (Rstate r) -> is_uint cn ->
  exists r',
    doCommit PrepareRecovery cn r = Ok r'
    /\ Rstate r' = set_CommitNumber cn (Rstate r)
    /\ Applied r' = Applied r ++
         (phatlog.GetCommand l <$> N_range (CommitNumber (Rstate r) + 1)
                                          (N.to_nat (cn - CommitNumber (Rstate r))))
    /\ Phatlog r' = Some l
    /\ Mstate r' = Mstate r /\ Vcstate r' = Vcstate r /\ Outbox r' = Outbox r
    /\ doCommit PrepareRecovery cn r' = Ok r'.
Proof.
  intros Hl Hcf H1 H2 Hu.
  destruct (doCommit_catch_up_fields cn r l)
    as (r' & -> & HR & Hap & Hl' & Hcf' & Hm & Hvc & _ & Hob); try done.
  exists r'. split_and!; try done.
  apply doCommit_old. rewrite HR. by destruct (Rstate r).
Qed.

Lemma N_range_nil from n : n = 0%nat -> N_range from n = [].
Proof. by intros ->. Qed.

(** X4.  A [Commit] of the replica's own view is answered whatever the
    replica's status: the reply grants a lease until now + LEASE, the lease
    timer is re-armed there, and the log entries up to the carried commit
    number (when that lies within the log) are applied in order. *)
Theorem Commit_same_view now args r l :
  ca_View args = View (Rstate r) ->
  Phatlog r = Some l -> CommitFunc r = true ->
  ca_CommitNumber args <= OpNumber (Rstate r) -> is_uint (OpNumber (Rstate r)) ->
  exists r',
    Commit PrepareRecovery now args r
    = Ok (Replied (mkHeartbeatReply (ReplicaNumber (Rstate r)) (now + LEASE)%Z), r')
    /\ Timer (Rstate r') = Some (now + LEASE)%Z
    /\ CommitNumber (Rstate r') = N.max (CommitNumber (Rstate r)) (ca_CommitNumber args)
    /\ Applied r' = Applied r ++
         (phatlog.GetCommand l <$> N_range (CommitNumber (Rstate r) + 1)
            (N.to_nat (ca_CommitNumber args - CommitNumber (Rstate r))))
    /\ OpNumber (Rstate r') = OpNumber (Rstate r)
    /\ Status_ (Rstate r') = Status_ (Rstate r)
    /\ View (Rstate r') = View (Rstate r)
    /\ Phatlog r' = Some l.
Proof.
  intros Hv Hl Hcf Hle Hu. unfold Commit. rewrite Hv, N.ltb_irrefl.
  set (r1 := ExtendLease now (now + LEASE)%Z r).
  assert (Ht : Timer (Rstate r1) = Some (now + LEASE)%Z).
  { cbn. unfold Timer_Reset. f_equal. lia. }
  assert (Hr1 : CommitNumber (Rstate r1) = CommitNumber (Rstate r)
                /\ OpNumber (Rstate r1) = OpNumber (Rstate r)
                /\ Status_ (Rstate r1) = Status_ (Rstate r)
                /\ View (Rstate r1) = View (Rstate r)
                /\ Phatlog r1 = Some l /\ CommitFunc r1 = true /\ Applied r1 = Applied r)
    by done.
  clearbody r1. destruct Hr1 as (Hc1 & Hop1 & Hst1 & Hv1 & Hl1 & Hcf1 & Hap1).
  destruct (N.le_gt_cases (ca_CommitNumber args) (CommitNumber (Rstate r))) as [Hold|Hnew].
  - rewrite doCommit_old by lia. cbn [obind]. eexists. split; [reflexivity|].
    split_and!; try done; try congruence.
    + lia.
    + rewrite Hap1, N_range_nil by lia. by rewrite app_nil_r.
  - destruct (doCommit_catch_up_fields (ca_CommitNumber args) r1 l)
      as (r' & -> & HR & Hap & Hl' & _); try done; try lia.
    { unfold is_uint in *. lia. }
    cbn [obind]. eexists. split; [reflexivity|]. rewrite HR.
    destruct r1 as [[v op c me st nv vm t] ms vc pl cf sh ap ob]. simpl in *. subst.
    split_and!; try done. lia.
Qed.


(** X3.  [Prepare] fills in a reply exactly when the views are equal, the
    status is Normal and the carried op_number is the local one plus one
    (the log being allocated); a refused [Prepare] leaves the replica
    untouched or hands it to recovery. *)
Theorem Prepare_replies_iff now args r l :
  Phatlog r = Some l -> OpNumber (Rstate r) + 1 < 2 ^ 64 ->
  ((exists reply r', Prepare PrepareRecovery now args r = Ok (Replied reply, r'))
   <-> pa_View args = View (Rstate r) /\ Status_ (Rstate r) = Normal
       /\ pa_OpNumber args = OpNumber (Rstate r) + 1)
  /\ (forall e r', Prepare PrepareRecovery now args r = Ok (Refused e, r') ->
        r' = r \/ r' = PrepareRecovery r).
Proof.
  intros Hl Hroom. unfold Prepare.
  rewrite (wrap_small (OpNumber (Rstate r) + 1)) by done.
  destruct (N.ltb_spec (View (Rstate r)) (pa_View args)).
  { split; [split|].
    - by intros (? & ? & [=]).
    - lia.
    - intros e r' [= _ <-]. by right. }
  destruct (N.ltb_spec (pa_View args) (View (Rstate r))).
  { split; [split|].
    - by intros (? & ? & [=]).
    - lia.
    - intros e r' [= _ <-]. by left. }
  destruct (decide (Status_ (Rstate r) = Normal)) as [Hst|Hst].
  2:{ rewrite bool_decide_eq_false_2 by done. cbn [negb]. split; [split|].
    - by intros (? & ? & [=]).
    - by intros (_ & ? & _).
    - intros e r' [= _ <-]. by left. }
  rewrite bool_decide_eq_true_2 by done. cbn [negb].
  destruct (N.leb_spec (pa_OpNumber args) (OpNumber (Rstate r))).
  { split; [split|].
    - by intros (? & ? & [=]).
    - lia.
    - intros e r' [= _ <-]. by left. }
  destruct (N.ltb_spec (OpNumber (Rstate r) + 1) (pa_OpNumber args)).
  { split; [split|].
    - by intros (? & ? & [=]).
    - lia.
    - intros e r' [= _ <-]. by right. }
  unfold addLog. cbn [Phatlog with_Rstate ExtendLease]. rewrite Hl. cbn [obind].
  match goal with |- context [doCommit _ ?cn ?r3] =>
    destruct (doCommit_returns cn r3 (phatlog.Add l (OpNumber (Rstate r3)) (pa_Command args)))
      as [r4 ->] end; [done| |].
  { cbn. rewrite (wrap_small (OpNumber (Rstate r) + 1)) by done. done. }
  cbn [obind]. split; [split|].
  - intros _. split_and!; [lia|done|lia].
  - intros _. by eexists _, _.
  - by intros e r' [=].
Qed.

Lemma doCommit_keeps_nil cn r r' :
  (forall r0, Heartbeats (Mstate r0) = None ->
              Heartbeats (Mstate (PrepareRecovery r0)) = None) ->
  is_uint cn ->
  Heartbeats (Mstate r) = None ->
  doCommit PrepareRecovery cn r = Ok r' ->
  Heartbeats (Mstate r') = None.
Proof.
  intros HPR Hu Hnil.
  destruct (N.le_gt_cases cn (CommitNumber (Rstate r))) as [Hold|Hnew].
  - rewrite doCommit_old by done. by intros [= <-].
  - destruct (N.le_gt_cases cn (OpNumber (Rstate r))) as [Hin|Hout].
    + rewrite doCommit_catch_up by done. unfold committed_upto.
      destruct (CommitFunc r); [destruct (Phatlog r); [|done]|]; by intros [= <-].
    + rewrite doCommit_beyond_log by done. intros [= <-]. by apply HPR.
Qed.

Lemma StartViewChange_Mstate args r : Mstate (StartViewChange args r) = Mstate r.
Proof.
  unfold StartViewChange.
  repeat match goal with
         | |- context [if ?b then _ else _] => destruct b
         end; reflexivity.
Qed.

Lemma run_core_op_keeps_nil op r r' :
  (forall r0, Heartbeats (Mstate r0) = None ->
              Heartbeats (Mstate (PrepareRecovery r0)) = None) ->
  is_uint (core_commit_argument op) ->
  Heartbeats (Mstate r) = None ->
  run_core_op PrepareRecovery okGrant op r = Ok r' ->
  Heartbeats (Mstate r') = None.
Proof.
  intros HPR Hu Hnil.
  destruct op as [[cn|now args|now args|command|now reply]|now replica t|now|now|args
                  |now args|now args]; cbn [run_core_op run_normal_op].
  - by apply doCommit_keeps_nil.
  - unfold Prepare.
    destruct (_ <? pa_View args); [intros [= <-]; by apply HPR|].
    destruct (pa_View args <? _); [by intros [= <-]|].
    destruct (negb _); [by intros [= <-]|].
    destruct (_ <=? _); [by intros [= <-]|].
    destruct (_ <? pa_OpNumber args); [intros [= <-]; by apply HPR|].
    unfold addLog. cbn [Phatlog with_Rstate ExtendLease].
    destruct (Phatlog r); [|done]. cbn [obind].
    destruct (doCommit _ _ _) as [r4| |] eqn:Hd; [|done..].
    cbn [obind snd]. intros [= <-].
    apply (doCommit_keeps_nil _ _ _ HPR Hu) in Hd; [exact Hd|exact Hnil].
  - unfold Commit.
    destruct (_ <? ca_View args); [intros [= <-]; by apply HPR|].
    destruct (ca_View args <? _); [by intros [= <-]|].
    destruct (doCommit _ _ _) as [r2| |] eqn:Hd; [|done..].
    cbn [obind snd]. intros [= <-].
    apply (doCommit_keeps_nil _ _ _ HPR Hu) in Hd; [exact Hd|exact Hnil].
  - unfold RunVR. destruct (IsMaster r); [|done]. cbn [assert obind].
    destruct (_ =? _); [|done]. cbn [assert obind].
    unfold addLog. cbn [Phatlog with_Rstate Mstate_Reset with_Mstate].
    destruct (Phatlog r); [|done]. cbn [obind]. by intros [= <-].
  - destruct (N.eq_dec (pr_View reply) (View (Rstate r))) as [Hv|Hv].
    + rewrite handlePrepareOK_nil by done. by destruct (IsMaster r).
    + rewrite handlePrepareOK_other_view by done. by intros [= <-].
  - rewrite Heartbeat_nil by done. by destruct (IsMaster r).
  - unfold BecomeMaster. destruct (IsMaster r); [|done]. by intros [= <-].
  - by intros [= <-].
  - intros [= <-]. by rewrite StartViewChange_Mstate.
  - unfold DoViewChange.
    destruct (negb _); [by intros [= <-]|].
    destruct (negb _); [done|].
    destruct (_ =? F); [|by intros [= <-]].
    unfold BecomeMaster. destruct (IsMaster _); [|done]. cbn [assert obind].
    intros H. apply Ok_inj in H. subst r'. exact Hnil.
  - by intros [= <-].
Qed.

(** X6.  No operation of the replica core makes the [Heartbeats] map.  In
    every state a run of the core reaches from a freshly started replica
    the map is nil, and [Heartbeat] does not return there: it fails its
    assertion on a replica that is not the master and panics at its store
    on the master.  (Provided [PrepareRecovery] does not make the map, and
    the commit numbers handed over fit a [uint].) *)
Theorem Heartbeat_never_returns ops now i r :
  (forall r0, Heartbeats (Mstate r0) = None ->
              Heartbeats (Mstate (PrepareRecovery r0)) = None) ->
  Forall (fun op => is_uint (core_commit_argument op)) ops ->
  run_core_ops PrepareRecovery okGrant ops (initReplica now i) = Ok r ->
  Heartbeats (Mstate r) = None
  /\ forall now' replica t,
       Heartbeat now' replica t r = if IsMaster r then Panic else Fatal.
Proof.
  intros HPR Hu Hrun.
  assert (Hnil : Heartbeats (Mstate r) = None).
  { assert (H0 : Heartbeats (Mstate (initReplica now i)) = None) by reflexivity.
    revert Hu Hrun H0. generalize (initReplica now i).
    induction ops as [|op ops IH]; intros r0 Hu Hrun H0; cbn [run_core_ops] in Hrun.
    - by injection Hrun as <-.
    - destruct (run_core_op _ _ _ _) as [r1| |] eqn:Hop; [|done..].
      cbn [obind] in Hrun. apply Forall_cons in Hu as [Hu1 Hu].
      apply (IH r1 Hu Hrun). by eapply run_core_op_keeps_nil. }
  split; [exact Hnil|]. intros now' replica t. by apply Heartbeat_nil.
Qed.

(** [doCommit] for a target within the log. *)
Lemma doCommit_within_log cn r l :
  Phatlog r = Some l -> CommitFunc r = true ->
  cn <= OpNumber (Rstate r) -> is_uint (OpNumber (Rstate r)) ->
  exists r',
    doCommit PrepareRecovery cn r = Ok r'
    /\ Rstate r' = set_CommitNumber (N.max (CommitNumber (Rstate r)) cn) (Rstate r)
    /\ Applied r' = Applied r ++
         (phatlog.GetCommand l <$> N_range (CommitNumber (Rstate r) + 1)
                                          (N.to_nat (cn - CommitNumber (Rstate r))))
    /\ Phatlog r' = Some l /\ CommitFunc r' = true
    /\ Mstate r' = Mstate r /\ Vcstate r' = Vcstate r
    /\ IsShutdown r' = IsShutdown r /\ Outbox r' = Outbox r.
Proof.
  intros Hl Hcf Hle Hu.
  destruct (N.le_gt_cases cn (CommitNumber (Rstate r))) as [Hold|Hnew].
  - rewrite doCommit_old by done. exists r.
    rewrite N.max_l, N_range_nil, app_nil_r by lia.
    split_and!; try done. by destruct (Rstate r).
  - rewrite N.max_r by lia. apply doCommit_catch_up_fields; try done.
    unfold is_uint in *. lia.
Qed.

Lemma RunVR_fields command r l :
  IsMaster r = true -> OpNumber (Rstate r) = CommitNumber (Rstate r) ->
  Phatlog r = Some l ->
  exists r',
    RunVR command r = Ok r'
    /\ Rstate r' = set_OpNumber (wrap (OpNumber (Rstate r) + 1)) (Rstate r)
    /\ Phatlog r' = Some (phatlog.Add l (wrap (OpNumber (Rstate r) + 1)) command)
    /\ A (Mstate r') = 0%Z /\ Replies (Mstate r') = 0
    /\ Heartbeats (Mstate r') = Heartbeats (Mstate r)
    /\ mTimer (Mstate r') = mTimer (Mstate r)
    /\ Vcstate r' = Vcstate r /\ CommitFunc r' = CommitFunc r
    /\ IsShutdown r' = IsShutdown r /\ Applied r' = Applied r
    /\ Outbox r' = Outbox r ++
         [BcastPrepare (mkPrepareArgs (View (Rstate r)) command
                          (wrap (OpNumber (Rstate r) + 1)) (CommitNumber (Rstate r)))].
Proof.
  intros Hm Heq Hl. unfold RunVR. rewrite Hm, Heq, N.eqb_refl. cbn [assert obind].
  unfold addLog. cbn [Phatlog with_Rstate Mstate_Reset with_Mstate]. rewrite Hl.
  cbn [obind]. eexists. split; [reflexivity|]. rewrite <- Heq.
  destruct r as [[v op c me st nv vm t] ms vc pl cf sh ap ob]. simpl in *. by subst.
Qed.

(** X5.  [RunVR] returns only on the master with the last operation
    committed, and leaves the replica one operation ahead of its commit
    number: run again before that operation is committed, it fails its
    assertion. *)
Theorem RunVR_one_op_in_flight command command' r r1 :
  OpNumber (Rstate r) + 1 < 2 ^ 64 ->
  RunVR command r = Ok r1 ->
  IsMaster r = true
  /\ OpNumber (Rstate r) = CommitNumber (Rstate r)
  /\ OpNumber (Rstate r1) = CommitNumber (Rstate r1) + 1
  /\ Outbox r1 = Outbox r ++
       [BcastPrepare (mkPrepareArgs (View (Rstate r)) command
                        (OpNumber (Rstate r) + 1) (CommitNumber (Rstate r)))]
  /\ RunVR command' r1 = Fatal.
Proof.
  intros Hroom H.
  assert (Hm : IsMaster r = true).
  { unfold RunVR in H. by destruct (IsMaster r). }
  assert (Heq : OpNumber (Rstate r) = CommitNumber (Rstate r)).
  { unfold RunVR in H. rewrite Hm in H. cbn [assert obind] in H.
    by destruct (N.eqb_spec (OpNumber (Rstate r)) (CommitNumber (Rstate r))). }
  destruct (Phatlog r) as [l|] eqn:Hl.
  2:{ unfold RunVR in H. rewrite Hm, Heq, N.eqb_refl in H. cbn [assert obind] in H.
      unfold addLog in H. cbn [Phatlog with_Rstate Mstate_Reset with_Mstate] in H.
      by rewrite Hl in H. }
  destruct (RunVR_fields command r l Hm Heq Hl)
    as (r2 & H2 & HR & _ & _ & _ & _ & _ & _ & _ & _ & _ & Hob).
  rewrite H2 in H. injection H as <-.
  rewrite (wrap_small _ Hroom) in HR, Hob.
  split_and!; try done.
  - rewrite HR. destruct (Rstate r). cbn in *. lia.
  - unfold RunVR, IsMaster. rewrite HR.
    unfold IsMaster in Hm.
    assert (Hm' : (View (set_OpNumber (OpNumber (Rstate r) + 1) (Rstate r)) mod (NREPLICAS + 1)
                   =? ReplicaNumber (set_OpNumber (OpNumber (Rstate r) + 1) (Rstate r))) = true)
      by exact Hm.
    rewrite Hm'. cbn [assert obind].
    assert (Hne : (OpNumber (set_OpNumber (OpNumber (Rstate r) + 1) (Rstate r))
                   =? CommitNumber (set_OpNumber (OpNumber (Rstate r) + 1) (Rstate r))) = false).
    { apply N.eqb_neq. cbn. lia. }
    by rewrite Hne.
Qed.

Lemma Prepare_in_sync now args r l :
  pa_View args = View (Rstate r) -> Status_ (Rstate r) = Normal ->
  pa_OpNumber args = OpNumber (Rstate r) + 1 -> is_uint (pa_OpNumber args) ->
  Phatlog r = Some l -> CommitFunc r = true ->
  pa_CommitNumber args <= pa_OpNumber args ->
  exists r',
    Prepare PrepareRecovery now args r
    = Ok (Replied (mkPrepareReply (View (Rstate r)) (OpNumber (Rstate r) + 1)
                     (ReplicaNumber (Rstate r)) (now + LEASE)%Z), r')
    /\ Rstate r' = mkReplicaState (View (Rstate r)) (OpNumber (Rstate r) + 1)
                     (N.max (CommitNumber (Rstate r)) (pa_CommitNumber args))
                     (ReplicaNumber (Rstate r)) Normal (NormalView (Rstate r))
                     (ViewChangeMsgs (Rstate r)) (Some (now + LEASE)%Z)
    /\ Phatlog r' = Some (phatlog.Add l (OpNumber (Rstate r) + 1) (pa_Command args))
    /\ CommitFunc r' = true
    /\ Applied r' = Applied r ++
         (phatlog.GetCommand (phatlog.Add l (OpNumber (Rstate r) + 1) (pa_Command args))
            <$> N_range (CommitNumber (Rstate r) + 1)
                        (N.to_nat (pa_CommitNumber args - CommitNumber (Rstate r))))
    /\ Outbox r' = Outbox r.
Proof.
  intros Hv Hst Hop Hu Hl Hcf Hc.
  rewrite (Prepare_accept_unfold _ now args r l) by done.
  match goal with |- context [doCommit _ ?cn ?r3] =>
    destruct (doCommit_within_log cn r3
                (phatlog.Add l (OpNumber (Rstate r) + 1) (pa_Command args)))
      as (r4 & -> & HR & Hap & Hl4 & Hcf4 & _ & _ & _ & Hob) end; try done.
  { cbn. lia. }
  { cbn. by rewrite <- Hop. }
  cbn [obind]. eexists.
  split; [|split_and!; try done].
  - rewrite HR. destruct r as [[v op c me st nv vm t] ms vc pl cf sh ap ob].
    simpl in *. by subst.
  - rewrite HR. destruct r as [[v op c me st nv vm t] ms vc pl cf sh ap ob].
    simpl in *. subst. unfold set_CommitNumber, Timer_Reset. cbn. do 2 f_equal. lia.
Qed.

(** X7.  One operation through the normal case, as far as it gets.  The
    master, its [Heartbeats] nil as on every started replica, runs [RunVR];
    a follower of the same view and op_number accepts the [Prepare] it
    broadcasts, stores the command at the same index as the master and
    answers for that op_number.  Handling that answer the master panics in
    [Heartbeat]: it has the command in its log and has neither committed
    nor applied it. *)
Theorem replicated_op_ends_in_panic command nowP nowK m f lm lf :
  IsMaster m = true ->
  OpNumber (Rstate m) = CommitNumber (Rstate m) ->
  OpNumber (Rstate m) + 1 < 2 ^ 64 ->
  Phatlog m = Some lm ->
  Heartbeats (Mstate m) = None ->
  View (Rstate f) = View (Rstate m) -> Status_ (Rstate f) = Normal ->
  OpNumber (Rstate f) = OpNumber (Rstate m) ->
  CommitNumber (Rstate f) <= OpNumber (Rstate f) ->
  Phatlog f = Some lf -> CommitFunc f = true ->
  let n := OpNumber (Rstate m) + 1 in
  let prepare := mkPrepareArgs (View (Rstate m)) command n (OpNumber (Rstate m)) in
  exists m1 reply f1,
    RunVR command m = Ok m1
    /\ Outbox m1 = Outbox m ++ [BcastPrepare prepare]
    /\ Phatlog m1 = Some (phatlog.Add lm n command)
    /\ OpNumber (Rstate m1) = n
    /\ CommitNumber (Rstate m1) = OpNumber (Rstate m)
    /\ Applied m1 = Applied m
    /\ Prepare PrepareRecovery nowP prepare f = Ok (Replied reply, f1)
    /\ pr_View reply = View (Rstate m) /\ pr_OpNumber reply = n
    /\ Phatlog f1 = Some (phatlog.Add lf n command)
    /\ OpNumber (Rstate f1) = n
    /\ CommitNumber (Rstate f1) = OpNumber (Rstate m)
    /\ handlePrepareOK PrepareRecovery okGrant nowK reply m1 = Panic.
Proof.
  intros Hm Heq Hroom Hlm Hnil Hvf Hstf Hopf Hcf Hlf Hcff n prepare.
  destruct (RunVR_fields command m lm)
    as (m1 & HRun & HR1 & Hl1 & HA1 & HRp1 & HH1 & _ & _ & Hcf1 & _ & Hap1 & Hob1); try done.
  rewrite (wrap_small _ Hroom) in HR1, Hl1, Hob1. fold n in HR1, Hl1, Hob1.
  destruct (Prepare_in_sync nowP prepare f lf)
    as (f1 & HP & HRf1 & Hlf1 & Hcff1 & Hapf1 & Hobf1).
  { by cbn. }
  { done. }
  { cbn. unfold n. by rewrite Hopf. }
  { cbn. unfold is_uint. done. }
  { done. }
  { done. }
  { cbn. unfold n. lia. }
  cbn [pa_CommitNumber pa_Command prepare] in HRf1, Hlf1, Hapf1.
  rewrite Hopf in HP, HRf1, Hlf1, Hapf1. fold n in HP, HRf1, Hlf1, Hapf1.
  rewrite N.max_r in HRf1 by lia.
  set (reply := mkPrepareReply (View (Rstate f)) n (ReplicaNumber (Rstate f)) (nowP + LEASE)%Z)
    in *.
  exists m1, reply, f1. split_and!.
  - exact HRun.
  - rewrite Hob1, <- Heq. done.
  - exact Hl1.
  - by rewrite HR1.
  - rewrite HR1. cbn. by rewrite Heq.
  - exact Hap1.
  - exact HP.
  - exact Hvf.
  - reflexivity.
  - exact Hlf1.
  - by rewrite HRf1.
  - by rewrite HRf1.
  - rewrite handlePrepareOK_nil.
    + assert (IsMaster m1 = true) as ->; [|done].
      unfold IsMaster in *. by rewrite HR1.
    + by rewrite HH1.
    + rewrite HR1. cbn. exact Hvf.
Qed.

End NormalCase.

(** ** View change *)

(** X8.  A master whose lease timer fires moves to the next view, of which
    it is not the master, enters status ViewChange, broadcasts
    [StartViewChange] for that view and re-arms its timer LEASE ahead; its
    log, op_number and commit_number stay. *)
Theorem ReplicaTimeout_master_steps_down now r :
  View (Rstate r) + 1 < 2 ^ 64 ->
  IsMaster r = true ->
  let r' := ReplicaTimeout now r in
  IsMaster r' = false
  /\ View (Rstate r') = View (Rstate r) + 1
  /\ Status_ (Rstate r') = ViewChange
  /\ Timer (Rstate r') = Some (now + LEASE)%Z
  /\ Outbox r' = Outbox r ++
       [BcastStartViewChange
          (mkStartViewChangeArgs (View (Rstate r) + 1) (ReplicaNumber (Rstate r)))]
  /\ OpNumber (Rstate r') = OpNumber (Rstate r)
  /\ CommitNumber (Rstate r') = CommitNumber (Rstate r)
  /\ Phatlog r' = Phatlog r /\ Applied r' = Applied r.
Proof.
  intros Hroom Hm. unfold IsMaster in *. apply N.eqb_eq in Hm.
  unfold ReplicaTimeout, PrepareViewChange, ExtendLease. cbn.
  rewrite (wrap_small _ Hroom). split_and!; try done.
  - apply N.eqb_neq. rewrite <- Hm. change (NREPLICAS + 1) with 3.
    pose proof (N.mod_upper_bound (View (Rstate r)) 3).
    pose proof (N.mod_upper_bound (View (Rstate r) + 1) 3).
    pose proof (N.div_mod (View (Rstate r)) 3).
    pose proof (N.div_mod (View (Rstate r) + 1) 3). lia.
  - unfold Timer_Reset. f_equal. lia.
Qed.

Section AfterTimeout.
Variable PrepareRecovery : Replica -> Replica.

(** X9.  Once its lease timer has fired, a replica answers no [Prepare],
    whatever it carries. *)
Theorem ReplicaTimeout_then_Prepare_refused now r now' args :
  exists e r', Prepare PrepareRecovery now' args (ReplicaTimeout now r) = Ok (Refused e, r').
Proof.
  unfold Prepare. destruct (_ <? pa_View args); [by eexists _, _|].
  destruct (pa_View args <? _); [by eexists _, _|].
  by eexists _, _.
Qed.

End AfterTimeout.

Lemma bit_nonzero n : n < 64 -> bit n <> 0.
Proof.
  intros Hn H. apply (f_equal (fun x => N.testbit x n)) in H.
  rewrite N.bits_0 in H. unfold bit, wrap in H.
  rewrite N.mod_pow2_bits_low, N.shiftl_1_l, N.pow2_bits_true in H by done. done.
Qed.

Lemma land_bit_lor n x : n < 64 -> (N.land (bit n) (N.lor x (bit n)) =? 0) = false.
Proof.
  intros Hn. rewrite land_bit_testbit, lor_bit_testbit by done. done.
Qed.

Lemma StartViewChange_ignored args r :
  svc_ReplicaNumber args < 64 ->
  svc_View args < View (Rstate r)
  \/ N.testbit (StartViewReplies (Vcstate r)) (svc_ReplicaNumber args) = true ->
  StartViewChange args r = r.
Proof.
  intros Hn H. unfold StartViewChange.
  destruct (N.ltb_spec (svc_View args) (View (Rstate r))) as [Hlt|Hge]; [done|].
  destruct H as [H|H]; [lia|]. by rewrite land_bit_testbit, H.
Qed.

Lemma StartViewChange_marks args r :
  svc_ReplicaNumber args < 64 ->
  svc_View args < View (Rstate (StartViewChange args r))
  \/ N.testbit (StartViewReplies (Vcstate (StartViewChange args r)))
                (svc_ReplicaNumber args) = true.
Proof.
  intros Hn. unfold StartViewChange.
  destruct (N.ltb_spec (svc_View args) (View (Rstate r))) as [Hlt|Hge]; [by left|].
  rewrite land_bit_testbit by done. rewrite negb_involutive.
  destruct (N.testbit _ _) eqn:Hb; [by right|]. right.
  repeat case_match; cbn; by apply lor_bit_testbit.
Qed.

(** X10.  A [StartViewChange] received a second time from the same replica
    (numbered below 64, the width of the bitmap) changes nothing. *)
Theorem StartViewChange_counted_once args r :
  svc_ReplicaNumber args < 64 ->
  StartViewChange args (StartViewChange args r) = StartViewChange args r.
Proof.
  intros Hn. apply StartViewChange_ignored; [done|]. by apply StartViewChange_marks.
Qed.

Lemma DoViewChange_fresh_fields now args r :
  Vcstate r = zeroVcstate ->
  dvc_ReplicaNumber args < NREPLICAS + 1 ->
  dvc_ReplicaNumber args <> ReplicaNumber (Rstate r) ->
  dvc_View args mod (NREPLICAS + 1) = ReplicaNumber (Rstate r) ->
  exists r',
    DoViewChange now args r = Ok r'
    /\ Rstate r' = mkReplicaState (dvc_View args) (dvc_OpNumber args) (dvc_CommitNumber args)
                     (ReplicaNumber (Rstate r)) Normal (NormalView (Rstate r))
                     (ViewChangeMsgs (Rstate r))
                     (Some (now + (LEASE - MAX_CLOCK_DRIFT))%Z)
    /\ Phatlog r' =
         (if (0 <? dvc_NormalView args) || (0 <? dvc_OpNumber args)
             || (dvc_ReplicaNumber args =? 0)
          then dvc_Log args else None)
    /\ Vcstate r' = Vcstate (store_DoViewChange args r)
    /\ A (Mstate r') = 0%Z /\ Replies (Mstate r') = 0
    /\ Heartbeats (Mstate r') = Heartbeats (Mstate r)
    /\ CommitFunc r' = CommitFunc r /\ Applied r' = Applied r
    /\ Outbox r' = Outbox r ++
         [BcastStartView (mkStartViewArgs (View (Rstate r')) (Phatlog r')
                            (OpNumber (Rstate r')) (CommitNumber (Rstate r')))].
Proof.
  intros Hvc Hrn Hne Hm. rewrite DoViewChange_fresh by (rewrite ?Hvc; done).
  assert (Hmsgs : DoViewChangeMsgs (Vcstate (store_DoViewChange args r))
                  = <[N.to_nat (dvc_ReplicaNumber args) := args]>
                      (replicate (N.to_nat (NREPLICAS + 1)) zeroDoViewChangeArgs)).
  { unfold store_DoViewChange. cbn [Vcstate with_Vcstate DoViewChangeMsgs]. by rewrite Hvc. }
  destruct (calcMasterView_single (store_DoViewChange args r) args Hrn Hne Hmsgs)
    as (Hop & Hcn & Hview & Hlog & Hme & Hms & Hvcs & Hcf & _ & Hap & Hob).
  assert (Hrest : NormalView (Rstate (calcMasterView (store_DoViewChange args r)))
                  = NormalView (Rstate r)
                  /\ ViewChangeMsgs (Rstate (calcMasterView (store_DoViewChange args r)))
                     = ViewChangeMsgs (Rstate r)) by done.
  destruct Hrest as [Hnv Hvm].
  set (r2 := calcMasterView _) in *. clearbody r2.
  set (vcs := Vcstate (store_DoViewChange args r)) in *. clearbody vcs.
  change (ReplicaNumber (Rstate (store_DoViewChange args r)))
    with (ReplicaNumber (Rstate r)) in Hme.
  change (Outbox (store_DoViewChange args r)) with (Outbox r) in Hob.
  change (Applied (store_DoViewChange args r)) with (Applied r) in Hap.
  change (CommitFunc (store_DoViewChange args r)) with (CommitFunc r) in Hcf.
  change (Mstate (store_DoViewChange args r)) with (Mstate r) in Hms.
  destruct r2 as [[v2 op2 cn2 me2 st2 nv2 vm2 t2] ms2 vc2 pl2 cf2 sh2 ap2 ob2].
  cbn [Rstate Phatlog Outbox OpNumber View CommitNumber ReplicaNumber Mstate Vcstate
       CommitFunc Applied NormalView ViewChangeMsgs] in *.
  subst v2 op2 cn2 me2 pl2 ob2 ms2 vc2 cf2 ap2 nv2 vm2.
  unfold BecomeMaster, IsMaster.
  cbn [Rstate with_Rstate set_Status View ReplicaNumber].
  rewrite Hm, N.eqb_refl. cbn [assert obind].
  eexists. split; [reflexivity|]. split_and!; try reflexivity.
  cbn. unfold set_Timer, set_Status, Timer_Reset. cbn. do 2 f_equal. lia.
Qed.

(** X11.  The first [StartViewChange] for a later view makes a replica that
    is not the master of that view adopt the view, enter ViewChange,
    re-broadcast [StartViewChange] and send the new master a [DoViewChange]
    with its own log, op_number, commit_number and the view it left; and the
    new master, on fresh scratch, completes the view change on that message:
    status Normal, master of the view, with the sender's op_number and
    commit_number, broadcasting [StartView]. *)
Theorem StartViewChange_hands_over now args g m :
  View (Rstate g) < svc_View args ->
  StartViewReplies (Vcstate g) = 0 -> StartViews (Vcstate g) = 0 ->
  ReplicaNumber (Rstate g) <> svc_View args mod (NREPLICAS + 1) ->
  let g' := StartViewChange args g in
  let dvc := mkDoViewChangeArgs (svc_View args) (ReplicaNumber (Rstate g)) (Phatlog g)
               (View (Rstate g)) (OpNumber (Rstate g)) (CommitNumber (Rstate g)) in
  View (Rstate g') = svc_View args
  /\ Status_ (Rstate g') = ViewChange
  /\ Outbox g' = Outbox g ++
       [BcastStartViewChange
          (mkStartViewChangeArgs (svc_View args) (ReplicaNumber (Rstate g)));
        SyncDoViewChange (svc_View args mod (NREPLICAS + 1)) dvc]
  /\ (Vcstate m = zeroVcstate ->
      ReplicaNumber (Rstate m) = svc_View args mod (NREPLICAS + 1) ->
      ReplicaNumber (Rstate g) < NREPLICAS + 1 ->
      exists m',
        DoViewChange now dvc m = Ok m'
        /\ IsMaster m' = true /\ Status_ (Rstate m') = Normal
        /\ View (Rstate m') = svc_View args
        /\ OpNumber (Rstate m') = OpNumber (Rstate g)
        /\ CommitNumber (Rstate m') = CommitNumber (Rstate g)
        /\ Outbox m' = Outbox m ++
             [BcastStartView (mkStartViewArgs (svc_View args) (Phatlog m')
                                (OpNumber (Rstate g)) (CommitNumber (Rstate g)))]).
Proof.
  intros Hlt Hrep Hcnt Hne g' dvc.
  assert (Hg' : g' = send (SyncDoViewChange (svc_View args mod (NREPLICAS + 1)) dvc)
                  (send (BcastStartViewChange
                           (mkStartViewChangeArgs (svc_View args) (ReplicaNumber (Rstate g))))
                     (with_Rstate (set_Status ViewChange)
                        (with_Rstate (set_View (svc_View args))
                           (with_Vcstate (fun vc =>
                              mkViewChangeState (DoViewChangeMsgs vc) (DoViewReplies vc)
                                (bit (svc_ReplicaNumber args)) 1 (DoViews vc)
                                (View (Rstate g))) g))))).
  { subst g'. unfold StartViewChange.
    destruct (N.ltb_spec (svc_View args) (View (Rstate g))); [lia|].
    rewrite Hrep, N.land_0_r. cbn [N.eqb negb].
    cbn [Rstate with_Vcstate View].
    destruct (N.ltb_spec (View (Rstate g)) (svc_View args)); [|lia].
    cbn [Vcstate send with_Rstate with_Vcstate StartViews].
    rewrite Hcnt. change (wrap (0 + 1) =? F) with true. cbn beta iota.
    unfold IsMaster. cbn [Rstate send with_Rstate with_Vcstate set_Status set_View
                          View ReplicaNumber].
    destruct (N.eqb_spec (svc_View args mod (NREPLICAS + 1)) (ReplicaNumber (Rstate g)));
      [congruence|].
    cbn [negb]. unfold send, with_Rstate, with_Vcstate. cbn. rewrite Hrep, Hcnt. reflexivity. }
  clearbody g'. subst g'. split_and!; try done.
  - cbn. by rewrite <- app_assoc.
  - intros Hvc Hm Hg3.
    destruct (DoViewChange_fresh_fields now dvc m)
      as (m' & -> & HR & Hl & _ & _ & _ & _ & _ & _ & Hob); try done.
    { cbn. congruence. }
    exists m'. split; [done|]. rewrite Hob, HR. unfold IsMaster. rewrite HR. cbn.
    rewrite Hm, N.eqb_refl. done.
Qed.

Lemma bit_high n : 64 <= n -> bit n = 0.
Proof.
  intros Hn. unfold bit, wrap. rewrite N.shiftl_1_l.
  replace (2 ^ n) with (2 ^ (n - 64) * 2 ^ 64).
  - apply N.Div0.mod_mul.
  - rewrite <- N.pow_add_r. f_equal. lia.
Qed.

Lemma calcMasterView_Vcstate r : Vcstate (calcMasterView r) = Vcstate r.
Proof. reflexivity. Qed.

Lemma DoViewChange_Vcstate now args r r' :
  dvc_ReplicaNumber args < 64 ->
  DoViewChange now args r = Ok r' ->
  (N.testbit (DoViewReplies (Vcstate r)) (dvc_ReplicaNumber args) = true /\ r' = r)
  \/ Vcstate r' = Vcstate (store_DoViewChange args r).
Proof.
  intros Hn. unfold DoViewChange. rewrite land_bit_testbit by done.
  destruct (N.testbit _ _); [intros [= <-]; by left|]. cbn [negb].
  destruct (negb _); [done|].
  fold (store_DoViewChange args r).
  destruct (_ =? F); [|intros [= <-]; by right].
  unfold BecomeMaster. destruct (IsMaster _); [|done]. cbn [assert obind].
  intros H%Ok_inj. subst r'. right. reflexivity.
Qed.

(** X13.  After a [DoViewChange] from a replica has been handled, any
    further [DoViewChange] from that replica changes nothing. *)
Theorem DoViewChange_counted_once now now' args args' r r1 :
  dvc_ReplicaNumber args < 64 ->
  dvc_ReplicaNumber args' = dvc_ReplicaNumber args ->
  DoViewChange now args r = Ok r1 ->
  DoViewChange now' args' r1 = Ok r1.
Proof.
  intros Hn Hsame H1.
  assert (Hbit : N.testbit (DoViewReplies (Vcstate r1)) (dvc_ReplicaNumber args) = true).
  { destruct (DoViewChange_Vcstate _ _ _ _ Hn H1) as [[Hb ->] | ->]; [done|].
    unfold store_DoViewChange, with_Vcstate, Vcstate, DoViewReplies.
    by apply lor_bit_testbit. }
  unfold DoViewChange. rewrite Hsame, land_bit_testbit, Hbit by done.
  reflexivity.
Qed.

(** X14.  A [DoViewChange] whose replica number is NREPLICAS + 1 or more
    (and not marked in the bitmap) indexes [DoViewChangeMsgs] out of range:
    the handler panics. *)
Theorem DoViewChange_out_of_range now args r :
  NREPLICAS + 1 <= dvc_ReplicaNumber args ->
  N.testbit (DoViewReplies (Vcstate r)) (dvc_ReplicaNumber args) = false ->
  DoViewChange now args r = Panic.
Proof.
  intros Hn Hbit. unfold DoViewChange.
  assert ((N.land (bit (dvc_ReplicaNumber args)) (DoViewReplies (Vcstate r)) =? 0) = true)
    as ->.
  { destruct (N.lt_ge_cases (dvc_ReplicaNumber args) 64).
    - by rewrite land_bit_testbit, Hbit.
    - by rewrite bit_high. }
  cbn [negb]. by destruct (N.ltb_spec (dvc_ReplicaNumber args) (NREPLICAS + 1)); [lia|].
Qed.

(** X15.  Once [DoViews] has reached F, no further [DoViewChange] completes
    a view change: the message is at most stored and counted, and replica
    state, master state, log and outbox stay as they are. *)
Theorem DoViewChange_decides_once now args r r' :
  F <= DoViews (Vcstate r) -> DoViews (Vcstate r) + 1 < 2 ^ 64 ->
  DoViewChange now args r = Ok r' ->
  Rstate r' = Rstate r /\ Mstate r' = Mstate r /\ Phatlog r' = Phatlog r
  /\ Applied r' = Applied r /\ Outbox r' = Outbox r
  /\ F <= DoViews (Vcstate r').
Proof.
  intros HF Hroom. unfold DoViewChange.
  destruct (negb _); [by intros [= <-]|].
  destruct (negb _); [done|].
  cbn [Vcstate with_Vcstate DoViews]. rewrite (wrap_small _ Hroom).
  destruct (N.eqb_spec (DoViews (Vcstate r) + 1) F) as [Heq|_]; [lia|].
  intros [= <-]. split_and!; try reflexivity.
  cbn [Vcstate with_Vcstate DoViews]. rewrite (wrap_small _ Hroom). lia.
Qed.

Lemma foldr_max_init a b l : foldr N.max (N.max a b) l = N.max b (foldr N.max a l).
Proof. induction l as [|x l IH]; cbn; [lia|]. rewrite IH. lia. Qed.

Lemma calcMasterView_body_maxView r v i :
  maxView (calcMasterView_body r v i)
  = N.max (maxView v) (dvc_View (DoViewChangeMsgs (Vcstate r) !!! i)).
Proof.
  unfold calcMasterView_body.
  set (m := DoViewChangeMsgs (Vcstate r) !!! i). clearbody m.
  destruct v as [o c ix nv vw]. cbn [maxView maxOp maxCommit maxIdx maxNormalView].
  destruct (N.ltb_spec vw (dvc_View m));
    cbn [maxView maxOp maxCommit maxIdx maxNormalView];
    destruct (negb _); cbn [maxView maxOp maxCommit maxIdx maxNormalView];
    repeat match goal with
           | |- context [if ?b then _ else _] => destruct b
           end; cbn [maxView]; lia.
Qed.

Lemma calcMasterView_body_maxCommit r v i :
  maxCommit (calcMasterView_body r v i)
  = if decide (N.of_nat i <> ReplicaNumber (Rstate r))
    then N.max (maxCommit v) (dvc_CommitNumber (DoViewChangeMsgs (Vcstate r) !!! i))
    else maxCommit v.
Proof.
  unfold calcMasterView_body.
  set (m := DoViewChangeMsgs (Vcstate r) !!! i). clearbody m.
  destruct v as [o c ix nv vw]. cbn [maxView maxOp maxCommit maxIdx maxNormalView].
  destruct (N.eqb_spec (N.of_nat i) (ReplicaNumber (Rstate r))) as [He|He];
    cbn [negb]; case_decide; try done.
  - by destruct (vw <? dvc_View m).
  - destruct (vw <? dvc_View m); cbn [maxView maxOp maxCommit maxIdx maxNormalView];
      destruct (_ || _); cbn [maxView maxOp maxCommit maxIdx maxNormalView];
      destruct (N.ltb_spec c (dvc_CommitNumber m)); cbn [maxCommit]; lia.
Qed.

Lemma calcMasterView_body_maxOp r v i :
  maxNormalView v = 0 ->
  dvc_NormalView (DoViewChangeMsgs (Vcstate r) !!! i) = 0 ->
  maxOp (calcMasterView_body r v i)
  = if decide (N.of_nat i <> ReplicaNumber (Rstate r))
    then N.max (maxOp v) (dvc_OpNumber (DoViewChangeMsgs (Vcstate r) !!! i))
    else maxOp v.
Proof.
  unfold calcMasterView_body.
  set (m := DoViewChangeMsgs (Vcstate r) !!! i). clearbody m.
  destruct v as [o c ix nv vw]. cbn [maxView maxOp maxCommit maxIdx maxNormalView].
  intros -> ->.
  destruct (N.eqb_spec (N.of_nat i) (ReplicaNumber (Rstate r))) as [He|He];
    cbn [negb]; case_decide; try done.
  - by destruct (vw <? dvc_View m).
  - destruct (vw <? dvc_View m); cbn [maxView maxOp maxCommit maxIdx maxNormalView];
      change (0 <? 0) with false; change (0 =? 0) with true; cbn [orb andb];
      destruct (N.ltb_spec o (dvc_OpNumber m));
      cbn [maxView maxOp maxCommit maxIdx maxNormalView];
      destruct (_ <? dvc_CommitNumber m); cbn [maxOp]; lia.
Qed.

Section Fold.
Variable r : Replica.
Let msg (i : nat) := DoViewChangeMsgs (Vcstate r) !!! i.
Let peer (i : nat) := N.of_nat i <> ReplicaNumber (Rstate r).

Lemma calcMasterView_fold_maxView v l :
  maxView (foldl (calcMasterView_body r) v l)
  = foldr N.max (maxView v) (dvc_View <$> (msg <$> l)).
Proof.
  revert v. induction l as [|i l IH]; intros v; [done|].
  cbn [foldl fmap list_fmap foldr]. rewrite IH, calcMasterView_body_maxView.
  rewrite foldr_max_init. done.
Qed.

Lemma calcMasterView_fold_maxCommit v l :
  maxCommit (foldl (calcMasterView_body r) v l)
  = foldr N.max (maxCommit v) (dvc_CommitNumber <$> (msg <$> filter peer l)).
Proof.
  revert v. induction l as [|i l IH]; intros v; [done|].
  cbn [foldl]. rewrite IH, calcMasterView_body_maxCommit, filter_cons.
  unfold peer at 2. case_decide; [|done].
  cbn [fmap list_fmap foldr]. rewrite foldr_max_init. done.
Qed.

Lemma calcMasterView_fold_maxOp v l :
  maxNormalView v = 0 ->
  (forall i, i ∈ filter peer l -> dvc_NormalView (msg i) = 0) ->
  maxOp (foldl (calcMasterView_body r) v l)
  = foldr N.max (maxOp v) (dvc_OpNumber <$> (msg <$> filter peer l)).
Proof.
  revert v. induction l as [|i l IH]; intros v Hv Hl; [done|].
  cbn [foldl]. rewrite IH.
  2:{ by rewrite calcMasterView_body_maxNormalView. }
  2:{ intros j Hj. apply Hl. rewrite filter_cons. case_decide; [by right|done]. }
  rewrite filter_cons. unfold peer at 2. case_decide as Hp.
  - rewrite calcMasterView_body_maxOp; [|done|].
    + rewrite decide_True by done. cbn [fmap list_fmap foldr].
      rewrite foldr_max_init. done.
    + apply (Hl i). rewrite filter_cons. rewrite decide_True by done. by left.
  - f_equal. unfold calcMasterView_body.
    destruct (N.eqb_spec (N.of_nat i) (ReplicaNumber (Rstate r))) as [He|He].
    + cbn [negb]. by destruct (_ <? _).
    + congruence.
Qed.

End Fold.

Lemma lookup_total_seq {T : Type} `{Inhabited T} (l : list T) :
  (fun i => l !!! i) <$> seq 0 (length l) = l.
Proof.
  apply list_eq. intros i. rewrite list_lookup_fmap.
  destruct (decide (i < length l)%nat) as [Hi|Hi].
  - rewrite lookup_seq_lt by done. cbn.
    destruct (lookup_lt_is_Some_2 l i Hi) as [x Hx].
    by rewrite (list_lookup_total_correct _ _ _ Hx), Hx.
  - rewrite lookup_seq_ge by lia. cbn. symmetry. apply lookup_ge_None. lia.
Qed.

(** X16.  [calcMasterView] sets the view to the largest view over all
    slots of [DoViewChangeMsgs], and the commit number to the largest commit
    number over the slots other than the replica's own; when those slots all
    carry normal_view 0, the op number is their largest op number. *)
Theorem calcMasterView_maxima r :
  length (DoViewChangeMsgs (Vcstate r)) = N.to_nat (NREPLICAS + 1) ->
  let r' := calcMasterView r in
  View (Rstate r') = max_of dvc_View (DoViewChangeMsgs (Vcstate r))
  /\ CommitNumber (Rstate r') = max_of dvc_CommitNumber (peer_slots r)
  /\ ((forall m, m ∈ peer_slots r -> dvc_NormalView m = 0) ->
      OpNumber (Rstate r') = max_of dvc_OpNumber (peer_slots r)).
Proof.
  intros Hlen r'. subst r'. unfold calcMasterView. cbv zeta.
  set (r0 := with_Rstate (set_View (dvc_View (DoViewChangeMsgs (Vcstate r) !!! 0%nat))) r).
  assert (Hvc : Vcstate r0 = Vcstate r) by reflexivity.
  assert (Hme : ReplicaNumber (Rstate r0) = ReplicaNumber (Rstate r)) by reflexivity.
  assert (Hps : peer_slots r0 = peer_slots r) by reflexivity.
  clearbody r0.
  cbn [Rstate with_Rstate set_Phatlog set_CommitNumber set_OpNumber set_View
       View CommitNumber OpNumber].
  unfold calcMasterView_loop, max_of. split_and!.
  - rewrite calcMasterView_fold_maxView, <- Hlen, Hvc. cbn [maxView].
    by rewrite (lookup_total_seq (DoViewChangeMsgs (Vcstate r))).
  - rewrite calcMasterView_fold_maxCommit. cbn [maxCommit]. by rewrite <- Hps.
  - intros Hnv. rewrite calcMasterView_fold_maxOp; [by rewrite <- Hps|done|].
    intros i Hi. apply Hnv. rewrite <- Hps. unfold peer_slots.
    apply list_elem_of_fmap. by exists i.
Qed.

Section ViewInstalled.
Variable PrepareRecovery : Replica -> Replica.

(** X17.  [StartView] installs the carried log, op_number and
    commit_number, clears the view-change scratch and leaves the view as it
    is; whatever the replica's status, op_number and log were before, it then
    accepts (given a log that is not nil and a [CommitFunc]) the [Prepare]
    of its view that carries the installed op_number plus one, fitting a
    [uint], and a commit_number not above that op_number. *)
Theorem StartView_then_Prepare now now' sv p r l :
  dvc_Log sv = Some l -> CommitFunc r = true ->
  pa_View p = View (Rstate r) ->
  pa_OpNumber p = dvc_OpNumber sv + 1 -> is_uint (pa_OpNumber p) ->
  pa_CommitNumber p <= pa_OpNumber p ->
  View (Rstate (StartView now sv r)) = View (Rstate r)
  /\ Vcstate (StartView now sv r) = zeroVcstate
  /\ exists r',
       Prepare PrepareRecovery now' p (StartView now sv r)
       = Ok (Replied (mkPrepareReply (View (Rstate r)) (dvc_OpNumber sv + 1)
                        (ReplicaNumber (Rstate r)) (now' + LEASE)%Z), r')
       /\ OpNumber (Rstate r') = dvc_OpNumber sv + 1
       /\ CommitNumber (Rstate r') = N.max (dvc_CommitNumber sv) (pa_CommitNumber p)
       /\ Phatlog r' = Some (phatlog.Add l (dvc_OpNumber sv + 1) (pa_Command p))
       /\ Status_ (Rstate r') = Normal.
Proof.
  intros Hl Hcf Hv Hop Hu Hc. split; [reflexivity|]. split; [reflexivity|].
  destruct (Prepare_in_sync PrepareRecovery now' p (StartView now sv r) l)
    as (r' & HP & HR & Hl' & _).
  - exact Hv.
  - reflexivity.
  - exact Hop.
  - exact Hu.
  - exact Hl.
  - exact Hcf.
  - exact Hc.
  - exists r'. split; [exact HP|]. rewrite HR. split_and!; try reflexivity. exact Hl'.
Qed.

End ViewInstalled.

Lemma StartViewChange_same_view args x :
  svc_View args = View (Rstate x) ->
  StartViewReplies (Vcstate x) = 0 -> StartViews (Vcstate x) = 0 ->
  IsMaster x = false ->
  StartViewChange args x
  = send (SyncDoViewChange (View (Rstate x) mod (NREPLICAS + 1))
            (mkDoViewChangeArgs (View (Rstate x)) (ReplicaNumber (Rstate x)) (Phatlog x)
               (vcNormalView (Vcstate x)) (OpNumber (Rstate x)) (CommitNumber (Rstate x))))
         (with_Vcstate (fun vc =>
            mkViewChangeState (DoViewChangeMsgs vc) (DoViewReplies vc)
              (bit (svc_ReplicaNumber args)) 1 (DoViews vc) (vcNormalView vc)) x).
Proof.
  intros Hv Hrep Hcnt Hm. unfold StartViewChange.
  rewrite Hv, N.ltb_irrefl, Hrep, N.land_0_r. cbn [N.eqb negb].
  cbn [Rstate with_Vcstate View]. rewrite N.ltb_irrefl.
  cbn [Vcstate with_Vcstate StartViews]. rewrite Hcnt.
  change (wrap (0 + 1) =? F) with true. cbn beta iota.
  unfold IsMaster in *. cbn [Rstate with_Vcstate]. rewrite Hm. cbn [negb].
  unfold send, with_Vcstate. cbn. rewrite Hrep, Hcnt. reflexivity.
Qed.

(** X12.  A replica that started the view change itself (its timer fired)
    and then receives the first [StartViewChange] for its new view sends the
    [DoViewChange], unless it is the new master; the normal_view it reports
    is the one held in the scratch before, not the view it just left. *)
Theorem StartViewChange_after_timeout now args r :
  View (Rstate r) + 1 < 2 ^ 64 ->
  StartViewReplies (Vcstate r) = 0 -> StartViews (Vcstate r) = 0 ->
  svc_View args = View (Rstate r) + 1 ->
  ReplicaNumber (Rstate r) <> (View (Rstate r) + 1) mod (NREPLICAS + 1) ->
  let r' := StartViewChange args (ReplicaTimeout now r) in
  Outbox r' = Outbox r ++
    [BcastStartViewChange
       (mkStartViewChangeArgs (View (Rstate r) + 1) (ReplicaNumber (Rstate r)));
     SyncDoViewChange ((View (Rstate r) + 1) mod (NREPLICAS + 1))
       (mkDoViewChangeArgs (View (Rstate r) + 1) (ReplicaNumber (Rstate r)) (Phatlog r)
          (vcNormalView (Vcstate r)) (OpNumber (Rstate r)) (CommitNumber (Rstate r)))]
  /\ View (Rstate r') = View (Rstate r) + 1
  /\ Status_ (Rstate r') = ViewChange.
Proof.
  intros Hroom Hrep Hcnt Hv Hne r'. subst r'.
  set (x := ReplicaTimeout now r).
  assert (Hx : View (Rstate x) = View (Rstate r) + 1
               /\ ReplicaNumber (Rstate x) = ReplicaNumber (Rstate r)
               /\ Status_ (Rstate x) = ViewChange
               /\ OpNumber (Rstate x) = OpNumber (Rstate r)
               /\ CommitNumber (Rstate x) = CommitNumber (Rstate r)
               /\ Phatlog x = Phatlog r /\ Vcstate x = Vcstate r
               /\ Outbox x = Outbox r ++
                    [BcastStartViewChange
                       (mkStartViewChangeArgs (View (Rstate r) + 1)
                          (ReplicaNumber (Rstate r)))]).
  { subst x. unfold ReplicaTimeout, PrepareViewChange, ExtendLease. cbn.
    rewrite (wrap_small _ Hroom). done. }
  clearbody x. destruct Hx as (HxV & HxN & HxS & HxO & HxC & HxL & HxVc & HxOb).
  rewrite StartViewChange_same_view.
  - cbn. rewrite HxV, HxN, HxS, HxO, HxC, HxL, HxVc, HxOb. split_and!; try done.
    by rewrite <- app_assoc.
  - congruence.
  - by rewrite HxVc.
  - by rewrite HxVc.
  - unfold IsMaster. rewrite HxV, HxN. apply N.eqb_neq. congruence.
Qed.

(** ** Broadcast and gather, continued *)

Section GatherDone.
Variable Reply : Type.
Variable dial : uint -> uint -> bool.
Variable call : uint -> uint -> callError + Reply.
Variable handler : Reply -> bool.

Lemma loop_test_done_only g :
  exited g = false -> (done g = true -> callHandler g = false) ->
  done (loop_test g) = true -> callHandler (loop_test g) = false \/ exited (loop_test g) = true.
Proof.
  intros He Hd. unfold loop_test. destruct (i g <? gN g); cbn.
  - intros H. left. by apply Hd.
  - intros _. by right.
Qed.

Lemma receive_done_only k g g' :
  (done g = true -> callHandler g = false \/ exited g = true) ->
  receive Reply dial call handler k g = Some g' ->
  done g' = true -> callHandler g' = false \/ exited g' = true.
Proof.
  intros Hd. unfold receive.
  destruct (exited g) eqn:Hex; [done|].
  assert (Hd' : done g = true -> callHandler g = false).
  { intros H. by destruct (Hd H). }
  destruct (running g !! k) as [[repNum tries]|]; [|done].
  destruct (sendOne _ _ _ _ _ _) as [c clients].
  destruct (cError c) as [e|].
  - destruct (MAX_TRIES <=? Tries c); intros [= <-]; cbn; intros H; left; by apply Hd'.
  - intros [= <-]. apply loop_test_done_only; [done|]. cbn.
    destruct (callHandler g); cbn; [|done].
    destruct (match cReply c with Some rep => handler rep | None => false end); cbn; [done|].
    rewrite orb_false_r. intros H. by apply Hd' in H.
Qed.

(** X18.  In every run of the gather loop, [doneChan] has been signalled
    exactly when the handler has been satisfied (it is then no longer
    called) or the loop has been left. *)
Theorem sendAndRecvTo_done_iff self clients replicas g :
  rtc (step Reply dial call handler) (start self clients replicas) g ->
  (done g = true <-> callHandler g = false \/ exited g = true).
Proof.
  intros H. apply rtc_nsteps in H as [n H].
  assert (Hinv : done_when_due g
                 /\ (done g = true -> callHandler g = false \/ exited g = true)).
  { revert g H. induction n as [|n IH]; intros g H.
    - inversion H; subst. split; [apply start_due|].
      unfold start. apply loop_test_done_only; [done|]. cbn. done.
    - apply nsteps_inv_r in H as (g1 & H1 & [k Hk]).
      destruct (IH _ H1) as [Hdue Honly]. split.
      + by eapply receive_due.
      + by eapply receive_done_only. }
  destruct Hinv as [[Hc He] Honly]. split; [exact Honly|].
  intros [Hh|Hx]; [by apply Hc|by apply He].
Qed.

End GatherDone.

Section GatherCount.
Variable Reply : Type.
Variable dial : uint -> uint -> bool.
Variable call : uint -> uint -> callError + Reply.
Variable handler : Reply -> bool.

Lemma loop_test_inv expected g :
  i g + N.of_nat (length (running g)) <= N.of_nat expected ->
  Forall (fun p : uint * uint => p.2 < MAX_TRIES) (running g) ->
  exited g = false ->
  gather_inv expected (loop_test g).
Proof.
  intros Hc Ht He. unfold loop_test, gather_inv.
  destruct (N.ltb_spec (i g) (gN g)); cbn; split_and!; try done.
  by rewrite He.
Qed.

Lemma sendOne_fields repNum tries clients :
  RepNum (sendOne Reply dial call repNum tries clients).1 = repNum
  /\ Tries (sendOne Reply dial call repNum tries clients).1 = wrap (tries + 1).
Proof.
  unfold sendOne. destruct (_ || _); [destruct (call _ _)|]; done.
Qed.

Lemma receive_gN k g g' :
  receive Reply dial call handler k g = Some g' -> gN g' = gN g.
Proof.
  unfold receive. destruct (exited g); [done|].
  destruct (running g !! k) as [[repNum tries]|]; [|done].
  destruct (sendOne _ _ _ _ _ _) as [c clients].
  destruct (cError c) as [e|].
  - destruct (MAX_TRIES <=? Tries c); by intros [= <-].
  - intros [= <-]. unfold loop_test. by destruct (_ <? _).
Qed.

Lemma receive_inv expected k g g' :
  gather_inv expected g -> receive Reply dial call handler k g = Some g' ->
  gather_inv expected g'.
Proof.
  intros (Hc & Ht & He & Hne). unfold receive.
  destruct (exited g) eqn:Hex; [done|].
  destruct (running g !! k) as [[repNum tries]|] eqn:Hk; [|done].
  pose proof (sendOne_fields repNum tries (Clients g)) as [HR HT].
  destruct (sendOne _ _ _ _ _ _) as [c clients]. cbn [fst] in HR, HT.
  assert (Hlen : length (delete k (running g)) = (length (running g) - 1)%nat).
  { apply length_delete. by eexists. }
  assert (Hpos : (0 < length (running g))%nat).
  { apply lookup_lt_Some in Hk. lia. }
  destruct (cError c) as [e|].
  - destruct (N.leb_spec MAX_TRIES (Tries c)); intros [= <-]; unfold gather_inv; cbn.
    + split_and!; [lia|by apply Forall_delete|done|by auto].
    + rewrite length_app. cbn. split_and!; [lia| |done|by auto].
      apply Forall_app. split; [by apply Forall_delete|].
      apply Forall_singleton. done.
  - intros [= <-]. apply loop_test_inv; cbn; [lia|by apply Forall_delete|done].
Qed.

Lemma start_inv self clients replicas :
  gather_inv (length (filter (fun n => n <> self) replicas)) (start self clients replicas)
  /\ gN (start self clients replicas) = N.of_nat (length replicas).
Proof.
  unfold start. split.
  - apply loop_test_inv; cbn; [by rewrite length_fmap| |done].
    apply Forall_fmap, Forall_forall. intros x _. cbn. done.
  - unfold loop_test. by destruct (_ <? _).
Qed.

Lemma reachable_inv self clients replicas g :
  rtc (step Reply dial call handler) (start self clients replicas) g ->
  gather_inv (length (filter (fun n => n <> self) replicas)) g
  /\ gN g = N.of_nat (length replicas).
Proof.
  intros H. apply rtc_nsteps in H as [n H]. revert g H.
  induction n as [|n IH]; intros g H.
  - inversion H; subst. apply start_inv.
  - apply nsteps_inv_r in H as (g1 & H1 & [k Hk]).
    destruct (IH _ H1) as [Hi HN]. split.
    + by eapply receive_inv.
    + by rewrite (receive_gN _ _ _ Hk).
Qed.

(** X19.  Whatever the network does, no peer is tried more than MAX_TRIES
    times, and the replies counted plus the sends still under way never
    exceed the number of peers in the list; so the gather loop is left only
    after every entry of the list was answered without error, and never when
    the caller's own number is in the list. *)
Theorem sendAndRecvTo_exit_needs_all_replies self clients replicas g :
  rtc (step Reply dial call handler) (start self clients replicas) g ->
  Forall (fun p : uint * uint => p.2 < MAX_TRIES) (running g)
  /\ i g + N.of_nat (length (running g))
     <= N.of_nat (length (filter (fun n => n <> self) replicas))
  /\ (exited g = true -> i g = N.of_nat (length replicas) /\ self ∉ replicas).
Proof.
  intros H. destruct (reachable_inv _ _ _ _ H) as [(Hc & Ht & He & Hne) HN].
  split_and!; try done.
  intros Hex. specialize (He Hex). rewrite HN in He.
  pose proof (length_filter (fun n => n <> self) replicas).
  split; [lia|]. intros Hin.
  pose proof (length_filter_lt (fun n => n <> self) replicas self Hin). 
  assert (length (filter (fun n => n <> self) replicas) < length replicas)%nat; [|lia].
  apply H1. by intros ?.
Qed.


Lemma nsteps_due self clients replicas n g :
  nsteps (step Reply dial call handler) n (start self clients replicas) g ->
  done_when_due g.
Proof.
  revert g. induction n as [|n IH]; intros g H.
  - inversion H; subst. apply start_due.
  - apply nsteps_inv_r in H as (g1 & H1 & [k Hk]).
    eapply receive_due; [|exact Hk]. by apply IH.
Qed.

Hypothesis dial_ok : forall rep t, dial rep t = true.
Hypothesis call_ok : forall rep t, exists v, call rep t = inr v.

Lemma sendOne_ok repNum tries clients :
  cError (sendOne Reply dial call repNum tries clients).1 = None.
Proof.
  unfold sendOne. rewrite dial_ok, orb_true_r.
  by destruct (call_ok repNum (wrap (tries + 1))) as [v ->].
Qed.

Lemma receive_ok k g g' :
  receive Reply dial call handler k g = Some g' ->
  i g' = i g + 1 /\ length (running g') = (length (running g) - 1)%nat
  /\ (0 < length (running g))%nat /\ exited g = false
  /\ (exited g' = true <-> gN g <= i g + 1).
Proof.
  unfold receive. destruct (exited g) eqn:Hex; [done|].
  destruct (running g !! k) as [[repNum tries]|] eqn:Hk; [|done].
  pose proof (sendOne_ok repNum tries (Clients g)) as Hc.
  destruct (sendOne _ _ _ _ _ _) as [c clients]. cbn [fst] in Hc. rewrite Hc.
  intros [= <-]. unfold loop_test. cbn [i gN].
  assert (Hlen : length (delete k (running g)) = (length (running g) - 1)%nat).
  { apply length_delete. by eexists. }
  apply lookup_lt_Some in Hk.
  destruct (N.ltb_spec (i g + 1) (gN g)); cbn; split_and!; try done; try lia.
Qed.

(** X20.  When every peer can be dialled and answers, and the caller is not
    in the list, the gather loop never blocks: in every run, after [n]
    receives it has counted [n] replies, it can go on while [n] is below the
    length of the list, and at that length it has left the loop and signalled
    [doneChan]. *)
Theorem sendAndRecvTo_returns_when_all_answer self clients replicas n g :
  self ∉ replicas ->
  nsteps (step Reply dial call handler) n (start self clients replicas) g ->
  i g = N.of_nat n /\ (n <= length replicas)%nat
  /\ (if decide (n = length replicas) then exited g = true /\ done g = true
      else exited g = false /\ exists g', step Reply dial call handler g g').
Proof.
  intros Hself H.
  assert (Hinv : i g = N.of_nat n
                 /\ (n + length (running g) = length replicas)%nat
                 /\ gN g = N.of_nat (length replicas)
                 /\ (exited g = true <-> gN g <= i g)).
  { revert g H. induction n as [|n IH]; intros g H.
    - inversion H; subst. unfold start, loop_test. cbn [i gN].
      assert (Hf : filter (fun repNum => repNum <> self) replicas = replicas).
      { clear -Hself. induction replicas as [|x l IH]; [done|].
        rewrite filter_cons. rewrite not_elem_of_cons in Hself. destruct Hself as [? ?].
        rewrite decide_True by done. f_equal. by apply IH. }
      rewrite Hf.
      destruct (N.ltb_spec 0 (N.of_nat (length replicas))); cbn;
        rewrite length_fmap; split_and!; try done; try lia.
    - apply nsteps_inv_r in H as (g1 & H1 & [k Hk]).
      destruct (IH _ H1) as (Hi & Hrun & HN & Hex).
      pose proof (receive_gN _ _ _ Hk) as HN'.
      apply receive_ok in Hk as (Hi' & Hlen & Hpos & Hex1 & Hex').
      split_and!; [lia|lia|congruence|].
      rewrite Hex', HN', Hi'. done. }
  destruct Hinv as (Hi & Hrun & HN & Hex).
  split_and!; [done|lia|].
  case_decide as Hn.
  - assert (Hexit : exited g = true) by (apply Hex; lia).
    split; [done|]. by apply (nsteps_due _ _ _ _ _ H).
  - assert (Hne : exited g = false).
    { destruct (exited g); [|done]. assert (gN g <= i g) by (by apply Hex). lia. }
    split; [done|].
    destruct (running g) as [|[repNum tries] rest] eqn:Hr; [cbn in Hrun; lia|].
    assert (Hs : exists g', receive Reply dial call handler 0 g = Some g').
    { unfold receive. rewrite Hne, Hr. cbn [lookup list_lookup].
      pose proof (sendOne_ok repNum tries (Clients g)) as Hc.
      destruct (sendOne _ _ _ _ _ _) as [c cl]. cbn [fst] in Hc. rewrite Hc. by eexists. }
    destruct Hs as [g' Hg']. exists g'. by exists 0%nat.
Qed.

End GatherCount.

(** ** Whom a broadcast goes to *)

Lemma pick_replicas_others (n : Z) (self : uint) :
  (0 <= n <= Z.of_N NREPLICAS)%Z ->
  pick_replicas (N.to_nat (NREPLICAS + 1)) self n 0 0 (replicate (Z.to_nat n) 0)
  = take (Z.to_nat n) (filter (fun k => k <> self) [0; 1; 2]).
Proof.
  intros Hn.
  assert (Hcases : n = 0%Z \/ n = 1%Z \/ n = 2%Z) by (unfold NREPLICAS, F in Hn; lia).
  destruct self as [|[[p|p|]|[p|p|]|]];
    destruct Hcases as [->|[->| ->]]; reflexivity.
Qed.

(** X21.  [sendAndRecv] with [0 <= N <= NREPLICAS] hands [sendAndRecvTo] the
    first [N] replica numbers among 0, 1, 2 other than the caller's: [N]
    distinct replicas, the caller not among them. *)
Theorem sendAndRecv_picks_the_others (n : Z) (self : uint) (clients : gset N) :
  (0 <= n <= Z.of_N NREPLICAS)%Z ->
  exists reps,
    sendAndRecv n self clients = Ok (start self clients reps)
    /\ (reps = take (Z.to_nat n) (filter (fun k => k <> self) [0; 1; 2]))
    /\ length reps = Z.to_nat n
    /\ (self ∉ reps) /\ NoDup reps.
Proof.
  intros Hn. unfold sendAndRecv.
  destruct (Z.leb_spec n (Z.of_N NREPLICAS)) as [_|]; [|lia]. cbn [assert obind].
  destruct (Z.ltb_spec n 0) as [|_]; [lia|].
  eexists. split; [reflexivity|]. rewrite pick_replicas_others by done.
  split; [reflexivity|].
  assert (Hnd : NoDup (filter (fun k => k <> self) [0; 1; 2])).
  { apply NoDup_filter. repeat constructor; rewrite ?not_elem_of_cons;
      split_and?; try lia; apply not_elem_of_nil. }
  split_and!.
  - rewrite length_take.
    match goal with |- context [length ?l] => assert (2 <= length l)%nat as Hlen end.
    { clear. destruct self as [|[[p|p|]|[p|p|]|]]; vm_compute; lia. }
    clear Hnd. set (m := length _) in *. clearbody m.
    unfold NREPLICAS, F in Hn. lia.
  - intros (k & Hk & _)%elem_of_take. apply list_elem_of_lookup_2 in Hk.
    apply list_elem_of_filter in Hk as [Hk _]. done.
  - eapply sublist_NoDup; [exact Hnd|]. apply sublist_take.
Qed.

(** ** The facade and the replica core *)

(** X22.  In a view whose facade master id (view mod NREPLICAS) differs
    from the master's number (view mod (NREPLICAS + 1)), no replica serves a
    write: the replica the facade lets through fails [RunVR]'s assertion, and
    the master itself is turned away by the facade. *)
Theorem RPCDB_write_needs_agreeing_ids (s : phatRPC.Server) args reply :
  phatRPC.goes_through_paxos (phatRPC.Command args) = true ->
  View (Rstate (phatRPC.ReplicaServer s)) mod NREPLICAS
    <> View (Rstate (phatRPC.ReplicaServer s)) mod (NREPLICAS + 1) ->
  (phatRPC.RPCDB s args reply = phatRPC.ThroughRunVR args ->
   forall command, RunVR command (phatRPC.ReplicaServer s) = Fatal)
  /\ (IsMaster (phatRPC.ReplicaServer s) = true ->
      exists err rep, phatRPC.RPCDB s args reply = phatRPC.Return err rep).
Proof.
  intros Hw Hne. unfold phatRPC.RPCDB, phatRPC.getMasterId, RunVR, IsMaster.
  destruct (negb _); [split; [done|by eexists _, _]|].
  rewrite Hw.
  destruct (N.eqb_spec (ReplicaNumber (Rstate (phatRPC.ReplicaServer s)))
              (View (Rstate (phatRPC.ReplicaServer s)) mod NREPLICAS)) as [Heq|Hneq];
    cbn [negb].
  - split.
    + intros _ command.
      destruct (N.eqb_spec (View (Rstate (phatRPC.ReplicaServer s)) mod (NREPLICAS + 1))
                  (ReplicaNumber (Rstate (phatRPC.ReplicaServer s)))); [congruence|done].
    + intros Hm%N.eqb_eq. congruence.
  - split; [done|]. intros _. by eexists _, _.
Qed.

(** ** The client library *)

Import phatclient.

Section ClientFacts.
Variable dial : uint -> uint -> bool.
Variable getMaster : uint -> uint -> option uint.

Lemma probe_keeps fuel i c c' :
  connected c ->
  probe dial getMaster fuel i c = Ok c' ->
  connected c' /\ NumServers c' = NumServers c
  /\ (MasterId c' = MasterId c
      \/ exists pass srv, pass < NumServers c /\ getMaster pass srv = Some (MasterId c')).
Proof.
  revert i c. induction fuel as [|fuel IH]; intros i c Hc; cbn [probe].
  { intros [= <-]. split_and!; [done|done|by left]. }
  destruct (N.ltb_spec i (NumServers c)) as [Hi|Hi]; [|intros [= <-]; split_and!; [done|done|by left]].
  unfold connected in Hc. rewrite Hc.
  destruct (getMaster i (Id c)) as [m|] eqn:Hg.
  { intros [= <-]. cbn. split_and!; [done|done|]. right. by exists i, (Id c). }
  unfold connectToServer.
  destruct (_ <=? _); [done|].
  destruct (dial _ _); cbn [obind snd]; intros H; apply IH in H; try done.
Qed.

(** X23.  When [connectToMaster] returns nil, the client is connected to
    the server recorded as its [Id], which is the recorded [MasterId]; that
    master id is the one it held before or one a server answered with. *)
Theorem connectToMaster_connected c c' :
  connected c ->
  connectToMaster dial getMaster c = Ok (true, c') ->
  connected c' /\ Id c' = MasterId c' /\ NumServers c' = NumServers c
  /\ (MasterId c' = MasterId c
      \/ exists pass srv, pass < NumServers c /\ getMaster pass srv = Some (MasterId c')).
Proof.
  intros Hc. unfold connectToMaster.
  destruct (probe _ _ _ _ _) as [c1| |] eqn:Hp; [|done..]. cbn [obind].
  apply probe_keeps in Hp as (Hc1 & HN & Hm); [|done].
  destruct (N.eqb_spec (MasterId c1) (Id c1)) as [Heq|Hne]; cbn [negb].
  - intros [= <-]. done.
  - destruct (_ <=? _); [done|]. destruct (dial _ _); [|done].
    intros [= <-]. cbn. done.
Qed.

Lemma probe_no_answer fuel i c :
  (forall pass srv, getMaster pass srv = None) ->
  (forall pass srv, dial pass srv = true) ->
  connected c ->
  exists c', probe dial getMaster fuel i c = Ok c'
    /\ connected c' /\ MasterId c' = MasterId c /\ NumServers c' = NumServers c.
Proof.
  intros Hg Hd. revert i c. induction fuel as [|fuel IH]; intros i c Hc; cbn [probe].
  { by exists c. }
  destruct (N.ltb_spec i (NumServers c)) as [Hi|Hi]; [|by exists c].
  unfold connected in Hc. rewrite Hc, Hg. unfold connectToServer.
  destruct (N.leb_spec (NumServers c) (wrap (Id c + wrap (i + 1)) mod NumServers c))
    as [Hbad|_].
  { pose proof (N.mod_upper_bound (wrap (Id c + wrap (i + 1))) (NumServers c)). lia. }
  rewrite Hd. cbn [obind snd].
  match goal with |- context [probe _ _ fuel ?j ?x] =>
    destruct (IH j x) as (c' & -> & ? & ? & ?); [done|] end.
  by exists c'.
Qed.

(** X24.  When no server answers [GetMaster] (all servers still reachable),
    [connectToMaster] nevertheless returns nil, connected to whichever
    server the client recorded as master before. *)
Theorem connectToMaster_without_any_answer c :
  (forall pass srv, getMaster pass srv = None) ->
  (forall pass srv, dial pass srv = true) ->
  connected c -> MasterId c < NumServers c ->
  exists c', connectToMaster dial getMaster c = Ok (true, c')
    /\ MasterId c' = MasterId c /\ Id c' = MasterId c
    /\ RpcClient c' = Some (MasterId c).
Proof.
  intros Hg Hd Hc Hm. unfold connectToMaster.
  destruct (probe_no_answer (N.to_nat (NumServers c)) 0 c Hg Hd Hc)
    as (c1 & -> & Hc1 & Hm1 & HN1).
  cbn [obind]. destruct (N.eqb_spec (MasterId c1) (Id c1)) as [Heq|Hne]; cbn [negb].
  - exists c1. split_and!; try done; congruence.
  - rewrite Hm1, HN1. destruct (N.leb_spec (NumServers c) (MasterId c)); [lia|].
    rewrite Hd. eexists. split; [reflexivity|]. done.
Qed.


Lemma probe_visits fuel (j : nat) c id0 :
  (forall pass srv, getMaster pass srv = None) ->
  (forall pass srv, dial pass srv = true) ->
  connected c -> NumServers c < 2 ^ 63 ->
  (j + fuel <= N.to_nat (NumServers c))%nat ->
  Id c = (id0 + triangular j) mod NumServers c ->
  exists c', probe dial getMaster fuel (N.of_nat j) c = Ok c'
    /\ Id c' = (id0 + triangular (j + fuel)) mod NumServers c
    /\ connected c' /\ NumServers c' = NumServers c /\ MasterId c' = MasterId c.
Proof.
  intros Hg Hd. revert j c. induction fuel as [|fuel IH]; intros j c Hc Hn Hj Hid; cbn [probe].
  { exists c. by rewrite Nat.add_0_r. }
  destruct (N.ltb_spec (N.of_nat j) (NumServers c)) as [_|]; [|lia].
  unfold connected in Hc. rewrite Hc, Hg. unfold connectToServer.
  assert (Hpos : NumServers c <> 0) by lia.
  pose proof (N.mod_upper_bound (id0 + triangular j) (NumServers c) Hpos) as Hlt.
  rewrite (wrap_small (N.of_nat j + 1)) by lia.
  rewrite (wrap_small (Id c + (N.of_nat j + 1))) by lia.
  assert (Hnew : (Id c + (N.of_nat j + 1)) mod NumServers c
                 = (id0 + triangular (S j)) mod NumServers c).
  { rewrite Hid. cbn [triangular]. rewrite N.Div0.add_mod_idemp_l. f_equal. lia. }
  rewrite Hnew.
  destruct (N.leb_spec (NumServers c) ((id0 + triangular (S j)) mod NumServers c)) as [Hbad|_].
  { pose proof (N.mod_upper_bound (id0 + triangular (S j)) (NumServers c) Hpos). lia. }
  rewrite Hd. cbn [obind snd].
  replace (N.of_nat j + 1) with (N.of_nat (S j)) by lia.
  match goal with |- context [probe _ _ fuel _ ?x] =>
    destruct (IH (S j) x) as (c' & -> & Hid' & ? & ? & ?); try done end.
  { cbn. lia. }
  exists c'. split_and!; try done. rewrite Hid'. cbn [NumServers]. f_equal. f_equal. f_equal. lia.
Qed.

(** X25.  While no server answers, the server asked in pass [k] of the loop
    of [connectToMaster] is number (Id + 1 + 2 + ... + k) mod NumServers:
    the step grows with every pass. *)
Theorem probe_visits_triangular k c :
  (forall pass srv, getMaster pass srv = None) ->
  (forall pass srv, dial pass srv = true) ->
  connected c -> NumServers c < 2 ^ 63 -> Id c < NumServers c ->
  (k <= N.to_nat (NumServers c))%nat ->
  exists c', probe dial getMaster k 0 c = Ok c'
    /\ RpcClient c' = Some ((Id c + triangular k) mod NumServers c).
Proof.
  intros Hg Hd Hc Hn Hid Hk.
  destruct (probe_visits k 0 c (Id c) Hg Hd Hc Hn) as (c' & Hp & Hid' & Hc' & _); [lia| |].
  { cbn. rewrite N.add_0_r. by rewrite N.mod_small. }
  exists c'. split; [exact Hp|]. unfold connected in Hc'. by rewrite Hc', Hid'.
Qed.

End ClientFacts.

(** ** The tree database *)

Section TreeFacts.
Import phatdb.


Lemma eqb_empty s : String.eqb s "" = bool_decide (s = "").
Proof. destruct s; reflexivity. Qed.

Lemma append_nil_l s : "" +:+ s = s.
Proof. reflexivity. Qed.

Lemma append_cons c s t : String c s +:+ t = String c (s +:+ t).
Proof. reflexivity. Qed.

Lemma append_nil_r s : s +:+ "" = s.
Proof. induction s as [|c s IH]; [done|]. by rewrite append_cons, IH. Qed.

Lemma append_snoc field c s : (field +:+ String c "") +:+ s = field +:+ String c s.
Proof. induction field as [|a f IH]; [done|]. by rewrite !append_cons, IH. Qed.

Lemma no_slash_snoc s c :
  no_slash s = true -> SplitOnSlash c = false -> no_slash (s +:+ String c "") = true.
Proof.
  intros Hs Hc. induction s as [|a s IH].
  - rewrite append_nil_l. cbn [no_slash]. by rewrite Hc.
  - rewrite append_cons. cbn [no_slash] in *.
    apply andb_true_iff in Hs as [-> Hs]. by rewrite IH.
Qed.

Lemma FieldsFunc_components field s :
  no_slash field = true ->
  Forall component (FieldsFunc SplitOnSlash field s).
Proof.
  revert field. induction s as [|c s IH]; intros field Hf; cbn [FieldsFunc].
  - rewrite eqb_empty. case_bool_decide; [constructor|]. by repeat constructor.
  - destruct (SplitOnSlash c) eqn:Hc.
    + rewrite eqb_empty. case_bool_decide.
      * by apply IH.
      * constructor; [done|]. by apply IH.
    + apply IH. by apply no_slash_snoc.
Qed.

Lemma FieldsFunc_app field a b :
  FieldsFunc SplitOnSlash field (a +:+ "/" +:+ b)
  = FieldsFunc SplitOnSlash field a ++ FieldsFunc SplitOnSlash "" b.
Proof.
  revert field. induction a as [|c a IH]; intros field.
  - rewrite append_nil_l, append_cons, append_nil_l. cbn [FieldsFunc].
    match goal with |- context [SplitOnSlash ?c] => change (SplitOnSlash c) with true end.
    cbn iota.
    rewrite eqb_empty. by case_bool_decide.
  - rewrite append_cons. cbn [FieldsFunc]. destruct (SplitOnSlash c).
    + rewrite eqb_empty. case_bool_decide; cbn [app]; by rewrite IH.
    + by rewrite IH.
Qed.

Lemma FieldsFunc_component field s :
  no_slash s = true -> field +:+ s <> "" ->
  FieldsFunc SplitOnSlash field s = [field +:+ s].
Proof.
  revert field. induction s as [|c s IH]; intros field Hs Hne;
    cbn [FieldsFunc no_slash] in *.
  - rewrite append_nil_r in *. rewrite eqb_empty. by rewrite bool_decide_eq_false_2.
  - apply andb_true_iff in Hs as [Hc Hs]. apply negb_true_iff in Hc. rewrite Hc.
    rewrite IH; [|done|].
    + by rewrite append_snoc.
    + rewrite append_snoc. by destruct field.
Qed.

Lemma GetNodePath_join a b :
  GetNodePath (a +:+ "/" +:+ b) = GetNodePath a ++ GetNodePath b.
Proof. apply FieldsFunc_app. Qed.

(** X26.  [GetNodePath] yields only components that are not empty and hold
    no '/'; the path of [a/b] is the path of [a] followed by the path of
    [b], so repeated, leading and trailing slashes do not count; a single
    component is its own path. *)
Theorem GetNodePath_components path a b part :
  Forall component (GetNodePath path)
  /\ GetNodePath (a +:+ "/" +:+ b) = GetNodePath a ++ GetNodePath b
  /\ (component part -> GetNodePath part = [part]).
Proof.
  split_and!.
  - by apply FieldsFunc_components.
  - apply FieldsFunc_app.
  - intros [Hne Hs]. unfold GetNodePath. rewrite FieldsFunc_component; done.
Qed.

(** *** The tree *)

Lemma FileNode_eta n : mkFileNode (Children n) (Data n) = n.
Proof. by destruct n. Qed.

(** With [createMissing] false the walk writes nothing. *)
Lemma traverseToNode_read root parts :
  traverseToNode root parts false
  = (root, match lookup_node parts root with
           | Some n => inr n
           | None => inl ErrNotExist
           end).
Proof.
  revert root. induction parts as [|part rest IH]; intros root; [done|].
  cbn [traverseToNode lookup_node].
  destruct (Children root !! part) as [child|] eqn:Hc; [|done].
  rewrite IH. by rewrite insert_id, FileNode_eta.
Qed.

Lemma lookup_ensure parts root :
  is_Some (lookup_node parts (ensure parts root)).
Proof.
  revert root. induction parts as [|part rest IH]; intros root; [by eexists|].
  cbn [ensure lookup_node Children]. rewrite lookup_insert_eq. apply IH.
Qed.

Lemma traverseToNode_create root parts :
  exists n, traverseToNode root parts true = (ensure parts root, inr n)
            /\ lookup_node parts (ensure parts root) = Some n.
Proof.
  revert root. induction parts as [|part rest IH]; intros root; [by eexists|].
  cbn [traverseToNode ensure lookup_node Children]. rewrite lookup_insert_eq.
  destruct (Children root !! part) as [child|] eqn:Hc; cbn [negb default from_option id].
  - destruct (IH child) as (n & -> & Hn). by exists n.
  - destruct (IH newNode) as (n & -> & Hn). by exists n.
Qed.

Lemma ensure_existing parts root n :
  lookup_node parts root = Some n -> ensure parts root = root.
Proof.
  revert root. induction parts as [|part rest IH]; intros root; [done|].
  cbn [ensure lookup_node]. destruct (Children root !! part) as [child|] eqn:Hc; [|done].
  intros H. cbn [default from_option id]. rewrite (IH _ H). by rewrite insert_id, FileNode_eta.
Qed.

Lemma lookup_newNode parts : parts <> [] -> lookup_node parts newNode = None.
Proof. destruct parts; [done|]. intros _. cbn. by rewrite lookup_empty. Qed.

Lemma ensure_missing parts root :
  lookup_node parts root = None -> lookup_node parts (ensure parts root) = Some newNode.
Proof.
  revert root. induction parts as [|part rest IH]; intros root; [done|].
  cbn [ensure lookup_node Children]. rewrite lookup_insert_eq.
  destruct (Children root !! part) as [child|] eqn:Hc; cbn [default from_option id].
  - apply IH.
  - intros _. destruct rest as [|p rest']; [done|]. apply IH. by apply lookup_newNode.
Qed.

(** A walk that creates what is missing leaves the data of every node that
    was there as it is. *)
Lemma ensure_keeps parts q root m :
  lookup_node q root = Some m ->
  exists m', lookup_node q (ensure parts root) = Some m' /\ Data m' = Data m.
Proof.
  revert q root m. induction parts as [|part rest IH]; intros q root m Hq.
  { by exists m. }
  destruct q as [|x q'].
  { injection Hq as <-. by eexists. }
  cbn [lookup_node] in Hq. destruct (Children root !! x) as [c|] eqn:Hx; [|done].
  cbn [ensure lookup_node Children].
  destruct (decide (part = x)) as [->|Hne].
  - rewrite lookup_insert_eq, Hx. cbn [default from_option id]. by apply IH.
  - rewrite lookup_insert_ne, Hx by done. by exists m.
Qed.

Lemma lookup_store parts n root :
  is_Some (lookup_node parts root) -> lookup_node parts (store parts n root) = Some n.
Proof.
  revert root. induction parts as [|part rest IH]; intros root; [done|].
  cbn [store lookup_node]. destruct (Children root !! part) as [child|] eqn:Hc.
  - intros H. cbn [lookup_node Children]. rewrite lookup_insert_eq. by apply IH.
  - by intros [? ?].
Qed.

(** A write to the data of the node at [parts] shows at no other path. *)
Lemma lookup_store_other parts q n n0 root :
  lookup_node parts root = Some n0 -> Children n = Children n0 -> q <> parts ->
  Data <$> lookup_node q (store parts n root) = Data <$> lookup_node q root.
Proof.
  revert q root. induction parts as [|part rest IH]; intros q root Hn0 Hch Hne.
  - injection Hn0 as <-. destruct q as [|x q']; [done|].
    cbn [store lookup_node]. by rewrite Hch.
  - cbn [store lookup_node] in *.
    destruct (Children root !! part) as [child|] eqn:Hc; [|done].
    destruct q as [|x q']; [done|].
    cbn [lookup_node Children].
    destruct (decide (part = x)) as [->|Hx].
    + rewrite lookup_insert_eq, Hc. apply IH; [done|done|congruence].
    + by rewrite lookup_insert_ne.
Qed.

(** X27.  On a path whose node is missing or was never written (version
    0), [createNode] returns the node's data with the value and version 1;
    [getNode] then returns that data, a second [createNode] on the path
    returns [os.ErrExist] and changes nothing, and every node that was
    there at another path is still there with its data. *)
Theorem createNode_getNode root path val :
  (forall n, lookup_node (GetNodePath path) root = Some n ->
             Version (Stats (Data n)) = 0) ->
  exists root' d,
    createNode root path val = Ok (root', inr d)
    /\ Value d = val /\ Version (Stats d) = 1
    /\ getNode root' path = (root', inr d)
    /\ (forall val', createNode root' path val' = Ok (root', inl ErrExist))
    /\ (forall q m, q <> GetNodePath path -> lookup_node q root = Some m ->
          exists m', lookup_node q root' = Some m' /\ Data m' = Data m).
Proof.
  intros Hfresh. unfold createNode, getNode. cbv zeta.
  set (parts := GetNodePath path) in *. clearbody parts.
  destruct (traverseToNode_create root parts) as (n & Ht & Hn).
  rewrite Ht.
  assert (Hv : Version (Stats (Data n)) = 0).
  { destruct (lookup_node parts root) as [n0|] eqn:H0.
    - rewrite (ensure_existing _ _ _ H0) in Hn. apply Hfresh. congruence.
    - rewrite (ensure_missing _ _ H0) in Hn. by injection Hn as <-. }
  rewrite Hv. cbn [N.eqb negb].
  set (n' := _setNode n val).
  set (root' := store parts n' (ensure parts root)).
  assert (Hn' : lookup_node parts root' = Some n').
  { apply lookup_store. by rewrite Hn. }
  exists root', (Data n'). split_and!.
  - done.
  - done.
  - cbn. by rewrite Hv.
  - by rewrite traverseToNode_read, Hn'.
  - intros val'. destruct (traverseToNode_create root' parts) as (n2 & Ht2 & Hn2).
    rewrite Ht2. rewrite (ensure_existing _ _ _ Hn') in *.
    assert (n2 = n') as -> by congruence.
    cbn. by rewrite Hv.
  - intros q m Hq Hm.
    destruct (ensure_keeps parts q root m Hm) as (m1 & Hm1 & Hd).
    pose proof (lookup_store_other parts q n' n (ensure parts root) Hn eq_refl Hq) as H.
    fold root' in H. rewrite Hm1 in H.
    destruct (lookup_node q root') as [m'|]; [|done].
    exists m'. split; [done|]. cbn in H. congruence.
Qed.

(** X28.  [setNode] on a missing path returns [os.ErrNotExist] and changes
    nothing; on a node that is there it replaces the value, adds one to
    the version (wrapping) and leaves the other two counters; [getNode]
    then returns that data, and at every other path the same nodes are
    there with the same data. *)
Theorem setNode_getNode root path val :
  match lookup_node (GetNodePath path) root with
  | None => setNode root path val = (root, inl ErrNotExist)
  | Some n =>
      let d := mkDataNode val
                 (mkStatNode (wrap (Version (Stats (Data n)) + 1))
                             (CVersion (Stats (Data n))) (NumChildren (Stats (Data n)))) in
      exists root',
        setNode root path val = (root', inr d)
        /\ getNode root' path = (root', inr d)
        /\ (forall q, q <> GetNodePath path ->
              Data <$> lookup_node q root' = Data <$> lookup_node q root)
  end.
Proof.
  unfold setNode, getNode. cbv zeta.
  set (parts := GetNodePath path) in *. clearbody parts.
  rewrite traverseToNode_read.
  destruct (lookup_node parts root) as [n|] eqn:Hn; [|done].
  exists (store parts (_setNode n val) root). split_and!.
  - done.
  - rewrite traverseToNode_read, lookup_store; [done|]. by rewrite Hn.
  - intros q Hq. by apply (lookup_store_other parts q _ n).
Qed.

Lemma lookup_node_snoc pp x root :
  lookup_node (pp ++ [x]) root = lookup_node pp root ≫= λ p, Children p !! x.
Proof.
  revert root. induction pp as [|a pp IH]; intros root; cbn [app lookup_node].
  - cbn. by destruct (Children root !! x).
  - destruct (Children root !! a) as [c|]; [apply IH|done].
Qed.

Lemma lookup_store_delete_gone pp x q root p :
  lookup_node pp root = Some p ->
  lookup_node (pp ++ x :: q)
    (store pp (mkFileNode (delete x (Children p)) (Data p)) root) = None.
Proof.
  revert root. induction pp as [|a pp IH]; intros root Hp.
  - cbn [app store lookup_node Children]. by rewrite lookup_delete_eq.
  - cbn [app store lookup_node] in *.
    destruct (Children root !! a) as [c|] eqn:Hc; [|done].
    cbn [lookup_node Children]. rewrite lookup_insert_eq. by apply IH.
Qed.

Lemma lookup_store_delete_other pp x q root p :
  lookup_node pp root = Some p -> ¬ (pp ++ [x]) `prefix_of` q ->
  Data <$> lookup_node q
    (store pp (mkFileNode (delete x (Children p)) (Data p)) root)
  = Data <$> lookup_node q root.
Proof.
  revert q root. induction pp as [|a pp IH]; intros q root Hp Hq.
  - injection Hp as <-. cbn [store]. destruct q as [|y q']; [done|].
    cbn [lookup_node Children]. rewrite lookup_delete_ne; [done|].
    intros ->. apply Hq. by apply prefix_cons, prefix_nil.
  - cbn [store lookup_node] in *.
    destruct (Children root !! a) as [c|] eqn:Hc; [|done].
    destruct q as [|y q']; [done|].
    cbn [lookup_node Children].
    destruct (decide (a = y)) as [->|Hy].
    + rewrite lookup_insert_eq, Hc. apply IH; [done|].
      intros Hpre. apply Hq. by apply prefix_cons.
    + by rewrite lookup_insert_ne.
Qed.

Lemma removelast_last (l : list string) :
  l <> [] -> l = removelast l ++ [List.last l ""].
Proof. intros H. by apply app_removelast_last. Qed.

(** X29.  [deleteNode] panics on a path without components (the root);
    on a missing path it returns [os.ErrNotExist] and changes nothing; on
    a node that is there it returns the node's stats and removes the node
    with everything below it, while at every path that does not pass
    through the node the same nodes are there with the same data: the
    counters of the parent are not touched. *)
Theorem deleteNode_subtree root path :
  match GetNodePath path, lookup_node (GetNodePath path) root with
  | [], _ => deleteNode root path = Panic
  | _ :: _, None => deleteNode root path = Ok (root, inl ErrNotExist)
  | _ :: _, Some n =>
      exists root',
        deleteNode root path = Ok (root', inr (Stats (Data n)))
        /\ (forall q, lookup_node (GetNodePath path ++ q) root' = None)
        /\ (forall q, ¬ GetNodePath path `prefix_of` q ->
              Data <$> lookup_node q root' = Data <$> lookup_node q root)
  end.
Proof.
  unfold deleteNode. cbv zeta.
  set (parts := GetNodePath path) in *. clearbody parts.
  rewrite traverseToNode_read.
  destruct parts as [|a l] eqn:Hparts; [done|]. rewrite <- Hparts.
  assert (Hne : parts <> []) by (by rewrite Hparts).
  clear Hparts.
  destruct (lookup_node parts root) as [n|] eqn:Hn.
  2: { by destruct parts. }
  pose proof (removelast_last parts Hne) as Hsplit.
  set (pp := removelast parts) in *. set (x := List.last parts "") in *.
  clearbody pp x. subst parts.
  rewrite lookup_node_snoc in Hn.
  destruct (lookup_node pp root) as [p|] eqn:Hp; [|done].
  rewrite traverseToNode_read, Hp.
  eexists. split_and!.
  - by destruct (pp ++ [x]) eqn:E; [destruct pp; done|].
  - intros q. rewrite <- app_assoc. cbn [app]. by apply lookup_store_delete_gone.
  - intros q Hq. by apply lookup_store_delete_other.
Qed.

Lemma Data_ensure parts root : Data (ensure parts root) = Data root.
Proof. by destruct parts. Qed.

Lemma lookup_node_app_None pa pb root :
  lookup_node pa root = None -> lookup_node (pa ++ pb) root = None.
Proof.
  revert root. induction pa as [|a pa IH]; intros root; [done|].
  cbn [app lookup_node]. destruct (Children root !! a); [apply IH|done].
Qed.

(** The node a creating walk makes on its way has the zero data and the
    one child the walk went on to. *)
Lemma ensure_on_the_way pa x pb root :
  lookup_node pa root = None ->
  exists m, lookup_node pa (ensure (pa ++ x :: pb) root) = Some m
            /\ Data m = Data newNode /\ dom (Children m) = {[x]}.
Proof.
  revert root. induction pa as [|a pa IH]; intros root; [done|].
  cbn [app ensure lookup_node Children]. rewrite lookup_insert_eq.
  destruct (Children root !! a) as [c|] eqn:Hc; cbn [default from_option id].
  - apply IH.
  - intros _. destruct pa as [|a' pa'].
    + cbn [app ensure lookup_node]. eexists. split; [done|]. split; [done|].
      cbn [Children newNode]. by rewrite insert_empty, dom_singleton_L.
    + apply IH. by apply lookup_newNode.
Qed.

(** A write to the data of a node changes the children of no node. *)
Lemma lookup_store_dom parts q n n0 root :
  lookup_node parts root = Some n0 -> Children n = Children n0 ->
  (dom ∘ Children) <$> lookup_node q (store parts n root)
  = (dom ∘ Children) <$> lookup_node q root.
Proof.
  revert q root. induction parts as [|part rest IH]; intros q root Hn0 Hch.
  - injection Hn0 as <-. cbn [store]. destruct q as [|y q'].
    + cbn. by rewrite Hch.
    + cbn [lookup_node]. by rewrite Hch.
  - cbn [store lookup_node] in *.
    destruct (Children root !! part) as [child|] eqn:Hc; [|done].
    destruct q as [|y q'].
    + cbn. f_equal. by apply dom_insert_lookup_L.
    + cbn [lookup_node Children]. destruct (decide (part = y)) as [->|Hy].
      * rewrite lookup_insert_eq, Hc. by apply IH.
      * by rewrite lookup_insert_ne.
Qed.


(** X30.  When [a] is missing, [createNode] on [a/b] (with [b] not empty)
    makes [a] on the way: afterwards [existsNode] reports [a], [getNode]
    returns the empty value and version 0 for it, [getChildren] lists
    exactly the first component of [b], and a [createNode] on [a] itself
    still succeeds with version 1 rather than [os.ErrExist]. *)
Theorem createNode_implicit_ancestor root a b x rest val val' :
  lookup_node (GetNodePath a) root = None ->
  GetNodePath b = x :: rest ->
  exists root' root'',
    createNode root (a +:+ "/" +:+ b) val
      = Ok (root', inr (mkDataNode val (mkStatNode 1 0 0)))
    /\ existsNode root' a = (root', true)
    /\ getNode root' a = (root', inr (mkDataNode "" (mkStatNode 0 0 0)))
    /\ getChildren root' a = (root', inr {[x]})
    /\ createNode root' a val'
       = Ok (root'', inr (mkDataNode val' (mkStatNode 1 0 0))).
Proof.
  intros Ha Hb. unfold createNode, existsNode, getNode, getChildren. cbv zeta.
  rewrite GetNodePath_join, Hb.
  set (pa := GetNodePath a) in *. clearbody pa.
  set (parts := pa ++ x :: rest).
  destruct (traverseToNode_create root parts) as (n & Ht & Hn).
  rewrite Ht.
  rewrite (ensure_missing parts root (lookup_node_app_None _ _ _ Ha)) in Hn.
  injection Hn as <-.
  pose proof (ensure_missing parts root (lookup_node_app_None _ _ _ Ha)) as Hn.
  cbn [newNode Data Stats Version N.eqb negb].
  set (n' := _setNode _ val).
  set (root' := store parts n' (ensure parts root)).
  destruct (ensure_on_the_way pa x rest root Ha) as (m & Hm & Hd & Hc).
  fold parts in Hm.
  assert (Hq : pa <> parts).
  { unfold parts. intros E. apply (f_equal length) in E.
    rewrite length_app in E. cbn in E. lia. }
  pose proof (lookup_store_other parts pa n' newNode _ Hn eq_refl Hq) as H1.
  pose proof (lookup_store_dom parts pa n' newNode _ Hn eq_refl) as H2.
  fold root' in H1, H2. rewrite Hm in H1, H2.
  destruct (lookup_node pa root') as [m'|] eqn:Hm'; [|done].
  cbn in H1, H2. injection H1 as H1. injection H2 as H2.
  rewrite Hd in H1. rewrite Hc in H2.
  destruct (traverseToNode_create root' pa) as (n2 & Ht2 & Hn2).
  rewrite (ensure_existing _ _ _ Hm') in *.
  assert (n2 = m') as -> by congruence.
  eexists root', _. split_and!.
  - done.
  - by rewrite traverseToNode_read, Hm'.
  - by rewrite traverseToNode_read, Hm', H1.
  - by rewrite traverseToNode_read, Hm', H2.
  - rewrite Ht2, H1. cbn [newNode Data Stats Version N.eqb negb].
    unfold _setNode. rewrite H1. done.
Qed.

End TreeFacts.

(** ** The further properties at the scenarios *)

Lemma enterRecovery_in_step r : in_step r -> in_step (enterRecovery r).
Proof. intros H. by eapply in_step_same. Qed.

Lemma normal_case_keeps_in_step_witness : in_step follower_op1.
Proof.
  apply (normal_case_keeps_in_step enterRecovery pr_Lease enterRecovery_in_step
           (OpPrepare 100 prepare1) (initReplica 0 1) follower_op1).
  - apply initReplica_in_step.
  - reflexivity.
  - vm_compute. reflexivity.
Defined.

Lemma doCommit_applies_log_in_order_witness :
  exists r',
    doCommit enterRecovery 2 follower_op2 = Ok r'
    /\ CommitNumber (Rstate r') = 2
    /\ Applied r' = [Some "CREATE /a"; Some "CREATE /b"].
Proof.
  destruct (doCommit_applies_log_in_order enterRecovery 2 follower_op2 log2)
    as (r' & H & HR & HA & _).
  - reflexivity.
  - reflexivity.
  - reflexivity.
  - vm_compute. discriminate.
  - reflexivity.
  - exists r'. split; [exact H|]. rewrite HR, HA. split; reflexivity.
Defined.

Lemma Commit_same_view_witness :
  exists r',
    Commit enterRecovery 300 (mkCommitArgs 0 2) follower_op2
    = Ok (Replied (mkHeartbeatReply 1 2000000300), r')
    /\ CommitNumber (Rstate r') = 2
    /\ Applied r' = [Some "CREATE /a"; Some "CREATE /b"].
Proof.
  destruct (Commit_same_view enterRecovery 300 (mkCommitArgs 0 2) follower_op2 log2)
    as (r' & H & _ & HC & HA & _).
  - reflexivity.
  - reflexivity.
  - reflexivity.
  - vm_compute. discriminate.
  - reflexivity.
  - exists r'. split; [exact H|]. rewrite HC, HA. split; reflexivity.
Defined.

Lemma Prepare_replies_iff_witness :
  exists reply r', Prepare enterRecovery 200 prepare2 follower_op1 = Ok (Replied reply, r').
Proof.
  destruct (Prepare_replies_iff enterRecovery 200 prepare2 follower_op1 log1)
    as [[_ Hyes] _].
  - reflexivity.
  - reflexivity.
  - apply Hyes. repeat split.
Defined.

Lemma RunVR_one_op_in_flight_witness :
  exists r1,
    RunVR "CREATE /a" master_idle = Ok r1
    /\ OpNumber (Rstate r1) = CommitNumber (Rstate r1) + 1
    /\ RunVR "CREATE /b" r1 = Fatal.
Proof.
  eexists. split; [vm_compute; reflexivity|].
  match goal with |- OpNumber (Rstate ?r1) = _ /\ _ =>
    destruct (RunVR_one_op_in_flight "CREATE /a" "CREATE /b" master_idle r1)
      as (_ & _ & Hop & _ & Hfatal)
  end.
  - reflexivity.
  - vm_compute. reflexivity.
  - split; [exact Hop|exact Hfatal].
Defined.

Lemma replicated_op_ends_in_panic_witness :
  exists m1 reply f1,
    RunVR "CREATE /a" master_idle = Ok m1
    /\ Prepare enterRecovery 100 prepare1 (initReplica 0 1) = Ok (Replied reply, f1)
    /\ Phatlog m1 = Some log1 /\ Phatlog f1 = Some log1
    /\ handlePrepareOK enterRecovery pr_Lease 300 reply m1 = Panic.
Proof.
  destruct (replicated_op_ends_in_panic enterRecovery pr_Lease "CREATE /a" 100 300
              master_idle (initReplica 0 1) phatlog.EmptyLog phatlog.EmptyLog)
    as (m1 & reply & f1 & Hrun & _ & Hlm & _ & _ & _ & HP & _ & _ & Hlf & _ & _ & Hdie).
  - reflexivity.
  - reflexivity.
  - reflexivity.
  - reflexivity.
  - reflexivity.
  - reflexivity.
  - reflexivity.
  - reflexivity.
  - vm_compute. discriminate.
  - reflexivity.
  - reflexivity.
  - exists m1, reply, f1.
    split_and!; [exact Hrun|exact HP|exact Hlm|exact Hlf|exact Hdie].
Defined.

Lemma Heartbeat_never_returns_witness :
  Heartbeats (Mstate master_op1) = None
  /\ Heartbeat 300 1 2000000100 master_op1 = Panic.
Proof.
  destruct (Heartbeat_never_returns enterRecovery pr_Lease
              [OpBecomeMaster 0; OpNormal (OpRunVR "CREATE /a")] 0 0 master_op1)
    as [Hnil Hdie].
  - intros r0 H. exact H.
  - repeat constructor.
  - vm_compute. reflexivity.
  - split; [exact Hnil|]. exact (Hdie 300%Z 1 2000000100%Z).
Defined.

Lemma ReplicaTimeout_master_steps_down_witness :
  IsMaster (ReplicaTimeout 2000000000 master_idle) = false
  /\ View (Rstate (ReplicaTimeout 2000000000 master_idle)) = 1.
Proof.
  destruct (ReplicaTimeout_master_steps_down 2000000000 master_idle)
    as (Hm & Hv & _).
  - reflexivity.
  - reflexivity.
  - split; [exact Hm|exact Hv].
Defined.

Lemma StartViewChange_counted_once_witness :
  StartViewChange svc_from_1 (StartViewChange svc_from_1 (initReplica 0 2))
  = StartViewChange svc_from_1 (initReplica 0 2).
Proof. apply (StartViewChange_counted_once svc_from_1 (initReplica 0 2)). reflexivity. Defined.

Lemma StartViewChange_hands_over_witness :
  Outbox (StartViewChange svc_from_1 (initReplica 0 2))
  = [BcastStartViewChange (mkStartViewChangeArgs 1 2); SyncDoViewChange 1 dvc_idle_2]
  /\ exists m', DoViewChange 2000000300 dvc_idle_2 candidate1 = Ok m'
                /\ IsMaster m' = true /\ OpNumber (Rstate m') = 0.
Proof.
  destruct (StartViewChange_hands_over 2000000300 svc_from_1 (initReplica 0 2) candidate1)
    as (_ & _ & Hob & Hm).
  - reflexivity.
  - reflexivity.
  - reflexivity.
  - vm_compute. discriminate.
  - split; [exact Hob|].
    destruct Hm as (m' & H & Hmaster & _ & _ & Hop & _).
    + reflexivity.
    + reflexivity.
    + reflexivity.
    + exists m'. split; [exact H|]. split; [exact Hmaster|exact Hop].
Defined.

Lemma DoViewChange_counted_once_witness :
  exists r1,
    DoViewChange 2000000300 dvc_from_2 candidate1 = Ok r1
    /\ DoViewChange 2000000400 dvc_from_2 r1 = Ok r1.
Proof.
  eexists. split; [vm_compute; reflexivity|].
  apply (DoViewChange_counted_once 2000000300 2000000400 dvc_from_2 dvc_from_2 candidate1).
  - reflexivity.
  - reflexivity.
  - vm_compute. reflexivity.
Defined.

Lemma DoViewChange_out_of_range_witness :
  DoViewChange 2000000300 dvc_from_3 candidate1 = Panic.
Proof.
  apply (DoViewChange_out_of_range 2000000300 dvc_from_3 candidate1).
  - vm_compute. discriminate.
  - reflexivity.
Defined.

Lemma DoViewChange_decides_once_witness :
  exists r1 r2,
    DoViewChange 2000000300 dvc_from_2 candidate1 = Ok r1
    /\ DoViewChange 2000000400 dvc_from_0 r1 = Ok r2
    /\ Rstate r2 = Rstate r1 /\ Phatlog r2 = Phatlog r1.
Proof.
  eexists _, _. split; [vm_compute; reflexivity|]. split; [vm_compute; reflexivity|].
  match goal with |- Rstate ?r2 = Rstate ?r1 /\ _ =>
    destruct (DoViewChange_decides_once 2000000400 dvc_from_0 r1 r2) as (HR & _ & HL & _)
  end.
  - vm_compute. discriminate.
  - reflexivity.
  - vm_compute. reflexivity.
  - split; [exact HR|exact HL].
Defined.

Lemma calcMasterView_maxima_witness :
  View (Rstate (calcMasterView two_messages)) = 3
  /\ CommitNumber (Rstate (calcMasterView two_messages)) = 4.
Proof.
  destruct (calcMasterView_maxima two_messages) as (Hv & Hc & _).
  - reflexivity.
  - rewrite Hv, Hc. split; reflexivity.
Defined.

Lemma sendAndRecvTo_done_iff_witness : Transport.done gathered = true.
Proof.
  destruct (sendAndRecvTo_done_iff unit reachable answered unsatisfied 0 ∅ [1] gathered)
    as [_ H].
  - eapply rtc_l; [|apply rtc_refl]. exists 0%nat. reflexivity.
  - apply H. right. reflexivity.
Defined.

Lemma sendAndRecvTo_exit_needs_all_replies_witness :
  Transport.i (Transport.start 0 ∅ [0; 1])
  + N.of_nat (length (Transport.running (Transport.start 0 ∅ [0; 1]))) <= 1.
Proof.
  destruct (sendAndRecvTo_exit_needs_all_replies unit reachable answered unsatisfied
              0 ∅ [0; 1] (Transport.start 0 ∅ [0; 1])) as (_ & H & _).
  - apply rtc_refl.
  - exact H.
Defined.

Lemma sendAndRecvTo_returns_when_all_answer_witness :
  Transport.exited gathered = true /\ Transport.done gathered = true.
Proof.
  destruct (sendAndRecvTo_returns_when_all_answer unit reachable answered unsatisfied
              (fun _ _ => eq_refl) (fun _ _ => ex_intro _ tt eq_refl)
              0 ∅ [1] 1 gathered) as (_ & _ & H).
  - apply not_elem_of_cons. split; [discriminate|apply not_elem_of_nil].
  - eapply nsteps_l; [|apply nsteps_O]. exists 0%nat. reflexivity.
  - exact H.
Defined.

Lemma sendAndRecv_picks_the_others_witness :
  sendAndRecv 2 1 ∅ = Ok (Transport.start 1 ∅ [0; 2]).
Proof.
  destruct (sendAndRecv_picks_the_others 2 1 ∅) as (reps & H & Hreps & _).
  - vm_compute. split; discriminate.
  - rewrite H, Hreps. reflexivity.
Defined.

Lemma RPCDB_write_needs_agreeing_ids_witness :
  RPCDB facade_view2 create_a no_reply = ThroughRunVR create_a
  /\ RunVR "CREATE /a" (ReplicaServer facade_view2) = Fatal.
Proof.
  destruct (RPCDB_write_needs_agreeing_ids facade_view2 create_a no_reply) as [H _].
  - reflexivity.
  - vm_compute. discriminate.
  - split; [reflexivity|]. apply H. reflexivity.
Defined.

Lemma connectToMaster_connected_witness :
  exists c',
    connectToMaster reachable names_1 client0 = Ok (true, c')
    /\ connected c' /\ Id c' = 1.
Proof.
  eexists. split; [vm_compute; reflexivity|].
  match goal with |- connected ?c' /\ _ =>
    destruct (connectToMaster_connected reachable names_1 client0 c') as (Hc & Hid & _)
  end.
  - reflexivity.
  - vm_compute. reflexivity.
  - split; [exact Hc|reflexivity].
Defined.

Lemma connectToMaster_without_any_answer_witness :
  exists c',
    connectToMaster reachable silent client0 = Ok (true, c')
    /\ MasterId c' = MasterId client0 /\ Id c' = MasterId client0
    /\ RpcClient c' = Some (MasterId client0).
Proof.
  apply (connectToMaster_without_any_answer reachable silent client0).
  - reflexivity.
  - reflexivity.
  - reflexivity.
  - reflexivity.
Defined.

Lemma probe_visits_triangular_witness :
  exists c',
    probe reachable silent 2 0 client0 = Ok c'
    /\ RpcClient c' = Some ((Id client0 + triangular 2) mod NumServers client0).
Proof.
  apply (probe_visits_triangular reachable silent 2 client0).
  - reflexivity.
  - reflexivity.
  - reflexivity.
  - reflexivity.
  - reflexivity.
  - vm_compute. repeat constructor.
Defined.

Lemma StartView_then_Prepare_witness :
  exists r',
    Prepare enterRecovery 500 next_prepare (StartView 400 dvc_from_0 candidate1)
    = Ok (Replied (mkPrepareReply 1 2 1 (500 + LEASE)%Z), r')
    /\ Phatlog r' = Some (phatlog.Add log1 2 "CREATE /c").
Proof.
  destruct (StartView_then_Prepare enterRecovery 400 500 dvc_from_0 next_prepare
              candidate1 log1) as (_ & _ & r' & H & _ & _ & Hl & _).
  - reflexivity.
  - reflexivity.
  - reflexivity.
  - reflexivity.
  - reflexivity.
  - vm_compute. discriminate.
  - exists r'. split; [exact H|exact Hl].
Defined.

Lemma StartViewChange_after_timeout_witness :
  View (Rstate (StartViewChange svc_from_1 (ReplicaTimeout 2000000000 (initReplica 0 2)))) = 1
  /\ Status_ (Rstate (StartViewChange svc_from_1 (ReplicaTimeout 2000000000 (initReplica 0 2))))
     = ViewChange.
Proof.
  destruct (StartViewChange_after_timeout 2000000000 svc_from_1 (initReplica 0 2))
    as (_ & Hv & Hs).
  - reflexivity.
  - reflexivity.
  - reflexivity.
  - reflexivity.
  - vm_compute. discriminate.
  - split; [exact Hv|exact Hs].
Defined.

Lemma createNode_getNode_witness :
  exists root' d,
    phatdb.createNode phatdb.newNode "/a/b" "v" = Ok (root', inr d)
    /\ phatdb.Value d = "v" /\ phatdb.Version (phatdb.Stats d) = 1
    /\ phatdb.createNode root' "/a/b" "w" = Ok (root', inl phatdb.ErrExist).
Proof.
  destruct (createNode_getNode phatdb.newNode "/a/b" "v")
    as (root' & d & Hc & Hv & Hs & _ & He & _).
  - intros n. vm_compute. discriminate.
  - exists root', d. split_and!; [exact Hc|exact Hv|exact Hs|exact (He "w")].
Defined.

Lemma createNode_implicit_ancestor_witness :
  exists root' root'',
    phatdb.createNode phatdb.newNode "a/b" "v"
      = Ok (root', inr (phatdb.mkDataNode "v" (phatdb.mkStatNode 1 0 0)))
    /\ phatdb.existsNode root' "a" = (root', true)
    /\ phatdb.createNode root' "a" "w"
       = Ok (root'', inr (phatdb.mkDataNode "w" (phatdb.mkStatNode 1 0 0))).
Proof.
  destruct (createNode_implicit_ancestor phatdb.newNode "a" "b" "b" [] "v" "w")
    as (root' & root'' & Hc & He & _ & _ & Hc').
  - vm_compute. reflexivity.
  - vm_compute. reflexivity.
  - exists root', root''. split_and!; [exact Hc|exact He|exact Hc'].
Defined.
